(** * gdrive-mcp: the document edit compiler and the Markdown renderer

    A shallow embedding of the core of the repository:
    - [update-doc-content.ts]: [extractDocId], [generateRequestsFromContent],
      [handleJsonPathOperation], [buildUpdateSummary], [handler];
    - [get-contents.ts] / [get-doc-contents.ts]: [processTextRun],
      [processParagraph], [processTable], [convertDocToMarkdown].

    Conventions.  A JavaScript string is a [string]: one [ascii] per UTF-16
    code unit, so the development covers the strings whose code units are
    below 256; [String.length] is the [.length] of the source.  Indices of
    the document index space are integers and are modelled in [Z].  An
    optional property ([undefined] or [null] in the source) is an [option];
    truthiness tests of the source are spelled out by the [truthy_*]
    functions.  A [throw] is the left summand of [result]. *)

From Stdlib Require Import String Ascii List ZArith Bool Lia QArith.
From Stdlib Require Import DecimalString.
Import ListNotations.

Open Scope string_scope.
Open Scope Z_scope.

Set Implicit Arguments.

(** ** JavaScript strings *)

Module Js.

(** The one-character strings that cannot be typed inside a literal. *)
Definition nl : string := String "010"%char EmptyString.
Definition dquote : string := String "034"%char EmptyString.

(** [s.length]. *)
Definition length (s : string) : Z := Z.of_nat (String.length s).

(** [String(n)] for an integer [n]. *)
Definition of_number (n : Z) : string := NilZero.string_of_int (Z.to_int n).

(** [l.join(sep)]. *)
Definition join (sep : string) (l : list string) : string := String.concat sep l.

(** [s.repeat(n)]. *)
Fixpoint repeat (s : string) (n : nat) : string :=
  match n with
  | O => EmptyString
  | S k => s ++ repeat s k
  end.

(** [hay.includes(needle)]. *)
Fixpoint includes (needle hay : string) : bool :=
  String.prefix needle hay ||
  match hay with
  | EmptyString => false
  | String _ rest => includes needle rest
  end.

(** [s.substring(0, n)]. *)
Definition substring0 (n : nat) (s : string) : string := String.substring 0 n s.

Definition is_newline (c : ascii) : bool := Ascii.eqb c "010"%char.

(** White space and line terminators of ECMAScript among the code units
    below 256: TAB, LF, VT, FF, CR, SP and NBSP. *)
Definition is_space (c : ascii) : bool :=
  let n := nat_of_ascii c in
  (Nat.leb 9 n && Nat.leb n 13) || Nat.eqb n 32 || Nat.eqb n 160.

(** [s.replace(/\n/g, " ")]. *)
Fixpoint newlines_to_spaces (s : string) : string :=
  match s with
  | EmptyString => EmptyString
  | String c rest =>
      String (if is_newline c then " "%char else c) (newlines_to_spaces rest)
  end.

(** [s.replace(/\n+$/, empty)]: the leftmost match of [\n+$] is the maximal
    run of newlines that ends the string. *)
Fixpoint strip_trailing_newlines (s : string) : string :=
  match s with
  | EmptyString => EmptyString
  | String c rest =>
      match strip_trailing_newlines rest with
      | EmptyString => if is_newline c then EmptyString else String c EmptyString
      | kept => String c kept
      end
  end.

Fixpoint trim_start (s : string) : string :=
  match s with
  | EmptyString => EmptyString
  | String c rest => if is_space c then trim_start rest else s
  end.

Fixpoint trim_end (s : string) : string :=
  match s with
  | EmptyString => EmptyString
  | String c rest =>
      match trim_end rest with
      | EmptyString => if is_space c then EmptyString else String c EmptyString
      | kept => String c kept
      end
  end.

(** [s.trim()]. *)
Definition trim (s : string) : string := trim_end (trim_start s).

(** Truthiness of a string, of an optional string, of an optional
    boolean and of an optional number. *)
Definition truthy_string (s : string) : bool :=
  match s with EmptyString => false | _ => true end.

Definition truthy_ostring (o : option string) : bool :=
  match o with Some s => truthy_string s | None => false end.

Definition truthy_obool (o : option bool) : bool :=
  match o with Some b => b | None => false end.

Definition truthy_onumber (o : option Z) : bool :=
  match o with Some n => negb (n =? 0) | None => false end.

(** [o || d]. *)
Definition or_default (o : option string) (d : string) : string :=
  match o with
  | Some s => if truthy_string s then s else d
  | None => d
  end.

End Js.

(** ** Errors *)

Inductive JsError : Type :=
| Error (message : string)
| TypeError (message : string).

Definition message_of (e : JsError) : string :=
  match e with Error m | TypeError m => m end.

Definition result (A : Type) : Type := (JsError + A)%type.

Definition ok {A : Type} (a : A) : result A := inr a.
Definition throw {A : Type} (e : JsError) : result A := inl e.

Definition rbind {A B : Type} (r : result A) (k : A -> result B) : result B :=
  match r with
  | inl e => inl e
  | inr a => k a
  end.

(** ** Mutation instructions: the [docs_v1.Schema$Request] objects the compiler emits *)

Definition number : Type := Q.

Record Range : Type := mkRange { startIndex : Z; endIndex : Z }.

Record RgbColor : Type :=
  mkRgbColor { red : option number; green : option number; blue : option number }.

Record Dimension : Type := mkDimension { magnitude : number; unit : string }.

(** [Schema$TextStyle], the payload of an [updateTextStyle] request; the
    colours are the [{ color: { rgbColor } }] wrappers, the link its [url]. *)
Module TextStyleUpdate.
Record t : Type := mk {
  bold : option bool;
  italic : option bool;
  underline : option bool;
  strikethrough : option bool;
  fontSize : option Dimension;
  foregroundColor : option RgbColor;
  backgroundColor : option RgbColor;
  link : option string
}.
Definition empty : t := mk None None None None None None None None.

(** The assignments [textStyleUpdate.name = value]. *)
Definition set_bold (v : bool) (p : t) : t :=
  mk (Some v) (italic p) (underline p) (strikethrough p) (fontSize p)
     (foregroundColor p) (backgroundColor p) (link p).
Definition set_italic (v : bool) (p : t) : t :=
  mk (bold p) (Some v) (underline p) (strikethrough p) (fontSize p)
     (foregroundColor p) (backgroundColor p) (link p).
Definition set_underline (v : bool) (p : t) : t :=
  mk (bold p) (italic p) (Some v) (strikethrough p) (fontSize p)
     (foregroundColor p) (backgroundColor p) (link p).
Definition set_strikethrough (v : bool) (p : t) : t :=
  mk (bold p) (italic p) (underline p) (Some v) (fontSize p)
     (foregroundColor p) (backgroundColor p) (link p).
Definition set_fontSize (v : Dimension) (p : t) : t :=
  mk (bold p) (italic p) (underline p) (strikethrough p) (Some v)
     (foregroundColor p) (backgroundColor p) (link p).
Definition set_foregroundColor (v : RgbColor) (p : t) : t :=
  mk (bold p) (italic p) (underline p) (strikethrough p) (fontSize p)
     (Some v) (backgroundColor p) (link p).
Definition set_backgroundColor (v : RgbColor) (p : t) : t :=
  mk (bold p) (italic p) (underline p) (strikethrough p) (fontSize p)
     (foregroundColor p) (Some v) (link p).
Definition set_link (v : string) (p : t) : t :=
  mk (bold p) (italic p) (underline p) (strikethrough p) (fontSize p)
     (foregroundColor p) (backgroundColor p) (Some v).
End TextStyleUpdate.

(** [Schema$ParagraphStyle], the payload of an [updateParagraphStyle] request. *)
Module ParagraphStyleUpdate.
Record t : Type := mk {
  namedStyleType : option string;
  alignment : option string;
  lineSpacing : option number;
  direction : option string;
  indentStart : option Dimension;
  indentEnd : option Dimension;
  indentFirstLine : option Dimension
}.
Definition empty : t := mk None None None None None None None.
Definition named (s : string) : t := mk (Some s) None None None None None None.

(** The assignments [paragraphStyleUpdate.name = value]. *)
Definition set_namedStyleType (v : string) (p : t) : t :=
  mk (Some v) (alignment p) (lineSpacing p) (direction p)
     (indentStart p) (indentEnd p) (indentFirstLine p).
Definition set_alignment (v : string) (p : t) : t :=
  mk (namedStyleType p) (Some v) (lineSpacing p) (direction p)
     (indentStart p) (indentEnd p) (indentFirstLine p).
Definition set_lineSpacing (v : number) (p : t) : t :=
  mk (namedStyleType p) (alignment p) (Some v) (direction p)
     (indentStart p) (indentEnd p) (indentFirstLine p).
Definition set_direction (v : string) (p : t) : t :=
  mk (namedStyleType p) (alignment p) (lineSpacing p) (Some v)
     (indentStart p) (indentEnd p) (indentFirstLine p).
Definition set_indentStart (v : Dimension) (p : t) : t :=
  mk (namedStyleType p) (alignment p) (lineSpacing p) (direction p)
     (Some v) (indentEnd p) (indentFirstLine p).
Definition set_indentEnd (v : Dimension) (p : t) : t :=
  mk (namedStyleType p) (alignment p) (lineSpacing p) (direction p)
     (indentStart p) (Some v) (indentFirstLine p).
Definition set_indentFirstLine (v : Dimension) (p : t) : t :=
  mk (namedStyleType p) (alignment p) (lineSpacing p) (direction p)
     (indentStart p) (indentEnd p) (Some v).
End ParagraphStyleUpdate.

Inductive Request : Type :=
| insertText (index : Z) (text : string)
| deleteContentRange (range : Range)
| updateTextStyle (range : Range) (textStyle : TextStyleUpdate.t) (fields : string)
| updateParagraphStyle (range : Range) (paragraphStyle : ParagraphStyleUpdate.t) (fields : string)
| createParagraphBullets (range : Range) (bulletPreset : string).

(** ** Content items ([contentItemSchema]) *)

Inductive ContentItem : Type :=
| heading (level : Z) (text : string)
| paragraph (text : string)
| bulletList (items : list string).

(** ** [generateRequestsFromContent]

    The two nested [for] loops thread the pair [(requests, currentIndex)];
    [requests.push] appends at the end. *)

Definition CompilerState : Type := (list Request * Z)%type.

Definition push_bullet_item (st : CompilerState) (bulletItem : string) : CompilerState :=
  let '(requests, currentIndex) := st in
  let text := bulletItem ++ Js.nl in
  let textStartIndex := currentIndex in
  let textEndIndex := currentIndex + Js.length text in
  ((requests ++
     [ insertText currentIndex text;
       updateParagraphStyle (mkRange textStartIndex textEndIndex)
         (ParagraphStyleUpdate.named "NORMAL_TEXT") "namedStyleType";
       createParagraphBullets (mkRange textStartIndex textEndIndex)
         "BULLET_DISC_CIRCLE_SQUARE" ])%list,
   currentIndex + Js.length text).

Definition push_item (st : CompilerState) (item : ContentItem) : CompilerState :=
  match item with
  | heading level text0 =>
      let '(requests, currentIndex) := st in
      let text := text0 ++ Js.nl in
      ((requests ++
         [ insertText currentIndex text;
           updateParagraphStyle (mkRange currentIndex (currentIndex + Js.length text))
             (ParagraphStyleUpdate.named ("HEADING_" ++ Js.of_number level))
             "namedStyleType" ])%list,
       currentIndex + Js.length text)
  | paragraph text0 =>
      let '(requests, currentIndex) := st in
      let text := text0 ++ Js.nl in
      ((requests ++ [ insertText currentIndex text ])%list, currentIndex + Js.length text)
  | bulletList items => fold_left push_bullet_item items st
  end.

Definition compile_content (content : list ContentItem) (startIndex : Z) : CompilerState :=
  fold_left push_item content ([], startIndex).

Definition generateRequestsFromContent (content : list ContentItem) (startIndex : Z)
  : list Request :=
  fst (compile_content content startIndex).

(** The value of [currentIndex] when the loop ends. *)
Definition final_cursor (content : list ContentItem) (startIndex : Z) : Z :=
  snd (compile_content content startIndex).

(** The insertion points of an instruction list, in order. *)
Definition insertion_points (requests : list Request) : list Z :=
  flat_map (fun r => match r with insertText i _ => [i] | _ => [] end) requests.

(** ** The edit intent ([jsonPathOperationSchema]) *)

Module Operation.
Inductive t : Type :=
| insertAfter
| insertBefore
| replace
| delete
| updateTextStyle
| updateParagraphStyle.

Definition name (op : t) : string :=
  match op with
  | insertAfter => "insertAfter"
  | insertBefore => "insertBefore"
  | replace => "replace"
  | delete => "delete"
  | updateTextStyle => "updateTextStyle"
  | updateParagraphStyle => "updateParagraphStyle"
  end.
End Operation.

(** [textStyleSchema]: every attribute is [.optional()]. *)
Module TextStyleArg.
Record t : Type := mk {
  bold : option bool;
  italic : option bool;
  underline : option bool;
  strikethrough : option bool;
  fontSize : option number;
  foregroundColor : option RgbColor;
  backgroundColor : option RgbColor;
  link : option string  (* the [url] of the [{ url }] object *)
}.
Definition empty : t := mk None None None None None None None None.
End TextStyleArg.

Inductive HeadingLevel : Type :=
| NORMAL_TEXT | HEADING_1 | HEADING_2 | HEADING_3 | HEADING_4 | HEADING_5 | HEADING_6.

Inductive Alignment : Type := START | CENTER | END_ | JUSTIFIED.

Inductive Direction : Type := LEFT_TO_RIGHT | RIGHT_TO_LEFT.

Definition heading_level_string (h : HeadingLevel) : string :=
  match h with
  | NORMAL_TEXT => "NORMAL_TEXT"
  | HEADING_1 => "HEADING_1"
  | HEADING_2 => "HEADING_2"
  | HEADING_3 => "HEADING_3"
  | HEADING_4 => "HEADING_4"
  | HEADING_5 => "HEADING_5"
  | HEADING_6 => "HEADING_6"
  end.

Definition alignment_string (a : Alignment) : string :=
  match a with
  | START => "START"
  | CENTER => "CENTER"
  | END_ => "END"
  | JUSTIFIED => "JUSTIFIED"
  end.

Definition direction_string (d : Direction) : string :=
  match d with
  | LEFT_TO_RIGHT => "LEFT_TO_RIGHT"
  | RIGHT_TO_LEFT => "RIGHT_TO_LEFT"
  end.

(** [paragraphStyleSchema]. *)
Module ParagraphStyleArg.
Record t : Type := mk {
  headingLevel : option HeadingLevel;
  alignment : option Alignment;
  lineSpacing : option number;
  direction : option Direction;
  indentStart : option number;
  indentEnd : option number;
  indentFirstLine : option number
}.
Definition empty : t := mk None None None None None None None.
End ParagraphStyleArg.

Record Args : Type := mkArgs {
  doc_id_or_url : string;
  operation : Operation.t;
  target : string;
  content : option (list ContentItem);
  textStyle : option TextStyleArg.t;
  paragraphStyle : option ParagraphStyleArg.t
}.

(** ** The target element

    [results[0]] is a value of the snapshot.  The compiler reads two
    properties of it, [startIndex] and [endIndex], which the document
    schema types [number | null | undefined]: [element s e] is a value whose
    two properties hold [s] and [e] ([None] when the property is missing or
    [null]); [nullish] is [null] or [undefined], on which a property read
    throws a [TypeError]. *)
Module Target.
Inductive t : Type :=
| nullish
| element (startIndex endIndex : option Z).

Definition startIndex (v : t) : result (option Z) :=
  match v with
  | nullish => throw (TypeError "null is not an object (evaluating 'targetElement.startIndex')")
  | element s _ => ok s
  end.

Definition endIndex (v : t) : result (option Z) :=
  match v with
  | nullish => throw (TypeError "null is not an object (evaluating 'targetElement.endIndex')")
  | element _ e => ok e
  end.
End Target.

(** A number that passed a truthiness test, read as a number. *)
Definition number_of (o : option Z) : Z :=
  match o with Some n => n | None => 0 end.

(** [!targetElement.startIndex || !targetElement.endIndex], then the two
    indices; [||] reads [endIndex] only when [startIndex] is truthy. *)
Definition require_range (v : Target.t) (message : string) : result Range :=
  rbind (Target.startIndex v) (fun s =>
  if negb (Js.truthy_onumber s) then throw (Error message) else
  rbind (Target.endIndex v) (fun e =>
  if negb (Js.truthy_onumber e) then throw (Error message) else
  ok (mkRange (number_of s) (number_of e)))).

(** ** [extractDocId] *)

(** The character class [[a-zA-Z0-9-_]]. *)
Definition is_id_char (c : ascii) : bool :=
  let n := nat_of_ascii c in
  (Nat.leb 97 n && Nat.leb n 122) || (Nat.leb 65 n && Nat.leb n 90) ||
  (Nat.leb 48 n && Nat.leb n 57) || Nat.eqb n 45 || Nat.eqb n 95.

(** The longest prefix matched by [[a-zA-Z0-9-_]*]. *)
Fixpoint take_id_chars (s : string) : string :=
  match s with
  | EmptyString => EmptyString
  | String c rest => if is_id_char c then String c (take_id_chars rest) else EmptyString
  end.

Fixpoint all_id_chars (s : string) : bool :=
  match s with
  | EmptyString => true
  | String c rest => is_id_char c && all_id_chars rest
  end.

(** [s] without its prefix [p], when it has that prefix. *)
Fixpoint strip_prefix (p s : string) : option string :=
  match p, s with
  | EmptyString, _ => Some s
  | String a p', String b s' => if Ascii.eqb a b then strip_prefix p' s' else None
  | String _ _, EmptyString => None
  end.

(** The regular expression [/\/document\/d\/([a-zA-Z0-9-_]+)/] anchored at
    the start of [s]: its capture group. *)
Definition match_document_here (s : string) : option string :=
  match strip_prefix "/document/d/" s with
  | Some rest =>
      match take_id_chars rest with
      | EmptyString => None
      | id => Some id
      end
  | None => None
  end.

(** [input.match(/\/document\/d\/([a-zA-Z0-9-_]+)/)]: the leftmost match;
    the result is [urlMatch[1]]. *)
Fixpoint match_document_url (input : string) : option string :=
  match match_document_here input with
  | Some id => Some id
  | None =>
      match input with
      | EmptyString => None
      | String _ rest => match_document_url rest
      end
  end.

(** [/^[a-zA-Z0-9-_]+$/.test(input)]. *)
Definition is_document_id (input : string) : bool :=
  Js.truthy_string input && all_id_chars input.

Definition extractDocId (input : string) : option string :=
  match match_document_url input with
  | Some id => Some id
  | None => if is_document_id input then Some input else None
  end.

(** ** The style patches of [updateTextStyle] and [updateParagraphStyle]

    The source starts from an empty payload and an empty [fields] array and
    runs one [if] per attribute, which assigns one property of the payload
    and pushes one name on [fields]: the pair is threaded through the
    tests.  The tests on [undefined] and the truthiness tests agree on the
    types of the schema (an object and a non-empty enumeration string are
    truthy). *)

(** One [if]: when the attribute is there, assign and push. *)
Definition patch_step {A P : Type} (attribute : option A) (assign : A -> P -> P)
  (name : string) (st : P * list string) : P * list string :=
  match attribute with
  | Some v => (assign v (fst st), (snd st ++ [ name ])%list)
  | None => st
  end.

Definition points (n : number) : Dimension := mkDimension n "PT".

Definition build_textStyle (ts : TextStyleArg.t) : TextStyleUpdate.t * list string :=
  let st := (TextStyleUpdate.empty, []) in
  let st := patch_step (TextStyleArg.bold ts) TextStyleUpdate.set_bold "bold" st in
  let st := patch_step (TextStyleArg.italic ts) TextStyleUpdate.set_italic "italic" st in
  let st := patch_step (TextStyleArg.underline ts) TextStyleUpdate.set_underline
              "underline" st in
  let st := patch_step (TextStyleArg.strikethrough ts) TextStyleUpdate.set_strikethrough
              "strikethrough" st in
  let st := patch_step (TextStyleArg.fontSize ts)
              (fun v => TextStyleUpdate.set_fontSize (points v)) "fontSize" st in
  let st := patch_step (TextStyleArg.foregroundColor ts) TextStyleUpdate.set_foregroundColor
              "foregroundColor" st in
  let st := patch_step (TextStyleArg.backgroundColor ts) TextStyleUpdate.set_backgroundColor
              "backgroundColor" st in
  let st := patch_step (TextStyleArg.link ts) TextStyleUpdate.set_link "link" st in
  st.

Definition textStyleUpdate_of (ts : TextStyleArg.t) : TextStyleUpdate.t :=
  fst (build_textStyle ts).

Definition textStyle_fields (ts : TextStyleArg.t) : list string :=
  snd (build_textStyle ts).

Definition build_paragraphStyle (ps : ParagraphStyleArg.t)
  : ParagraphStyleUpdate.t * list string :=
  let st := (ParagraphStyleUpdate.empty, []) in
  let st := patch_step (ParagraphStyleArg.headingLevel ps)
              (fun v => ParagraphStyleUpdate.set_namedStyleType (heading_level_string v))
              "namedStyleType" st in
  let st := patch_step (ParagraphStyleArg.alignment ps)
              (fun v => ParagraphStyleUpdate.set_alignment (alignment_string v))
              "alignment" st in
  let st := patch_step (ParagraphStyleArg.lineSpacing ps)
              ParagraphStyleUpdate.set_lineSpacing "lineSpacing" st in
  let st := patch_step (ParagraphStyleArg.direction ps)
              (fun v => ParagraphStyleUpdate.set_direction (direction_string v))
              "direction" st in
  let st := patch_step (ParagraphStyleArg.indentStart ps)
              (fun v => ParagraphStyleUpdate.set_indentStart (points v)) "indentStart" st in
  let st := patch_step (ParagraphStyleArg.indentEnd ps)
              (fun v => ParagraphStyleUpdate.set_indentEnd (points v)) "indentEnd" st in
  let st := patch_step (ParagraphStyleArg.indentFirstLine ps)
              (fun v => ParagraphStyleUpdate.set_indentFirstLine (points v))
              "indentFirstLine" st in
  st.

Definition paragraphStyleUpdate_of (ps : ParagraphStyleArg.t) : ParagraphStyleUpdate.t :=
  fst (build_paragraphStyle ps).

Definition paragraphStyle_fields (ps : ParagraphStyleArg.t) : list string :=
  snd (build_paragraphStyle ps).

(** [!content || content.length === 0]. *)
Definition content_missing (content : option (list ContentItem)) : bool :=
  match content with
  | None => true
  | Some items => Nat.eqb (List.length items) 0
  end.

Definition content_of (content : option (list ContentItem)) : list ContentItem :=
  match content with Some items => items | None => [] end.

(** The anchor of [insertAfter] and [insertBefore]: [insertIndex]. *)
Definition insert_index (op : Operation.t) (targetElement : Target.t) : result Z :=
  match op with
  | Operation.insertAfter =>
      rbind (Target.endIndex targetElement) (fun e =>
      if negb (Js.truthy_onumber e)
      then throw (Error "Target element does not have an endIndex")
      else ok (number_of e))
  | _ =>
      rbind (Target.startIndex targetElement) (fun s =>
      if negb (Js.truthy_onumber s)
      then throw (Error "Target element does not have a startIndex")
      else ok (number_of s))
  end.

(** ** The operation dispatch of [handleJsonPathOperation]

    The [if]/[else if] chain that follows the resolution of the target: it
    yields [requests] and [operationDescription], or throws. *)
Definition buildRequests (args : Args) (targetElement : Target.t)
  : result (list Request * string) :=
  match operation args with
  | Operation.updateTextStyle =>
      match textStyle args with
      | None => throw (Error "updateTextStyle operation requires textStyle to be provided")
      | Some ts =>
          rbind (require_range targetElement
                   "Target element must have startIndex and endIndex for updateTextStyle operation")
            (fun range =>
               ok ([ updateTextStyle range (textStyleUpdate_of ts)
                       (Js.join "," (textStyle_fields ts)) ],
                   "Updated text style from index " ++ Js.of_number (startIndex range)
                   ++ " to " ++ Js.of_number (endIndex range)))
      end
  | Operation.updateParagraphStyle =>
      match paragraphStyle args with
      | None =>
          throw (Error "updateParagraphStyle operation requires paragraphStyle to be provided")
      | Some ps =>
          rbind (require_range targetElement
                   "Target element must have startIndex and endIndex for updateParagraphStyle operation")
            (fun range =>
               ok ([ updateParagraphStyle range (paragraphStyleUpdate_of ps)
                       (Js.join "," (paragraphStyle_fields ps)) ],
                   "Updated paragraph style from index " ++ Js.of_number (startIndex range)
                   ++ " to " ++ Js.of_number (endIndex range)))
      end
  | Operation.delete =>
      rbind (require_range targetElement
               "Target element must have startIndex and endIndex for delete operation")
        (fun range =>
           ok ([ deleteContentRange range ],
               "Deleted element from index " ++ Js.of_number (startIndex range)
               ++ " to " ++ Js.of_number (endIndex range)))
  | Operation.replace =>
      if content_missing (content args)
      then throw (Error "Replace operation requires content to be provided")
      else
        rbind (require_range targetElement
                 "Target element must have startIndex and endIndex for replace operation")
          (fun range =>
             ok (deleteContentRange range
                   :: generateRequestsFromContent (content_of (content args)) (startIndex range),
                 "Replaced element at index " ++ Js.of_number (startIndex range)
                 ++ "-" ++ Js.of_number (endIndex range)))
  | Operation.insertAfter | Operation.insertBefore =>
      if content_missing (content args)
      then throw (Error (Operation.name (operation args)
                         ++ " operation requires content to be provided"))
      else
        rbind (insert_index (operation args) targetElement) (fun insertIndex =>
        ok (generateRequestsFromContent (content_of (content args)) insertIndex,
            "Insert index: " ++ Js.of_number insertIndex))
  end.

(** ** [buildUpdateSummary], on the instructions the compiler emits *)

Definition describe_request (request : Request) : string :=
  match request with
  | insertText index text =>
      let preview :=
        if 50 <? Js.length text then Js.substring0 50 text ++ "..." else text in
      "- Inserted text at index " ++ Js.of_number index ++ ": "
      ++ Js.dquote ++ preview ++ Js.dquote
  | deleteContentRange range =>
      "- Deleted content from index " ++ Js.of_number (startIndex range)
      ++ " to " ++ Js.of_number (endIndex range)
  | updateTextStyle range _ _ =>
      "- Updated text style from index " ++ Js.of_number (startIndex range)
      ++ " to " ++ Js.of_number (endIndex range)
  | updateParagraphStyle range _ _ =>
      "- Updated paragraph style from index " ++ Js.of_number (startIndex range)
      ++ " to " ++ Js.of_number (endIndex range)
  | createParagraphBullets range _ =>
      "- Created paragraph bullets from index " ++ Js.of_number (startIndex range)
      ++ " to " ++ Js.of_number (endIndex range)
  end.

Definition buildUpdateSummary (requests : list Request) : string :=
  let operations := map describe_request requests in
  if Nat.ltb 0 (List.length operations)
  then "Operations performed:" ++ Js.nl ++ Js.join Js.nl operations
  else "No operations described".

(** ** The document service and [handleJsonPathOperation]

    The document service, the path evaluator ([jsonpath-plus]) and
    [JSON.stringify] are external: they are the variables of the section.
    [documents_get] reads the service ([None] is a response without
    [data]); [documents_batchUpdate] is the only call that can change it.
    A computation of the handler threads a [World]: the service and the
    log of the batches submitted to it, the latest first. *)

Section Handler.

Variables Service Snapshot : Type.
Variable documents_get : Service -> string -> result (option Snapshot).
Variable documents_batchUpdate :
  Service -> string -> list Request -> result Datatypes.unit * Service.
Variable JSONPath : string -> Snapshot -> result (list Target.t).
Variable JSON_stringify : option Snapshot -> string.

Record World : Type := mkWorld {
  service : Service;
  submitted : list (string * list Request)
}.

Definition M (A : Type) : Type := World -> result A * World.

Definition ret {A : Type} (a : A) : M A := fun w => (ok a, w).

Definition raise {A : Type} (e : JsError) : M A := fun w => (throw e, w).

Definition bind {A B : Type} (m : M A) (k : A -> M B) : M B :=
  fun w =>
    match m w with
    | (inl e, w') => (inl e, w')
    | (inr a, w') => k a w'
    end.

Definition lift {A : Type} (r : result A) : M A := fun w => (r, w).

(** [await docs.documents.get({ documentId })], then [.data]. *)
Definition get_document (documentId : string) : M (option Snapshot) :=
  fun w => (documents_get (service w) documentId, w).

(** [await docs.documents.batchUpdate({ documentId, requestBody: { requests } })]. *)
Definition batch_update (documentId : string) (requests : list Request) : M Datatypes.unit :=
  fun w =>
    let '(r, service') := documents_batchUpdate (service w) documentId requests in
    (r, mkWorld service' ((documentId, requests) :: submitted w)).

(** [results[0]]. *)
Definition first_result (results : list Target.t) : Target.t :=
  hd Target.nullish results.

Definition success_message (args : Args) (operationDescription summary : string)
  (updatedDoc : option Snapshot) : string :=
  "Document updated successfully using JSONPath targeting." ++ Js.nl ++ Js.nl
  ++ "Target: " ++ target args ++ Js.nl
  ++ "Operation: " ++ Operation.name (operation args) ++ Js.nl
  ++ operationDescription ++ Js.nl ++ Js.nl
  ++ summary ++ Js.nl ++ Js.nl
  ++ "UPDATED DOCUMENT STRUCTURE (use this for next operations):" ++ Js.nl
  ++ JSON_stringify updatedDoc.

Definition handleJsonPathOperation (args : Args) : M string :=
  match extractDocId (doc_id_or_url args) with
  | None => raise (Error "Invalid document ID or URL")
  | Some docId =>
      if negb (Js.truthy_string docId) then raise (Error "Invalid document ID or URL") else
      bind (get_document docId) (fun doc =>
      match doc with
      | None => raise (Error "Failed to fetch document")
      | Some data =>
          bind (lift (JSONPath (target args) data)) (fun results =>
          if Nat.eqb (List.length results) 0
          then raise (Error ("No element found at JSONPath: " ++ target args))
          else if Nat.ltb 1 (List.length results)
          then raise (Error ("Multiple elements found at JSONPath: " ++ target args
                             ++ ". Path must be unique."))
          else
            let targetElement := first_result results in
            bind (lift (buildRequests args targetElement)) (fun built =>
            let '(requests, operationDescription) := built in
            bind (batch_update docId requests) (fun _ =>
            let summary := buildUpdateSummary requests in
            bind (get_document docId) (fun updatedDoc =>
            ret (success_message args operationDescription summary updatedDoc)))))
      end)
  end.

(** The tool's reply. *)
Record ToolResult : Type := mkToolResult { reply_text : string; isError : bool }.

(** [handler], for arguments of the path-operation shape: every [Error]
    is caught and reported in the reply. *)
Definition handler (args : Args) (w : World) : ToolResult * World :=
  match handleJsonPathOperation args w with
  | (inr text, w') => (mkToolResult text false, w')
  | (inl e, w') => (mkToolResult ("Error: " ++ message_of e) true, w')
  end.

End Handler.

Arguments mkWorld {Service} _ _.
Arguments service {Service} _.
Arguments submitted {Service} _.

(** ** The document model read by the Markdown renderer ([docs_v1.Schema$...]) *)

Module Doc.

Record Link : Type := mkLink { url : option string }.

Record WeightedFontFamily : Type := mkWeightedFontFamily { fontFamily : option string }.

Record TextStyle : Type := mkTextStyle {
  bold : option bool;
  italic : option bool;
  underline : option bool;
  strikethrough : option bool;
  link : option Link;
  weightedFontFamily : option WeightedFontFamily
}.

Definition plain : TextStyle := mkTextStyle None None None None None None.

Record TextRun : Type := mkTextRun {
  content : option string;
  textStyle : option TextStyle
}.

Record ParagraphElement : Type := mkParagraphElement { textRun : option TextRun }.

Record Bullet : Type := mkBullet { nestingLevel : option nat }.

Record ParagraphStyle : Type := mkParagraphStyle { namedStyleType : option string }.

Record Paragraph : Type := mkParagraph {
  paragraphStyle : option ParagraphStyle;
  bullet : option Bullet;
  elements : option (list ParagraphElement)
}.

(** A cell holds structural elements again: the four types are mutually
    recursive.  The arrays of a snapshot have no holes, so [rows[i]] is a
    row for every [i] below [rows.length]. *)
Inductive StructuralElement : Type :=
| mkStructuralElement
    (paragraph : option Paragraph) (table : option Table) (sectionBreak : bool)
with Table : Type :=
| mkTable (tableRows : option (list TableRow))
with TableRow : Type :=
| mkTableRow (tableCells : option (list TableCell))
with TableCell : Type :=
| mkTableCell (cell_content : option (list StructuralElement)).

Definition paragraph (e : StructuralElement) : option Paragraph :=
  match e with mkStructuralElement p _ _ => p end.

Definition table (e : StructuralElement) : option Table :=
  match e with mkStructuralElement _ t _ => t end.

(** Whether the element has a [sectionBreak] object. *)
Definition sectionBreak (e : StructuralElement) : bool :=
  match e with mkStructuralElement _ _ b => b end.

Definition tableRows (t : Table) : option (list TableRow) :=
  match t with mkTable rows => rows end.

Definition tableCells (r : TableRow) : option (list TableCell) :=
  match r with mkTableRow cells => cells end.

Definition cell_content (c : TableCell) : option (list StructuralElement) :=
  match c with mkTableCell elements => elements end.

Record Body : Type := mkBody { body_content : option (list StructuralElement) }.

Record Document : Type := mkDocument { body : option Body }.

End Doc.

(** [a || []]. *)
Definition or_empty {A : Type} (o : option (list A)) : list A :=
  match o with Some l => l | None => [] end.

(** ** [processTextRun]: the Style Composer *)

(** [style.link?.url]. *)
Definition link_url (style : Doc.TextStyle) : option string :=
  match Doc.link style with
  | Some l => Doc.url l
  | None => None
  end.

(** [style.weightedFontFamily?.fontFamily?.includes(word)]. *)
Definition font_family_includes (style : Doc.TextStyle) (word : string) : bool :=
  match Doc.weightedFontFamily style with
  | Some w =>
      match Doc.fontFamily w with
      | Some family => Js.includes word family
      | None => false
      end
  | None => false
  end.

Definition processTextRun (textRun : Doc.TextRun) : string :=
  let text := Js.or_default (Doc.content textRun) EmptyString in
  match Doc.textStyle textRun with
  | None => text
  | Some style =>
      if String.eqb text Js.nl then text else
      let formatted := text in
      let formatted :=
        if Js.truthy_obool (Doc.bold style) && Js.truthy_obool (Doc.italic style)
        then "***" ++ formatted ++ "***"
        else if Js.truthy_obool (Doc.bold style) then "**" ++ formatted ++ "**"
        else if Js.truthy_obool (Doc.italic style) then "*" ++ formatted ++ "*"
        else formatted in
      let formatted :=
        if Js.truthy_obool (Doc.underline style)
        then "__" ++ formatted ++ "__" else formatted in
      let formatted :=
        if Js.truthy_obool (Doc.strikethrough style)
        then "~~" ++ formatted ++ "~~" else formatted in
      let formatted :=
        if Js.truthy_ostring (link_url style)
        then "[" ++ formatted ++ "](" ++ Js.or_default (link_url style) EmptyString ++ ")"
        else formatted in
      let formatted :=
        if font_family_includes style "Courier" || font_family_includes style "Mono"
        then "`" ++ formatted ++ "`" else formatted in
      formatted
  end.

(** ** [processParagraph] *)

(** [paragraph.paragraphStyle?.namedStyleType]. *)
Definition named_style (paragraph : Doc.Paragraph) : option string :=
  match Doc.paragraphStyle paragraph with
  | Some ps => Doc.namedStyleType ps
  | None => None
  end.

(** The text of the paragraph: the loop over [paragraph.elements || []]. *)
Definition paragraph_text (paragraph : Doc.Paragraph) : string :=
  fold_left
    (fun text element =>
       match Doc.textRun element with
       | Some run => text ++ processTextRun run
       | None => text
       end)
    (or_empty (Doc.elements paragraph)) EmptyString.

(** The [default] branch of the [switch]. *)
Definition list_item_or_plain (paragraph : Doc.Paragraph) (trimmedText : string) : string :=
  match Doc.bullet paragraph with
  | Some bullet =>
      let nestingLevel := match Doc.nestingLevel bullet with Some n => n | None => O end in
      let indent := Js.repeat "  " nestingLevel in
      let marker := if Nat.eqb nestingLevel 0 then "1." else "-" in
      indent ++ marker ++ " " ++ trimmedText ++ Js.nl
  | None => trimmedText ++ Js.nl ++ Js.nl
  end.

(** [case name:] of the [switch (style)]: a strict comparison with [name]. *)
Definition style_is (style : option string) (name : string) : bool :=
  match style with
  | Some s => String.eqb s name
  | None => false
  end.

Definition processParagraph (paragraph : Doc.Paragraph) : string :=
  let style := named_style paragraph in
  let text := paragraph_text paragraph in
  let trimmedText := Js.strip_trailing_newlines text in
  if negb (Js.truthy_string trimmedText) then Js.nl
  else if style_is style "HEADING_1" then "# " ++ trimmedText ++ Js.nl ++ Js.nl
  else if style_is style "HEADING_2" then "## " ++ trimmedText ++ Js.nl ++ Js.nl
  else if style_is style "HEADING_3" then "### " ++ trimmedText ++ Js.nl ++ Js.nl
  else if style_is style "HEADING_4" then "#### " ++ trimmedText ++ Js.nl ++ Js.nl
  else if style_is style "HEADING_5" then "##### " ++ trimmedText ++ Js.nl ++ Js.nl
  else if style_is style "HEADING_6" then "###### " ++ trimmedText ++ Js.nl ++ Js.nl
  else if style_is style "TITLE" then "# " ++ trimmedText ++ Js.nl ++ Js.nl
  else if style_is style "SUBTITLE" then "## " ++ trimmedText ++ Js.nl ++ Js.nl
  else list_item_or_plain paragraph trimmedText.

(** ** [processTable] *)

(** The body of [cells.map]: two nested loops append to [cellText]. *)
Definition cell_text (cell : Doc.TableCell) : string :=
  let cellText :=
    fold_left
      (fun cellText element =>
         match Doc.paragraph element with
         | Some par =>
             fold_left
               (fun cellText textElement =>
                  match Doc.textRun textElement with
                  | Some run =>
                      if Js.truthy_ostring (Doc.content run)
                      then cellText
                           ++ Js.trim (Js.newlines_to_spaces
                                         (Js.or_default (Doc.content run) EmptyString))
                      else cellText
                  | None => cellText
                  end)
               (or_empty (Doc.elements par)) cellText
         | None => cellText
         end)
      (or_empty (Doc.cell_content cell)) EmptyString in
  if Js.truthy_string cellText then cellText else " ".

(** The [for] loop over the rows, from row [i] on. *)
Fixpoint table_rows_loop (i : nat) (rows : list Doc.TableRow) (markdown : string) : string :=
  match rows with
  | [] => markdown
  | row :: rest =>
      let cells := or_empty (Doc.tableCells row) in
      let cellContents := map cell_text cells in
      let markdown := markdown ++ "| " ++ Js.join " | " cellContents ++ " |" ++ Js.nl in
      let markdown :=
        if Nat.eqb i 0
        then markdown ++ "| " ++ Js.join " | " (map (fun _ => "---") cellContents)
             ++ " |" ++ Js.nl
        else markdown in
      table_rows_loop (S i) rest markdown
  end.

Definition processTable (table : Doc.Table) : string :=
  let rows := or_empty (Doc.tableRows table) in
  if Nat.eqb (List.length rows) 0 then EmptyString else
  let markdown := table_rows_loop 0 rows Js.nl in
  markdown ++ Js.nl.

(** ** [convertDocToMarkdown] *)

Definition convertDocToMarkdown (doc : Doc.Document) : string :=
  match doc.(Doc.body) with
  | None => EmptyString
  | Some body =>
      match Doc.body_content body with
      | None => EmptyString
      | Some elements =>
          Js.trim
            (fold_left
               (fun markdown element =>
                  match Doc.paragraph element, Doc.table element with
                  | Some par, _ => markdown ++ processParagraph par
                  | None, Some tbl => markdown ++ processTable tbl
                  | None, None =>
                      if Doc.sectionBreak element
                      then markdown ++ Js.nl ++ "---" ++ Js.nl ++ Js.nl
                      else markdown
                  end)
               elements EmptyString)
      end
  end.

(** ** Notions used to state the properties *)

(** [fields.split(",")]: the names listed by a field mask. *)
Fixpoint split_commas (s : string) : list string :=
  match s with
  | EmptyString => [ EmptyString ]
  | String c rest =>
      if Ascii.eqb c ","%char then EmptyString :: split_commas rest
      else
        match split_commas rest with
        | [] => [ String c EmptyString ]
        | name :: names => String c name :: names
        end
  end.

Definition is_some {A : Type} (o : option A) : bool :=
  match o with Some _ => true | None => false end.

(** The attributes of a text style patch. *)
Inductive TextAttribute : Type :=
| attr_bold | attr_italic | attr_underline | attr_strikethrough
| attr_fontSize | attr_foregroundColor | attr_backgroundColor | attr_link.

Definition text_attribute_name (a : TextAttribute) : string :=
  match a with
  | attr_bold => "bold"
  | attr_italic => "italic"
  | attr_underline => "underline"
  | attr_strikethrough => "strikethrough"
  | attr_fontSize => "fontSize"
  | attr_foregroundColor => "foregroundColor"
  | attr_backgroundColor => "backgroundColor"
  | attr_link => "link"
  end.

(** The attribute is explicitly present in the patch of the request. *)
Definition text_attribute_present (a : TextAttribute) (ts : TextStyleArg.t) : bool :=
  match a with
  | attr_bold => is_some (TextStyleArg.bold ts)
  | attr_italic => is_some (TextStyleArg.italic ts)
  | attr_underline => is_some (TextStyleArg.underline ts)
  | attr_strikethrough => is_some (TextStyleArg.strikethrough ts)
  | attr_fontSize => is_some (TextStyleArg.fontSize ts)
  | attr_foregroundColor => is_some (TextStyleArg.foregroundColor ts)
  | attr_backgroundColor => is_some (TextStyleArg.backgroundColor ts)
  | attr_link => is_some (TextStyleArg.link ts)
  end.

(** The attributes of a paragraph style patch. *)
Inductive ParagraphAttribute : Type :=
| attr_headingLevel | attr_alignment | attr_lineSpacing | attr_direction
| attr_indentStart | attr_indentEnd | attr_indentFirstLine.

(** The name of the attribute in the field mask: the document service calls
    the heading level [namedStyleType]; the other names are those of the
    request. *)
Definition paragraph_attribute_name (a : ParagraphAttribute) : string :=
  match a with
  | attr_headingLevel => "namedStyleType"
  | attr_alignment => "alignment"
  | attr_lineSpacing => "lineSpacing"
  | attr_direction => "direction"
  | attr_indentStart => "indentStart"
  | attr_indentEnd => "indentEnd"
  | attr_indentFirstLine => "indentFirstLine"
  end.

Definition paragraph_attribute_present (a : ParagraphAttribute) (ps : ParagraphStyleArg.t)
  : bool :=
  match a with
  | attr_headingLevel => is_some (ParagraphStyleArg.headingLevel ps)
  | attr_alignment => is_some (ParagraphStyleArg.alignment ps)
  | attr_lineSpacing => is_some (ParagraphStyleArg.lineSpacing ps)
  | attr_direction => is_some (ParagraphStyleArg.direction ps)
  | attr_indentStart => is_some (ParagraphStyleArg.indentStart ps)
  | attr_indentEnd => is_some (ParagraphStyleArg.indentEnd ps)
  | attr_indentFirstLine => is_some (ParagraphStyleArg.indentFirstLine ps)
  end.

(** A target is rangeable over [s, e) when it carries both indices and both
    pass the truthiness test of the compiler. *)
Definition rangeable (v : Target.t) (s e : Z) : Prop :=
  v = Target.element (Some s) (Some e) /\ s <> 0 /\ e <> 0.

(** The payload the operation requires is missing from the intent. *)
Definition payload_missing (args : Args) : bool :=
  match operation args with
  | Operation.updateTextStyle => negb (is_some (textStyle args))
  | Operation.updateParagraphStyle => negb (is_some (paragraphStyle args))
  | Operation.delete => false
  | Operation.replace | Operation.insertAfter | Operation.insertBefore =>
      content_missing (content args)
  end.

(** The target lacks an index the operation requires. *)
Definition lacks_required_indices (op : Operation.t) (v : Target.t) : bool :=
  match v with
  | Target.nullish => true
  | Target.element s e =>
      match op with
      | Operation.insertAfter => negb (Js.truthy_onumber e)
      | Operation.insertBefore => negb (Js.truthy_onumber s)
      | _ => negb (Js.truthy_onumber s) || negb (Js.truthy_onumber e)
      end
  end.

(** The message of the error raised for a missing index. *)
Definition missing_index_message (op : Operation.t) : string :=
  match op with
  | Operation.insertAfter => "Target element does not have an endIndex"
  | Operation.insertBefore => "Target element does not have a startIndex"
  | _ => "Target element must have startIndex and endIndex for "
         ++ Operation.name op ++ " operation"
  end.

(** The length of the texts an instruction list inserts. *)
Definition inserted_length (requests : list Request) : Z :=
  fold_right (fun r acc => match r with insertText _ t => Js.length t + acc | _ => acc end)
    0 requests.

(** The instructions of one bullet item. *)
Definition bullet_requests (bulletItem : string) (currentIndex : Z) : list Request :=
  [ insertText currentIndex (bulletItem ++ Js.nl);
    updateParagraphStyle
      (mkRange currentIndex (currentIndex + Js.length (bulletItem ++ Js.nl)))
      (ParagraphStyleUpdate.named "NORMAL_TEXT") "namedStyleType";
    createParagraphBullets
      (mkRange currentIndex (currentIndex + Js.length (bulletItem ++ Js.nl)))
      "BULLET_DISC_CIRCLE_SQUARE" ].

(** The cursor discipline of an insertion: every text is inserted at the
    cursor, which then advances by the length of the text, and every style
    or bullet instruction spans the text inserted last, from [last] to the
    cursor.  The result is the pair [(last, cursor)] after the list. *)
Fixpoint addressed (last cursor : Z) (requests : list Request) : option (Z * Z) :=
  match requests with
  | [] => Some (last, cursor)
  | insertText index text :: rest =>
      if index =? cursor then addressed cursor (cursor + Js.length text) rest else None
  | updateParagraphStyle range _ _ :: rest | createParagraphBullets range _ :: rest =>
      if (startIndex range =? last) && (endIndex range =? cursor)
      then addressed last cursor rest
      else None
  | _ => None
  end.

(** The content of the cursor scenario of the specification. *)
Definition cursor_scenario : list ContentItem :=
  [ heading 2 "H"; paragraph "P"; bulletList [ "A"; "B" ] ].

Section UpFront.

Variables Service Snapshot : Type.
Variable documents_get : Service -> string -> result (option Snapshot).
Variable JSONPath : string -> Snapshot -> result (list Target.t).

(** The intent is invalid up front: its document reference does not parse,
    or, on the snapshot fetched for it, its locator matches no node or
    several, or its payload is missing, or its target lacks an index the
    operation requires. *)
Inductive UpFrontFailure (args : Args) (w : World Service) : Prop :=
| unparseable_reference :
    extractDocId (doc_id_or_url args) = None ->
    UpFrontFailure args w
| no_match (docId : string) (data : Snapshot) :
    extractDocId (doc_id_or_url args) = Some docId ->
    documents_get (service w) docId = ok (Some data) ->
    JSONPath (target args) data = ok [] ->
    UpFrontFailure args w
| ambiguous_match (docId : string) (data : Snapshot) (v1 v2 : Target.t) (vs : list Target.t) :
    extractDocId (doc_id_or_url args) = Some docId ->
    documents_get (service w) docId = ok (Some data) ->
    JSONPath (target args) data = ok (v1 :: v2 :: vs) ->
    UpFrontFailure args w
| missing_payload (docId : string) (data : Snapshot) (v : Target.t) :
    extractDocId (doc_id_or_url args) = Some docId ->
    documents_get (service w) docId = ok (Some data) ->
    JSONPath (target args) data = ok [ v ] ->
    payload_missing args = true ->
    UpFrontFailure args w
| missing_indices (docId : string) (data : Snapshot) (v : Target.t) :
    extractDocId (doc_id_or_url args) = Some docId ->
    documents_get (service w) docId = ok (Some data) ->
    JSONPath (target args) data = ok [ v ] ->
    lacks_required_indices (operation args) v = true ->
    UpFrontFailure args w.

End UpFront.

(** *** The Style Composer, as the specification words it *)

Definition wrap (opening closing text : string) : string := opening ++ text ++ closing.

(** Step 2: bold and italic. *)
Definition emphasis (bold italic : bool) (text : string) : string :=
  if bold && italic then wrap "***" "***" text
  else if bold then wrap "**" "**" text
  else if italic then wrap "*" "*" text
  else text.

(** Steps 3 to 6, each applied to the result of the step before. *)
Definition underlined (on : bool) (text : string) : string :=
  if on then wrap "__" "__" text else text.

Definition struck (on : bool) (text : string) : string :=
  if on then wrap "~~" "~~" text else text.

Definition linked (url : option string) (text : string) : string :=
  match url with
  | Some u => wrap "[" ("](" ++ u ++ ")") text
  | None => text
  end.

Definition coded (on : bool) (text : string) : string :=
  if on then wrap "`" "`" text else text.

Definition compose_style (bold italic underline strikethrough : bool)
  (url : option string) (monospace : bool) (text : string) : string :=
  if String.eqb text Js.nl then text
  else coded monospace
         (linked url (struck strikethrough (underlined underline (emphasis bold italic text)))).

(** The flags of a run; a run without a style record has none. *)
Definition run_text (run : Doc.TextRun) : string := Js.or_default (Doc.content run) EmptyString.

Definition run_flag (flag : Doc.TextStyle -> option bool) (run : Doc.TextRun) : bool :=
  match Doc.textStyle run with
  | Some style => Js.truthy_obool (flag style)
  | None => false
  end.

(** The link of a run: its URL, when the run has one that is not empty. *)
Definition run_link (run : Doc.TextRun) : option string :=
  match Doc.textStyle run with
  | Some style =>
      match link_url style with
      | Some u => if Js.truthy_string u then Some u else None
      | None => None
      end
  | None => None
  end.

Definition run_monospace (run : Doc.TextRun) : bool :=
  match Doc.textStyle run with
  | Some style => font_family_includes style "Courier" || font_family_includes style "Mono"
  | None => false
  end.

(** *** The table, line by line

    The lines of a table are described twice: with the text of a cell as
    the code builds it ([cell_markdown]: every run flattened on its own,
    then the runs joined), and with the text of a cell as the specification
    words it ([claimed_cell_markdown]: the runs joined, then the whole
    flattened). *)

(** The text runs nested in a cell, in order: the non-empty contents of the
    runs of the paragraphs of the cell. *)
Definition cell_runs (cell : Doc.TableCell) : list string :=
  flat_map
    (fun element =>
       match Doc.paragraph element with
       | Some par =>
           flat_map
             (fun textElement =>
                match Doc.textRun textElement with
                | Some run =>
                    match Doc.content run with
                    | Some c => if Js.truthy_string c then [ c ] else []
                    | None => []
                    end
                | None => []
                end)
             (or_empty (Doc.elements par))
       | None => []
       end)
    (or_empty (Doc.cell_content cell)).

(** Newlines collapsed to spaces, then trimmed. *)
Definition flatten_run (c : string) : string := Js.trim (Js.newlines_to_spaces c).

(** The text of a cell, run by run: each run has its newlines collapsed and
    is trimmed, and the results are concatenated; a cell without text is
    one space. *)
Definition cell_markdown (cell : Doc.TableCell) : string :=
  match String.concat EmptyString (map flatten_run (cell_runs cell)) with
  | EmptyString => " "
  | t => t
  end.

(** One pipe-delimited line. *)
Definition pipe_row (cells : list string) : string :=
  "| " ++ String.concat " | " cells ++ " |" ++ Js.nl.

Definition row_cells (row : Doc.TableRow) : list Doc.TableCell := or_empty (Doc.tableCells row).

Definition row_markdown (row : Doc.TableRow) : string :=
  pipe_row (map cell_markdown (row_cells row)).

Definition separator_row (columns : nat) : string := pipe_row (List.repeat "---" columns).

(** The lines of a table: the first row, the separator, the other rows. *)
Definition table_lines (rows : list Doc.TableRow) : list string :=
  match rows with
  | [] => []
  | first :: others =>
      row_markdown first :: separator_row (List.length (row_cells first))
        :: map row_markdown others
  end.

Definition table_markdown (rows : list Doc.TableRow) : string :=
  match rows with
  | [] => EmptyString
  | _ => Js.nl ++ String.concat EmptyString (table_lines rows) ++ Js.nl
  end.

(** The text of a cell in the words of the specification: the
    concatenation of its nested runs, with embedded newlines collapsed to
    spaces and trimmed; an empty cell is one space. *)
Definition claimed_cell_markdown (cell : Doc.TableCell) : string :=
  match flatten_run (String.concat EmptyString (cell_runs cell)) with
  | EmptyString => " "
  | t => t
  end.

Definition claimed_row_markdown (row : Doc.TableRow) : string :=
  pipe_row (map claimed_cell_markdown (row_cells row)).

(** The table with the cells of the specification: the first row, the
    separator, the other rows. *)
Definition claimed_table_markdown (rows : list Doc.TableRow) : string :=
  match rows with
  | [] => EmptyString
  | first :: others =>
      Js.nl
      ++ String.concat EmptyString
           (claimed_row_markdown first :: separator_row (List.length (row_cells first))
              :: map claimed_row_markdown others)
      ++ Js.nl
  end.

(** *** The paragraph prefixes *)

(** The prefix of a recognized named style. *)
Definition heading_prefix (style : string) : option string :=
  if String.eqb style "HEADING_1" then Some "# "
  else if String.eqb style "HEADING_2" then Some "## "
  else if String.eqb style "HEADING_3" then Some "### "
  else if String.eqb style "HEADING_4" then Some "#### "
  else if String.eqb style "HEADING_5" then Some "##### "
  else if String.eqb style "HEADING_6" then Some "###### "
  else if String.eqb style "TITLE" then Some "# "
  else if String.eqb style "SUBTITLE" then Some "## "
  else None.

(** The prefix of the named style of a paragraph, when it is recognized. *)
Definition style_prefix (p : Doc.Paragraph) : option string :=
  match named_style p with
  | Some style => heading_prefix style
  | None => None
  end.

(** The text of the paragraph without its trailing newlines. *)
Definition trimmed_text (p : Doc.Paragraph) : string :=
  Js.strip_trailing_newlines (paragraph_text p).

(** The list line of a paragraph with bullet [b]. *)
Definition list_line (b : Doc.Bullet) (text : string) : string :=
  let level := match Doc.nestingLevel b with Some n => n | None => O end in
  Js.repeat "  " level ++ (if Nat.eqb level 0 then "1." else "-") ++ " " ++ text ++ Js.nl.

(** The paragraph without its bullet descriptor. *)
Definition without_bullet (p : Doc.Paragraph) : Doc.Paragraph :=
  Doc.mkParagraph (Doc.paragraphStyle p) None (Doc.elements p).

(** The paragraphs and the runs of the examples. *)
Definition styled_run (text : string) (style : Doc.TextStyle) : Doc.ParagraphElement :=
  Doc.mkParagraphElement (Some (Doc.mkTextRun (Some text) (Some style))).

Definition plain_run (text : string) : Doc.ParagraphElement :=
  styled_run text Doc.plain.

Definition paragraph_of (style : string) (bullet : option Doc.Bullet)
  (elements : list Doc.ParagraphElement) : Doc.Paragraph :=
  Doc.mkParagraph (Some (Doc.mkParagraphStyle (Some style))) bullet (Some elements).

Definition cell_of (texts : list string) : Doc.TableCell :=
  Doc.mkTableCell
    (Some [ Doc.mkStructuralElement
              (Some (Doc.mkParagraph None None (Some (map plain_run texts)))) None false ]).

Definition table_of (rows : list (list (list string))) : Doc.Table :=
  Doc.mkTable (Some (map (fun row => Doc.mkTableRow (Some (map cell_of row))) rows)).

(** ** A small document service

    An instance of the variables of the handler, on which the handler
    runs: a snapshot is the list of the elements of [body.content], with
    their indices; the paths are [$.body.content[i]] and
    [$.body.content[*]]; the service keeps a revision counter per call of
    [batchUpdate] it accepted. *)

Module Sample.

Definition Snapshot : Type := list Target.t.

Record Service : Type := mkService {
  documents : list (string * Snapshot);
  revision : nat
}.

Fixpoint lookup (documentId : string) (docs : list (string * Snapshot)) : option Snapshot :=
  match docs with
  | [] => None
  | (k, d) :: rest => if String.eqb k documentId then Some d else lookup documentId rest
  end.

Definition documents_get (svc : Service) (documentId : string) : result (option Snapshot) :=
  match lookup documentId (documents svc) with
  | Some d => ok (Some d)
  | None => throw (Error "Requested entity was not found.")
  end.

Definition documents_batchUpdate (svc : Service) (documentId : string)
  (requests : list Request) : result Datatypes.unit * Service :=
  match lookup documentId (documents svc) with
  | Some _ => (ok tt, mkService (documents svc) (S (revision svc)))
  | None => (throw (Error "Requested entity was not found."), svc)
  end.

Definition digit_value (c : ascii) : option nat :=
  let n := nat_of_ascii c in
  if Nat.leb 48 n && Nat.leb n 57 then Some (n - 48)%nat else None.

(** The decimal index that ends with the closing bracket. *)
Fixpoint parse_index (acc : nat) (s : string) : option nat :=
  match s with
  | EmptyString => None
  | String c rest =>
      match digit_value c with
      | Some d =>
          match rest with
          | String "]"%char EmptyString => Some (10 * acc + d)%nat
          | _ => parse_index (10 * acc + d)%nat rest
          end
      | None => None
      end
  end.

Definition JSONPath (path : string) (doc : Snapshot) : result (list Target.t) :=
  match strip_prefix "$.body.content[" path with
  | Some rest =>
      if String.eqb rest "*]" then ok doc
      else
        match parse_index 0 rest with
        | Some i =>
            match nth_error doc i with
            | Some v => ok [ v ]
            | None => ok []
            end
        | None => throw (Error "Unsupported path expression")
        end
  | None => ok []
  end.

Definition show_index (o : option Z) : string :=
  match o with Some n => Js.of_number n | None => "null" end.

Definition show_element (v : Target.t) : string :=
  match v with
  | Target.nullish => "null"
  | Target.element s e => "{" ++ show_index s ++ "," ++ show_index e ++ "}"
  end.

Definition JSON_stringify (data : option Snapshot) : string :=
  match data with
  | Some elements => "[" ++ Js.join "," (map show_element elements) ++ "]"
  | None => "undefined"
  end.

(** A document of three elements: a section break that starts at index 0,
    and two paragraphs. *)
Definition snapshot : Snapshot :=
  [ Target.element (Some 0) (Some 1);
    Target.element (Some 1) (Some 12);
    Target.element (Some 12) (Some 30) ].

Definition world : World Service :=
  mkWorld (mkService [ ("doc-1", snapshot) ] 0) [].

Definition run (args : Args) : World Service -> result string * World Service :=
  handleJsonPathOperation documents_get documents_batchUpdate JSONPath JSON_stringify args.

End Sample.

(** ** Notions for the further properties of the compiler *)

(** An instruction moved by [d] positions of the index space. *)
Definition shift_range (d : Z) (r : Range) : Range :=
  mkRange (startIndex r + d) (endIndex r + d).

Definition shift_request (d : Z) (r : Request) : Request :=
  match r with
  | insertText index text => insertText (index + d) text
  | deleteContentRange range => deleteContentRange (shift_range d range)
  | updateTextStyle range style fields => updateTextStyle (shift_range d range) style fields
  | updateParagraphStyle range style fields =>
      updateParagraphStyle (shift_range d range) style fields
  | createParagraphBullets range preset => createParagraphBullets (shift_range d range) preset
  end.

(** The texts an instruction list inserts, in order. *)
Definition inserted_texts (requests : list Request) : list string :=
  flat_map (fun r => match r with insertText _ t => [ t ] | _ => [] end) requests.

(** The texts of a content list, in order: one per heading, paragraph and
    bullet item. *)
Definition content_texts (content : list ContentItem) : list string :=
  flat_map
    (fun item =>
       match item with
       | heading _ t => [ t ]
       | paragraph t => [ t ]
       | bulletList items => items
       end)
    content.

(** The instruction is an insertion, a paragraph style or a bullet
    creation, its indices lie between [lo] and [hi], and its range, when it
    has one, is not empty. *)
Definition within (lo hi : Z) (r : Request) : Prop :=
  match r with
  | insertText index text => lo <= index /\ index + Js.length text <= hi
  | updateParagraphStyle range _ _ | createParagraphBullets range _ =>
      lo <= startIndex range /\ startIndex range < endIndex range /\ endIndex range <= hi
  | _ => False
  end.

(** ** [updateDocContent]: the raw path of the tool

    The batches are lists of the instructions modelled by [Request]; the
    [catch] rewrites the message of an error of the service. *)

Definition wrap_update_error (e : JsError) : JsError :=
  let message := message_of e in
  if Js.includes "Invalid requests" message
  then Error ("Invalid update request. Make sure you're using valid Google Docs API request objects. Error: "
              ++ message)
  else if Js.includes "Invalid range" message
  then Error ("Invalid range in update request. Ensure the startIndex and endIndex are within the document bounds. Error: "
              ++ message)
  else Error ("Failed to update document: " ++ message).

Section RawPath.

Variable Service : Type.
Variable documents_batchUpdate :
  Service -> string -> list Request -> result Datatypes.unit * Service.

Definition updateDocContent (docIdOrUrl : string) (requests : list Request)
  : M Service string :=
  match extractDocId docIdOrUrl with
  | None => raise (Error "Invalid document ID or URL")
  | Some docId =>
      if negb (Js.truthy_string docId) then raise (Error "Invalid document ID or URL") else
      if Nat.eqb (List.length requests) 0 then raise (Error "No update requests provided") else
      fun w =>
        match batch_update documents_batchUpdate docId requests w with
        | (inl e, w') => (inl (wrap_update_error e), w')
        | (inr _, w') =>
            (ok ("Document updated successfully." ++ Js.nl ++ Js.nl
                 ++ buildUpdateSummary requests), w')
        end
  end.

End RawPath.

(** ** The calls of [handleJsonPathOperation]

    The handler once more, beside a journal of the calls it makes to the
    document service, the latest first: one entry for each
    [await docs.documents.get] and one for each
    [await docs.documents.batchUpdate]. The calls themselves are
    [get_document] and [batch_update]; nothing reads the journal. *)

Inductive Call : Type :=
| called_get (documentId : string)
| called_batchUpdate (documentId : string) (requests : list Request).

Section Journal.

Variables Service Snapshot : Type.
Variable documents_get : Service -> string -> result (option Snapshot).
Variable documents_batchUpdate :
  Service -> string -> list Request -> result Datatypes.unit * Service.
Variable JSONPath : string -> Snapshot -> result (list Target.t).
Variable JSON_stringify : option Snapshot -> string.

Definition Journaled (A : Type) : Type :=
  World Service * list Call -> result A * (World Service * list Call).

(** A step that calls nothing. *)
Definition quiet {A : Type} (m : M Service A) : Journaled A :=
  fun '(w, calls) => let '(r, w') := m w in (r, (w', calls)).

(** A step that is one call of the service. *)
Definition calling {A : Type} (call : Call) (m : M Service A) : Journaled A :=
  fun '(w, calls) => let '(r, w') := m w in (r, (w', call :: calls)).

Definition then_ {A B : Type} (m : Journaled A) (k : A -> Journaled B) : Journaled B :=
  fun j =>
    match m j with
    | (inl e, j') => (inl e, j')
    | (inr a, j') => k a j'
    end.

Definition handleJsonPathOperation_calls (args : Args) : Journaled string :=
  match extractDocId (doc_id_or_url args) with
  | None => quiet (raise (Error "Invalid document ID or URL"))
  | Some docId =>
      if negb (Js.truthy_string docId)
      then quiet (raise (Error "Invalid document ID or URL")) else
      then_ (calling (called_get docId) (get_document documents_get docId)) (fun doc =>
      match doc with
      | None => quiet (raise (Error "Failed to fetch document"))
      | Some data =>
          then_ (quiet (lift (JSONPath (target args) data))) (fun results =>
          if Nat.eqb (List.length results) 0
          then quiet (raise (Error ("No element found at JSONPath: " ++ target args)))
          else if Nat.ltb 1 (List.length results)
          then quiet (raise (Error ("Multiple elements found at JSONPath: " ++ target args
                                    ++ ". Path must be unique.")))
          else
            let targetElement := first_result results in
            then_ (quiet (lift (buildRequests args targetElement))) (fun built =>
            let '(requests, operationDescription) := built in
            then_ (calling (called_batchUpdate docId requests)
                     (batch_update documents_batchUpdate docId requests)) (fun _ =>
            let summary := buildUpdateSummary requests in
            then_ (calling (called_get docId) (get_document documents_get docId))
              (fun updatedDoc =>
            quiet (ret (success_message JSON_stringify args operationDescription summary
                          updatedDoc))))))
      end)
  end.

End Journal.

(** ** Sample services that fail

    [unavailable_after_update] answers [documents.get] until a batch has
    been accepted; [reject_batch] refuses every batch. *)

Module Failing.

Definition unavailable_after_update (svc : Sample.Service) (documentId : string)
  : result (option Sample.Snapshot) :=
  if Nat.eqb (Sample.revision svc) 0
  then Sample.documents_get svc documentId
  else throw (Error "The service is currently unavailable.").

Definition reject_batch (svc : Sample.Service) (documentId : string)
  (requests : list Request) : result Datatypes.unit * Sample.Service :=
  (throw (Error "Invalid requests[0].deleteContentRange: Invalid range"), svc).

End Failing.

(** ** Notions for the properties of [extractDocId] *)

(** The string has no slash. *)
Fixpoint no_slash (s : string) : bool :=
  match s with
  | EmptyString => true
  | String c rest => negb (Ascii.eqb c "/"%char) && no_slash rest
  end.

(** The string is empty or starts with a character that cannot belong to a
    document id. *)
Definition ends_id (rest : string) : bool :=
  match rest with
  | EmptyString => true
  | String c _ => negb (is_id_char c)
  end.

(** ** [convertSheetToMarkdown] ([get-contents.ts]) *)

(** [Math.max(...values.map((row) => row.length))], for values that are not
    empty: the lengths are not negative. *)
Definition max_row_length (values : list (list string)) : nat :=
  fold_right (fun row m => Nat.max (List.length row) m) 0%nat values.

(** The [while] loop that pads a copy of a row with empty cells, for at most
    [fuel] turns. *)
Fixpoint pad_row (fuel maxCols : nat) (normalized : list string) : list string :=
  match fuel with
  | O => normalized
  | S fuel' =>
      if Nat.ltb (List.length normalized) maxCols
      then pad_row fuel' maxCols (normalized ++ [ EmptyString ])%list
      else normalized
  end.

(** The loop adds one cell per turn, so [maxCols] turns are enough. *)
Definition normalize_row (maxCols : nat) (row : list string) : list string :=
  pad_row maxCols maxCols row.

(** [row.map((cell) => cell || " ")], between pipes. *)
Definition sheet_line (row : list string) : string :=
  "| " ++ Js.join " | " (map (fun cell => if Js.truthy_string cell then cell else " ") row)
  ++ " |" ++ Js.nl.

Definition convertSheetToMarkdown (values : list (list string)) : string :=
  if Nat.eqb (List.length values) 0 then "*(empty spreadsheet)*" else
  let maxCols := max_row_length values in
  let normalizedRows := map (normalize_row maxCols) values in
  let markdown := EmptyString in
  let markdown :=
    match normalizedRows with
    | headerRow :: _ =>
        (markdown ++ sheet_line headerRow)
        ++ "| " ++ Js.join " | " (map (fun _ => "---") headerRow) ++ " |" ++ Js.nl
    | [] => markdown
    end in
  let markdown :=
    fold_left (fun markdown row => markdown ++ sheet_line row) (tl normalizedRows) markdown in
  let markdown :=
    fold_left (fun markdown row => markdown ++ sheet_line row) (tl normalizedRows) markdown in
  markdown.

(** A row padded to [n] cells. *)
Definition padded (n : nat) (row : list string) : list string :=
  (row ++ List.repeat EmptyString (n - List.length row))%list.

(** ** [detectDocumentType] and [getDocContents] ([get-contents.ts],
    [get-doc-contents.ts]) *)

(** The regular expression [/MARKER([a-zA-Z0-9-_]+)/] anchored at the start
    of [s], then anywhere in the input: the capture group of the leftmost
    match. *)
Definition match_id_here (marker s : string) : option string :=
  match strip_prefix marker s with
  | Some rest =>
      match take_id_chars rest with
      | EmptyString => None
      | id => Some id
      end
  | None => None
  end.

Fixpoint match_id (marker input : string) : option string :=
  match match_id_here marker input with
  | Some id => Some id
  | None =>
      match input with
      | EmptyString => None
      | String _ rest => match_id marker rest
      end
  end.

Inductive DocumentType : Type := document | spreadsheet.

Inductive Format : Type := markdown | json.

(** [`${mimeType}`]. *)
Definition show_mime (mimeType : option string) : string :=
  match mimeType with Some m => m | None => "undefined" end.

Definition mime_is (mimeType : option string) (name : string) : bool :=
  match mimeType with Some m => String.eqb m name | None => false end.

(** [JSON.stringify({ content: [] }, null, 2)]. *)
Definition empty_content_json : string :=
  "{" ++ Js.nl ++ "  " ++ Js.dquote ++ "content" ++ Js.dquote ++ ": []" ++ Js.nl ++ "}".

(** [doc.body?.content] is there. *)
Definition has_content (doc : Doc.Document) : bool :=
  match Doc.body doc with
  | Some b => is_some (Doc.body_content b)
  | None => false
  end.

(** The [catch] of the readers: an error is thrown again with a prefix. *)
Definition rethrow {A : Type} (prefix : string) (r : result A) : result A :=
  match r with
  | inl e => throw (Error (prefix ++ message_of e))
  | inr a => ok a
  end.

Section Contents.

(** [drive.files.get] gives the MIME type of a file, [docs.documents.get]
    the document, and [JSON.stringify(doc, null, 2)] its text. *)
Variable files_get : string -> result (option string).
Variable documents_get : string -> result Doc.Document.
Variable stringify_document : Doc.Document -> string.

Definition detectDocumentType (input : string) : result (string * DocumentType) :=
  match match_id "/document/d/" input with
  | Some id =>
      if negb (Js.truthy_string id) then throw (Error "Invalid document URL")
      else ok (id, document)
  | None =>
      match match_id "/spreadsheets/d/" input with
      | Some id =>
          if negb (Js.truthy_string id) then throw (Error "Invalid spreadsheet URL")
          else ok (id, spreadsheet)
      | None =>
          if is_document_id input
          then
            rethrow "Failed to detect file type: "
              (rbind (files_get input) (fun mimeType =>
               if mime_is mimeType "application/vnd.google-apps.document"
               then ok (input, document)
               else if mime_is mimeType "application/vnd.google-apps.spreadsheet"
               then ok (input, spreadsheet)
               else throw (Error ("Unsupported file type: " ++ show_mime mimeType))))
          else throw (Error "Invalid document ID or URL")
      end
  end.

(** [getDocContents] of [get-contents.ts], which receives the id; it is
    also the [try] of the one of [get-doc-contents.ts]. *)
Definition read_document (docId : string) (format : Format) : result string :=
  rethrow "Failed to get document: "
    (rbind (documents_get docId) (fun doc =>
     if negb (has_content doc)
     then ok (match format with json => empty_content_json | markdown => EmptyString end)
     else
       match format with
       | json => ok (stringify_document doc)
       | markdown => ok (convertDocToMarkdown doc)
       end)).

(** [getDocContents] of [get-doc-contents.ts], from a reference. *)
Definition getDocContents (docIdOrUrl : string) (format : Format) : result string :=
  match extractDocId docIdOrUrl with
  | None => throw (Error "Invalid document ID or URL")
  | Some docId =>
      if negb (Js.truthy_string docId) then throw (Error "Invalid document ID or URL")
      else read_document docId format
  end.

End Contents.

(** ** Notions for the further properties of the renderer *)

(** The number of newlines of a text. *)
Fixpoint count_newlines (s : string) : nat :=
  match s with
  | EmptyString => 0%nat
  | String c rest => ((if Js.is_newline c then 1 else 0) + count_newlines rest)%nat
  end.

(** The rendering of one structural element: a paragraph first, else a
    table, else a section break; any other element has none. *)
Definition element_markdown (element : Doc.StructuralElement) : string :=
  match Doc.paragraph element, Doc.table element with
  | Some par, _ => processParagraph par
  | None, Some tbl => processTable tbl
  | None, None =>
      if Doc.sectionBreak element then Js.nl ++ "---" ++ Js.nl ++ Js.nl else EmptyString
  end.

(** The structural elements of a document. *)
Definition document_elements (doc : Doc.Document) : list Doc.StructuralElement :=
  match Doc.body doc with
  | Some b => or_empty (Doc.body_content b)
  | None => []
  end.

(** * Properties *)

(** ** Strings *)

Lemma append_assoc (a b c : string) : (a ++ b) ++ c = a ++ (b ++ c).
Proof.
  induction a as [| ch a IH]; simpl.
  - reflexivity.
  - now rewrite IH.
Qed.

Lemma append_empty_r (a : string) : a ++ EmptyString = a.
Proof.
  induction a as [| ch a IH]; simpl; [reflexivity | now rewrite IH].
Qed.

Lemma length_append (a b : string) : Js.length (a ++ b) = Js.length a + Js.length b.
Proof.
  unfold Js.length.
  induction a as [| ch a IH]; simpl String.length.
  - reflexivity.
  - rewrite !Nat2Z.inj_succ. lia.
Qed.

Lemma length_with_newline (a : string) : Js.length (a ++ Js.nl) = Js.length a + 1.
Proof. rewrite length_append. reflexivity. Qed.

Lemma length_nonneg (a : string) : 0 <= Js.length a.
Proof. unfold Js.length. lia. Qed.

Lemma In_existsb (x : string) (l : list string) :
  In x l <-> existsb (String.eqb x) l = true.
Proof.
  rewrite existsb_exists. split.
  - intros H. exists x. split; [assumption | apply String.eqb_refl].
  - intros [y [Hy Heq]]. apply String.eqb_eq in Heq. now subst.
Qed.

Example of_number_10 : Js.of_number 10 = "10".
Proof. reflexivity. Qed.

Example of_number_negative : Js.of_number (-3) = "-3".
Proof. reflexivity. Qed.

Example strip_trailing_newlines_inner :
  Js.strip_trailing_newlines ("a" ++ Js.nl ++ "b" ++ Js.nl ++ Js.nl) = "a" ++ Js.nl ++ "b".
Proof. reflexivity. Qed.

Example trim_both_ends : Js.trim ("  a b " ++ Js.nl) = "a b".
Proof. reflexivity. Qed.

Example includes_mono : Js.includes "Mono" "Roboto Mono" = true.
Proof. reflexivity. Qed.

(** ** The running cursor of [generateRequestsFromContent] *)

Lemma push_bullet_item_step (requests : list Request) (currentIndex : Z) (item : string) :
  push_bullet_item (requests, currentIndex) item =
  ((requests ++ bullet_requests item currentIndex)%list,
   currentIndex + Js.length (item ++ Js.nl)).
Proof. reflexivity. Qed.

(** The instructions of one bullet list, from a given cursor. *)
Lemma bullet_loop_from (items : list string) :
  forall requests currentIndex,
    fold_left push_bullet_item items (requests, currentIndex) =
    ((requests ++ fst (fold_left push_bullet_item items ([], currentIndex)))%list,
     snd (fold_left push_bullet_item items ([], currentIndex))).
Proof.
  induction items as [| item items IH]; intros requests currentIndex.
  - simpl. now rewrite app_nil_r.
  - cbn [fold_left]. rewrite !push_bullet_item_step.
    rewrite IH. symmetry. rewrite IH. symmetry.
    simpl fst. simpl snd. rewrite <- app_assoc. reflexivity.
Qed.

Lemma push_item_from (item : ContentItem) (requests : list Request) (currentIndex : Z) :
  push_item (requests, currentIndex) item =
  ((requests ++ fst (push_item ([], currentIndex) item))%list,
   snd (push_item ([], currentIndex) item)).
Proof.
  destruct item as [level text0 | text0 | items]; simpl.
  - reflexivity.
  - reflexivity.
  - apply bullet_loop_from.
Qed.

Lemma content_loop_from (content : list ContentItem) :
  forall requests currentIndex,
    fold_left push_item content (requests, currentIndex) =
    ((requests ++ generateRequestsFromContent content currentIndex)%list,
     final_cursor content currentIndex).
Proof.
  unfold generateRequestsFromContent, final_cursor, compile_content.
  induction content as [| item content IH]; intros requests currentIndex.
  - simpl. now rewrite app_nil_r.
  - cbn [fold_left].
    rewrite (push_item_from item requests currentIndex).
    rewrite IH. symmetry.
    rewrite (push_item_from item [] currentIndex).
    rewrite IH. simpl fst. simpl snd. simpl app.
    now rewrite app_assoc.
Qed.

(** The instructions of a content list are those of its first item followed
    by those of the rest, compiled from where the first item left the
    cursor. *)
Lemma generate_cons (item : ContentItem) (content : list ContentItem) (startIndex : Z) :
  generateRequestsFromContent (item :: content) startIndex =
  (generateRequestsFromContent [ item ] startIndex
   ++ generateRequestsFromContent content (final_cursor [ item ] startIndex))%list
  /\ final_cursor (item :: content) startIndex =
     final_cursor content (final_cursor [ item ] startIndex).
Proof.
  unfold generateRequestsFromContent, final_cursor, compile_content.
  cbn [fold_left].
  destruct (push_item ([], startIndex) item) as [requests currentIndex].
  rewrite content_loop_from. cbn [fst snd].
  split; reflexivity.
Qed.

Lemma inserted_length_app (l1 l2 : list Request) :
  inserted_length (l1 ++ l2) = inserted_length l1 + inserted_length l2.
Proof.
  induction l1 as [| r l1 IH]; simpl.
  - reflexivity.
  - destruct r; rewrite IH; lia.
Qed.

Lemma bullet_loop_cursor (items : list string) :
  forall currentIndex,
    snd (fold_left push_bullet_item items ([], currentIndex)) =
    currentIndex + inserted_length (fst (fold_left push_bullet_item items ([], currentIndex))).
Proof.
  induction items as [| item items IH]; intros currentIndex.
  - simpl. lia.
  - cbn [fold_left]. rewrite push_bullet_item_step.
    rewrite bullet_loop_from. simpl fst. simpl snd.
    rewrite IH. unfold inserted_length. cbn [fold_right]. lia.
Qed.

(** The cursor ends at the anchor plus the length of everything inserted. *)
Lemma final_cursor_inserted (content : list ContentItem) :
  forall startIndex,
    final_cursor content startIndex =
    startIndex + inserted_length (generateRequestsFromContent content startIndex).
Proof.
  induction content as [| item content IH]; intros startIndex.
  - unfold final_cursor, generateRequestsFromContent. simpl. lia.
  - destruct (generate_cons item content startIndex) as [Hg Hc].
    rewrite Hg, Hc, IH, inserted_length_app.
    assert (H1 : final_cursor [ item ] startIndex =
                 startIndex + inserted_length (generateRequestsFromContent [ item ] startIndex)).
    { unfold final_cursor, generateRequestsFromContent, compile_content. cbn [fold_left].
      destruct item as [level text0 | text0 | items].
      - simpl. lia.
      - simpl. lia.
      - simpl push_item. apply bullet_loop_cursor. }
    rewrite H1. lia.
Qed.

Lemma addressed_app (l1 l2 : list Request) :
  forall last cursor,
    addressed last cursor (l1 ++ l2) =
    match addressed last cursor l1 with
    | Some (last', cursor') => addressed last' cursor' l2
    | None => None
    end.
Proof.
  induction l1 as [| r l1 IH]; intros last cursor.
  - reflexivity.
  - rewrite <- app_comm_cons. destruct r; cbn [addressed].
    + destruct (index =? cursor); [apply IH | reflexivity].
    + reflexivity.
    + reflexivity.
    + destruct ((startIndex range =? last) && (endIndex range =? cursor));
        [apply IH | reflexivity].
    + destruct ((startIndex range =? last) && (endIndex range =? cursor));
        [apply IH | reflexivity].
Qed.

Lemma bullet_requests_addressed (item : string) (last cursor : Z) :
  addressed last cursor (bullet_requests item cursor) =
  Some (cursor, cursor + Js.length (item ++ Js.nl)).
Proof.
  unfold bullet_requests. cbn [addressed startIndex endIndex].
  now rewrite !Z.eqb_refl.
Qed.

Lemma bullet_loop_addressed (items : list string) :
  forall last cursor,
    exists last',
      addressed last cursor (fst (fold_left push_bullet_item items ([], cursor))) =
      Some (last', snd (fold_left push_bullet_item items ([], cursor))).
Proof.
  induction items as [| item items IH]; intros last cursor.
  - exists last. reflexivity.
  - cbn [fold_left]. rewrite push_bullet_item_step, bullet_loop_from.
    cbn [fst snd app]. change (bullet_requests item cursor ++ ?l)%list
      with (bullet_requests item cursor ++ l)%list.
    rewrite addressed_app, bullet_requests_addressed.
    apply IH.
Qed.

(** X1: cursor discipline: whatever the content and the anchor, the emitted
    instructions are addressed by the running cursor, which starts at the
    anchor and ends at [final_cursor]: every text is inserted at the cursor
    and every style or bullet instruction spans the text inserted last. *)
Lemma cursor_discipline (content : list ContentItem) :
  forall last anchor,
    exists last',
      addressed last anchor (generateRequestsFromContent content anchor) =
      Some (last', final_cursor content anchor).
Proof.
  induction content as [| item content IH]; intros last anchor.
  - exists last. reflexivity.
  - destruct (generate_cons item content anchor) as [Hg Hc].
    rewrite Hg, Hc, addressed_app.
    assert (H1 : exists last1,
               addressed last anchor (generateRequestsFromContent [ item ] anchor)
               = Some (last1, final_cursor [ item ] anchor)).
    { unfold generateRequestsFromContent, final_cursor, compile_content.
      cbn [fold_left].
      destruct item as [level text0 | text0 | items].
      - exists anchor. cbn [push_item fst snd app addressed startIndex endIndex].
        now rewrite !Z.eqb_refl.
      - exists anchor. cbn [push_item fst snd app addressed].
        now rewrite !Z.eqb_refl.
      - cbn [push_item]. apply bullet_loop_addressed. }
    destruct H1 as [last1 ->]. apply IH.
Qed.

(** ** The compiled instruction lists *)

(** C1, as amended: the content [heading(2,"H"); paragraph("P");
    bulletList(["A";"B"])] compiled at anchor 10 yields four text
    insertions, at 10, 12, 14 and 16 in that order, each of the item text
    and a newline; the heading's paragraph-style instruction spans [10,12)
    and sets HEADING_2; each bullet item is styled NORMAL_TEXT and bulleted
    over its own span; the cursor ends at 18. *)
Theorem cursor_scenario_compiled :
  generateRequestsFromContent cursor_scenario 10 =
    [ insertText 10 ("H" ++ Js.nl);
      updateParagraphStyle (mkRange 10 12) (ParagraphStyleUpdate.named "HEADING_2")
        "namedStyleType";
      insertText 12 ("P" ++ Js.nl);
      insertText 14 ("A" ++ Js.nl);
      updateParagraphStyle (mkRange 14 16) (ParagraphStyleUpdate.named "NORMAL_TEXT")
        "namedStyleType";
      createParagraphBullets (mkRange 14 16) "BULLET_DISC_CIRCLE_SQUARE";
      insertText 16 ("B" ++ Js.nl);
      updateParagraphStyle (mkRange 16 18) (ParagraphStyleUpdate.named "NORMAL_TEXT")
        "namedStyleType";
      createParagraphBullets (mkRange 16 18) "BULLET_DISC_CIRCLE_SQUARE" ]
  /\ insertion_points (generateRequestsFromContent cursor_scenario 10) = [ 10; 12; 14; 16 ]
  /\ final_cursor cursor_scenario 10 = 18.
Proof. repeat split; reflexivity. Qed.

(** C1, as stated, fails: the insertion points of the scenario are not
    10, 12, 14, 16, 18; no text is inserted at 18, where the cursor ends. *)
Lemma cursor_scenario_no_insertion_at_18 :
  insertion_points (generateRequestsFromContent cursor_scenario 10) <> [ 10; 12; 14; 16; 18 ].
Proof. vm_compute. discriminate. Qed.

Lemma require_range_rangeable (v : Target.t) (s e : Z) (message : string) :
  rangeable v s e -> require_range v message = ok (mkRange s e).
Proof.
  intros [-> [Hs He]]. unfold require_range. simpl.
  apply Z.eqb_neq in Hs, He. now rewrite Hs, He.
Qed.

Lemma require_range_ok (v : Target.t) (message : string) (range : Range) :
  require_range v message = ok range ->
  rangeable v (startIndex range) (endIndex range).
Proof.
  unfold require_range, rangeable.
  destruct v as [| [s |] [e |]]; simpl; try discriminate.
  - destruct (Z.eqb_spec s 0); simpl; [discriminate |].
    destruct (Z.eqb_spec e 0); simpl; [discriminate |].
    intros H. injection H as <-. simpl. auto.
  - destruct (s =? 0); discriminate.
Qed.

(** C3: a replace intent with a rangeable target [s,e) and non-empty
    content compiles to exactly one deleteRange{s,e} followed by the insert
    instructions of the content anchored at s. *)
Theorem replace_decomposition (args : Args) (v : Target.t) (s e : Z)
  (items : list ContentItem) :
  operation args = Operation.replace ->
  content args = Some items ->
  items <> [] ->
  rangeable v s e ->
  buildRequests args v =
    ok (deleteContentRange (mkRange s e) :: generateRequestsFromContent items s,
        "Replaced element at index " ++ Js.of_number s ++ "-" ++ Js.of_number e).
Proof.
  intros Hop Hcontent Hitems Hrange.
  unfold buildRequests. rewrite Hop, Hcontent.
  destruct items as [| item items]; [contradiction |].
  cbn [content_missing List.length Nat.eqb].
  rewrite (require_range_rangeable _ Hrange). reflexivity.
Qed.

(** The scenario of C3: replace on [20,30) with [paragraph("X")] emits
    deleteRange{20,30}, then insertText{20,"X\n"}, and nothing else. *)
Lemma replace_scenario :
  buildRequests
    (mkArgs "doc-1" Operation.replace "$.body.content[2]" (Some [ paragraph "X" ]) None None)
    (Target.element (Some 20) (Some 30)) =
  ok ([ deleteContentRange (mkRange 20 30); insertText 20 ("X" ++ Js.nl) ],
      "Replaced element at index 20-30").
Proof.
  apply (@replace_decomposition
           (mkArgs "doc-1" Operation.replace "$.body.content[2]" (Some [ paragraph "X" ])
              None None)
           (Target.element (Some 20) (Some 30)) 20 30 [ paragraph "X" ]).
  - reflexivity.
  - reflexivity.
  - discriminate.
  - unfold rangeable. repeat split; discriminate.
Defined.

(** C8: a target whose startIndex is present but 0 is rejected by [delete],
    [replace], [updateTextStyle], [updateParagraphStyle] and [insertBefore]:
    the test of the index is a truthiness test, which 0 fails as a missing
    index does; the intent never compiles, and when it carries the payload
    its operation requires, the error is the missing-index error of the
    operation. *)
Theorem zero_start_index_rejected (args : Args) (e : option Z) :
  operation args <> Operation.insertAfter ->
  (forall message,
      require_range (Target.element (Some 0) e) message = throw (Error message))
  /\ insert_index Operation.insertBefore (Target.element (Some 0) e)
     = throw (Error "Target element does not have a startIndex")
  /\ (exists err, buildRequests args (Target.element (Some 0) e) = throw err)
  /\ (payload_missing args = false ->
      buildRequests args (Target.element (Some 0) e) =
      throw (Error (missing_index_message (operation args)))).
Proof.
  intros Hop. split; [reflexivity | split; [reflexivity |]].
  unfold buildRequests, payload_missing.
  destruct (operation args); try contradiction; cbn.
  - destruct (content_missing (content args)); split; eauto; discriminate.
  - destruct (content_missing (content args)); split; eauto; discriminate.
  - split; eauto.
  - destruct (textStyle args); split; eauto; discriminate.
  - destruct (paragraphStyle args); split; eauto; discriminate.
Qed.

(** C8 on the first element of a body, which starts at index 0: [replace]
    with content is rejected for its indices. *)
Lemma zero_start_index_rejected_replace :
  (exists err,
      buildRequests
        (mkArgs "doc-1" Operation.replace "$.body.content[0]" (Some [ paragraph "X" ])
           None None)
        (Target.element (Some 0) (Some 1)) = throw err)
  /\ buildRequests
       (mkArgs "doc-1" Operation.replace "$.body.content[0]" (Some [ paragraph "X" ])
          None None)
       (Target.element (Some 0) (Some 1)) =
     throw (Error "Target element must have startIndex and endIndex for replace operation").
Proof.
  destruct (@zero_start_index_rejected
              (mkArgs "doc-1" Operation.replace "$.body.content[0]" (Some [ paragraph "X" ])
                 None None)
              (Some 1)) as [_ [_ [Hrejected Hmessage]]].
  - discriminate.
  - split; [exact Hrejected | apply Hmessage; reflexivity].
Defined.

(** ** Field masks *)

Lemma textStyle_mask (ts : TextStyleArg.t) (a : TextAttribute) :
  existsb (String.eqb (text_attribute_name a))
    (split_commas (Js.join "," (textStyle_fields ts)))
  = text_attribute_present a ts.
Proof.
  destruct ts as [b i u st fs fg bg l].
  destruct b, i, u, st, fs, fg, bg, l; destruct a; vm_compute; reflexivity.
Qed.

(** The booleans of the patch reach the payload as they are. *)
Lemma textStyle_booleans (ts : TextStyleArg.t) :
  TextStyleUpdate.bold (textStyleUpdate_of ts) = TextStyleArg.bold ts
  /\ TextStyleUpdate.italic (textStyleUpdate_of ts) = TextStyleArg.italic ts
  /\ TextStyleUpdate.underline (textStyleUpdate_of ts) = TextStyleArg.underline ts
  /\ TextStyleUpdate.strikethrough (textStyleUpdate_of ts) = TextStyleArg.strikethrough ts.
Proof.
  destruct ts as [b i u st fs fg bg l].
  destruct b, i, u, st, fs, fg, bg, l; repeat split.
Qed.

Lemma paragraphStyle_mask (ps : ParagraphStyleArg.t) (a : ParagraphAttribute) :
  existsb (String.eqb (paragraph_attribute_name a))
    (split_commas (Js.join "," (paragraphStyle_fields ps)))
  = paragraph_attribute_present a ps.
Proof.
  destruct ps as [h al ls d i1 i2 i3].
  destruct h, al, ls, d, i1, i2, i3; destruct a; vm_compute; reflexivity.
Qed.

(** C4: the instruction emitted for [updateTextStyle] (and for
    [updateParagraphStyle]) on a rangeable target lists an attribute in its
    field mask if and only if the attribute is explicitly present in the
    style patch of the request; the booleans of the patch go to the payload
    as they are, [false] included. *)
Theorem field_mask_sparsity :
  (forall (args : Args) (v : Target.t) (s e : Z) (ts : TextStyleArg.t),
      operation args = Operation.updateTextStyle ->
      textStyle args = Some ts ->
      rangeable v s e ->
      exists payload fields description,
        buildRequests args v =
          ok ([ updateTextStyle (mkRange s e) payload fields ], description)
        /\ (forall a, In (text_attribute_name a) (split_commas fields)
                      <-> text_attribute_present a ts = true)
        /\ TextStyleUpdate.bold payload = TextStyleArg.bold ts
        /\ TextStyleUpdate.italic payload = TextStyleArg.italic ts
        /\ TextStyleUpdate.underline payload = TextStyleArg.underline ts
        /\ TextStyleUpdate.strikethrough payload = TextStyleArg.strikethrough ts)
  /\ (forall (args : Args) (v : Target.t) (s e : Z) (ps : ParagraphStyleArg.t),
         operation args = Operation.updateParagraphStyle ->
         paragraphStyle args = Some ps ->
         rangeable v s e ->
         exists payload fields description,
           buildRequests args v =
             ok ([ updateParagraphStyle (mkRange s e) payload fields ], description)
           /\ (forall a, In (paragraph_attribute_name a) (split_commas fields)
                         <-> paragraph_attribute_present a ps = true))
  /\ (forall (args : Args) (v : Target.t) (s e : Z) (b : bool),
         operation args = Operation.updateTextStyle ->
         textStyle args = Some (TextStyleArg.mk (Some b) None None None None None None None) ->
         rangeable v s e ->
         exists description,
           buildRequests args v =
             ok ([ updateTextStyle (mkRange s e)
                     (TextStyleUpdate.mk (Some b) None None None None None None None)
                     "bold" ],
                 description)).
Proof.
  split; [| split].
  - intros args v s e ts Hop Hts Hrange.
    exists (textStyleUpdate_of ts), (Js.join "," (textStyle_fields ts)).
    eexists. split.
    + unfold buildRequests. rewrite Hop, Hts.
      rewrite (require_range_rangeable _ Hrange). reflexivity.
    + split.
      * intros a. rewrite In_existsb, textStyle_mask. reflexivity.
      * apply textStyle_booleans.
  - intros args v s e ps Hop Hps Hrange.
    exists (paragraphStyleUpdate_of ps), (Js.join "," (paragraphStyle_fields ps)).
    eexists. split.
    + unfold buildRequests. rewrite Hop, Hps.
      rewrite (require_range_rangeable _ Hrange). reflexivity.
    + intros a. rewrite In_existsb, paragraphStyle_mask. reflexivity.
  - intros args v s e b Hop Hts Hrange. eexists.
    unfold buildRequests. rewrite Hop, Hts.
    rewrite (require_range_rangeable _ Hrange). reflexivity.
Qed.

(** C4 on the patches [{bold: false}] and [{headingLevel: HEADING_2}], and on
    [{bold: true}], whose mask is exactly [bold]. *)
Lemma field_mask_sparsity_witness :
  (exists payload fields description,
      buildRequests
        (mkArgs "doc-1" Operation.updateTextStyle "$.body.content[1]" None
           (Some (TextStyleArg.mk (Some false) None None None None None None None)) None)
        (Target.element (Some 1) (Some 12)) =
        ok ([ updateTextStyle (mkRange 1 12) payload fields ], description)
      /\ (forall a, In (text_attribute_name a) (split_commas fields)
                    <-> text_attribute_present a
                          (TextStyleArg.mk (Some false) None None None None None None None)
                        = true)
      /\ TextStyleUpdate.bold payload = Some false
      /\ TextStyleUpdate.italic payload = None
      /\ TextStyleUpdate.underline payload = None
      /\ TextStyleUpdate.strikethrough payload = None)
  /\ (exists payload fields description,
         buildRequests
           (mkArgs "doc-1" Operation.updateParagraphStyle "$.body.content[1]" None None
              (Some (ParagraphStyleArg.mk (Some HEADING_2) None None None None None None)))
           (Target.element (Some 1) (Some 12)) =
           ok ([ updateParagraphStyle (mkRange 1 12) payload fields ], description)
         /\ (forall a, In (paragraph_attribute_name a) (split_commas fields)
                       <-> paragraph_attribute_present a
                             (ParagraphStyleArg.mk (Some HEADING_2) None None None None None
                                None)
                           = true))
  /\ (exists description,
         buildRequests
           (mkArgs "doc-1" Operation.updateTextStyle "$.body.content[1]" None
              (Some (TextStyleArg.mk (Some true) None None None None None None None)) None)
           (Target.element (Some 1) (Some 12)) =
           ok ([ updateTextStyle (mkRange 1 12)
                   (TextStyleUpdate.mk (Some true) None None None None None None None)
                   "bold" ],
               description)).
Proof.
  split; [| split].
  - apply (proj1 field_mask_sparsity
             (mkArgs "doc-1" Operation.updateTextStyle "$.body.content[1]" None
                (Some (TextStyleArg.mk (Some false) None None None None None None None)) None)
             (Target.element (Some 1) (Some 12)) 1 12
             (TextStyleArg.mk (Some false) None None None None None None None)).
    + reflexivity.
    + reflexivity.
    + unfold rangeable. repeat split; discriminate.
  - apply (proj1 (proj2 field_mask_sparsity)
             (mkArgs "doc-1" Operation.updateParagraphStyle "$.body.content[1]" None None
                (Some (ParagraphStyleArg.mk (Some HEADING_2) None None None None None None)))
             (Target.element (Some 1) (Some 12)) 1 12
             (ParagraphStyleArg.mk (Some HEADING_2) None None None None None None)).
    + reflexivity.
    + reflexivity.
    + unfold rangeable. repeat split; discriminate.
  - apply (proj2 (proj2 field_mask_sparsity)
             (mkArgs "doc-1" Operation.updateTextStyle "$.body.content[1]" None
                (Some (TextStyleArg.mk (Some true) None None None None None None None)) None)
             (Target.element (Some 1) (Some 12)) 1 12 true).
    + reflexivity.
    + reflexivity.
    + unfold rangeable. repeat split; discriminate.
Defined.

(** ** The handler *)

Lemma match_document_url_truthy (input id : string) :
  match_document_url input = Some id -> Js.truthy_string id = true.
Proof.
  induction input as [| c input IH]; cbn [match_document_url].
  - unfold match_document_here.
    destruct (strip_prefix "/document/d/" EmptyString) as [rest |]; [| discriminate].
    destruct (take_id_chars rest); [discriminate |].
    intros H. injection H as <-. reflexivity.
  - unfold match_document_here at 1.
    destruct (strip_prefix "/document/d/" (String c input)) as [rest |]; [| exact IH].
    destruct (take_id_chars rest); [exact IH |].
    intros H. injection H as <-. reflexivity.
Qed.

(** A parsed document reference is never the empty string. *)
Lemma extractDocId_truthy (input id : string) :
  extractDocId input = Some id -> Js.truthy_string id = true.
Proof.
  unfold extractDocId.
  destruct (match_document_url input) as [m |] eqn:E.
  - intros H. injection H as <-. exact (match_document_url_truthy _ E).
  - unfold is_document_id.
    destruct (Js.truthy_string input) eqn:T; simpl; [| discriminate].
    destruct (all_id_chars input); [| discriminate].
    intros H. injection H as <-. exact T.
Qed.

Lemma buildRequests_payload_missing (args : Args) (v : Target.t) :
  payload_missing args = true -> exists e, buildRequests args v = throw e.
Proof.
  unfold payload_missing, buildRequests.
  destruct (operation args); cbn.
  - intros ->. eauto.
  - intros ->. eauto.
  - intros ->. eauto.
  - discriminate.
  - destruct (textStyle args); [discriminate | eauto].
  - destruct (paragraphStyle args); [discriminate | eauto].
Qed.

Lemma require_range_lacking (v : Target.t) (message : string) :
  lacks_required_indices Operation.delete v = true ->
  exists e, require_range v message = throw e.
Proof.
  unfold require_range. destruct v as [| s e]; cbn.
  - eauto.
  - destruct (Js.truthy_onumber s); cbn; [| eauto].
    intros ->. cbn. eauto.
Qed.

Lemma buildRequests_lacks_indices (args : Args) (v : Target.t) :
  lacks_required_indices (operation args) v = true ->
  exists e, buildRequests args v = throw e.
Proof.
  unfold buildRequests.
  destruct (operation args) eqn:Hop.
  - destruct (content_missing (content args)); [eauto |].
    destruct v as [| s e]; cbn; [eauto |]. intros ->. cbn. eauto.
  - destruct (content_missing (content args)); [eauto |].
    destruct v as [| s e]; cbn; [eauto |]. intros ->. cbn. eauto.
  - intros H. destruct (content_missing (content args)); [eauto |].
    destruct (require_range_lacking v
                "Target element must have startIndex and endIndex for replace operation")
      as [err ->]; [destruct v; exact H | cbn; eauto].
  - intros H.
    destruct (require_range_lacking v
                "Target element must have startIndex and endIndex for delete operation")
      as [err ->]; [destruct v; exact H | cbn; eauto].
  - intros H. destruct (textStyle args); [| eauto].
    destruct (require_range_lacking v
                "Target element must have startIndex and endIndex for updateTextStyle operation")
      as [err ->]; [destruct v; exact H | cbn; eauto].
  - intros H. destruct (paragraphStyle args); [| eauto].
    destruct (require_range_lacking v
                "Target element must have startIndex and endIndex for updateParagraphStyle operation")
      as [err ->]; [destruct v; exact H | cbn; eauto].
Qed.

Section HandlerProperties.

Variables Service Snapshot : Type.
Variable documents_get : Service -> string -> result (option Snapshot).
Variable documents_batchUpdate :
  Service -> string -> list Request -> result Datatypes.unit * Service.
Variable JSONPath : string -> Snapshot -> result (list Target.t).
Variable JSON_stringify : option Snapshot -> string.

Local Abbreviation run :=
  (handleJsonPathOperation documents_get documents_batchUpdate JSONPath JSON_stringify).

(** The handler once the reference is parsed, the snapshot fetched and the
    path evaluated: the two tests on the number of matches, then the
    dispatch on the first match. *)
Lemma run_resolved (args : Args) (w : World Service) (docId : string) (data : Snapshot)
  (results : list Target.t) :
  extractDocId (doc_id_or_url args) = Some docId ->
  documents_get (service w) docId = ok (Some data) ->
  JSONPath (target args) data = ok results ->
  run args w =
  if Nat.eqb (List.length results) 0
  then (throw (Error ("No element found at JSONPath: " ++ target args)), w)
  else if Nat.ltb 1 (List.length results)
  then (throw (Error ("Multiple elements found at JSONPath: " ++ target args
                      ++ ". Path must be unique.")), w)
  else
    match buildRequests args (first_result results) with
    | inl e => (inl e, w)
    | inr (requests, operationDescription) =>
        bind (batch_update documents_batchUpdate docId requests) (fun _ =>
        bind (get_document documents_get docId) (fun updatedDoc =>
        ret (success_message JSON_stringify args operationDescription
               (buildUpdateSummary requests) updatedDoc))) w
    end.
Proof.
  intros Hid Hget Hpath.
  unfold handleJsonPathOperation. rewrite Hid.
  rewrite (extractDocId_truthy _ Hid). cbn [negb].
  unfold bind at 1. unfold get_document at 1. rewrite Hget.
  unfold ok. cbv beta iota.
  unfold bind at 1. unfold lift at 1. rewrite Hpath.
  unfold ok. cbv beta iota.
  destruct (Nat.eqb (List.length results) 0); [reflexivity |].
  destruct (Nat.ltb 1 (List.length results)); [reflexivity |].
  unfold bind at 1. unfold lift at 1.
  destruct (buildRequests args (first_result results)) as [e | [requests description]];
    reflexivity.
Qed.

(** What follows a successful compilation submits exactly one batch. *)
Lemma submit_logs_batch (args : Args) (w : World Service) (docId description : string)
  (requests : list Request) :
  submitted
    (snd (bind (batch_update documents_batchUpdate docId requests) (fun _ =>
          bind (get_document documents_get docId) (fun updatedDoc =>
          ret (success_message JSON_stringify args description
                 (buildUpdateSummary requests) updatedDoc))) w))
  = (docId, requests) :: submitted w.
Proof.
  unfold bind, batch_update, get_document, ret.
  destruct (documents_batchUpdate (service w) docId requests) as [[e | u] service'];
    cbn; [reflexivity |].
  destruct (documents_get service' docId); reflexivity.
Qed.

Lemma log_grows (A : Type) (x : A) (l : list A) : x :: l <> l.
Proof.
  intros H. apply (f_equal (@List.length A)) in H. simpl in H. lia.
Qed.

(** C2: on a fetched snapshot, a path that matches no node fails with the
    not-found error and a path that matches several nodes fails with the
    ambiguity error, in both cases before anything is submitted; a batch is
    submitted, and the handler succeeds, only when the path matches exactly
    one node. *)
Theorem locator_uniqueness (args : Args) (w : World Service) (docId : string)
  (data : Snapshot) (results : list Target.t) :
  extractDocId (doc_id_or_url args) = Some docId ->
  documents_get (service w) docId = ok (Some data) ->
  JSONPath (target args) data = ok results ->
  (List.length results = 0%nat ->
   run args w = (throw (Error ("No element found at JSONPath: " ++ target args)), w))
  /\ ((1 < List.length results)%nat ->
      run args w =
      (throw (Error ("Multiple elements found at JSONPath: " ++ target args
                     ++ ". Path must be unique.")), w))
  /\ (submitted (snd (run args w)) <> submitted w -> List.length results = 1%nat)
  /\ (forall text w', run args w = (ok text, w') -> List.length results = 1%nat).
Proof.
  intros Hid Hget Hpath.
  rewrite (run_resolved args w Hid Hget Hpath).
  destruct (Nat.eqb_spec (List.length results) 0) as [Hzero | Hnonzero].
  - repeat split; try reflexivity; intros; try lia.
    + cbn in *. contradiction.
    + discriminate.
  - destruct (Nat.ltb_spec 1 (List.length results)) as [Hmany | Hfew].
    + repeat split; try reflexivity; intros; try lia.
      * cbn in *. contradiction.
      * discriminate.
    + repeat split; intros; lia.
Qed.

(** C6: an intent that is invalid up front makes the handler raise an error
    and leaves the world as it was: no batch is submitted and the state of
    the document service is unchanged. *)
Theorem invalid_intent_submits_nothing (args : Args) (w : World Service) :
  UpFrontFailure documents_get JSONPath args w ->
  exists e,
    run args w = (throw e, w)
    /\ submitted (snd (run args w)) = submitted w
    /\ service (snd (run args w)) = service w
    /\ handler documents_get documents_batchUpdate JSONPath JSON_stringify args w
       = (mkToolResult ("Error: " ++ message_of e) true, w).
Proof.
  assert (Hreply : forall e, run args w = (throw e, w) ->
            run args w = (throw e, w)
            /\ submitted (snd (run args w)) = submitted w
            /\ service (snd (run args w)) = service w
            /\ handler documents_get documents_batchUpdate JSONPath JSON_stringify args w
               = (mkToolResult ("Error: " ++ message_of e) true, w)).
  { intros e He. unfold handler. rewrite He. repeat split. }
  intros [Hid | docId data Hid Hget Hpath | docId data v1 v2 vs Hid Hget Hpath
          | docId data v Hid Hget Hpath Hpayload | docId data v Hid Hget Hpath Hindices].
  - eexists. apply Hreply. unfold handleJsonPathOperation. rewrite Hid. reflexivity.
  - eexists. apply Hreply. rewrite (run_resolved args w Hid Hget Hpath). reflexivity.
  - eexists. apply Hreply. rewrite (run_resolved args w Hid Hget Hpath). reflexivity.
  - destruct (buildRequests_payload_missing args v Hpayload) as [e He].
    exists e. apply Hreply. rewrite (run_resolved args w Hid Hget Hpath).
    cbn. unfold throw in He. rewrite He. reflexivity.
  - destruct (buildRequests_lacks_indices args v Hindices) as [e He].
    exists e. apply Hreply. rewrite (run_resolved args w Hid Hget Hpath).
    cbn. unfold throw in He. rewrite He. reflexivity.
Qed.

(** C10: an [insertAfter] or [insertBefore] intent whose content is the
    single item [bulletList{items: []}] passes the test of the content (the
    array is not empty) and, on a uniquely resolved target that carries the
    anchor index, compiles to no instruction at all: the handler submits a
    batch with an empty instruction list. *)
Theorem empty_bullet_list_submits_empty_batch (args : Args) (w : World Service)
  (docId : string) (data : Snapshot) (v : Target.t) :
  operation args = Operation.insertAfter \/ operation args = Operation.insertBefore ->
  content args = Some [ bulletList [] ] ->
  extractDocId (doc_id_or_url args) = Some docId ->
  documents_get (service w) docId = ok (Some data) ->
  JSONPath (target args) data = ok [ v ] ->
  lacks_required_indices (operation args) v = false ->
  content_missing (content args) = false
  /\ (exists description, buildRequests args v = ok ([], description))
  /\ submitted (snd (run args w)) = (docId, []) :: submitted w.
Proof.
  intros Hop Hcontent Hid Hget Hpath Hindices.
  assert (Hbuilt : exists description, buildRequests args v = ok ([], description)).
  { unfold buildRequests. rewrite Hcontent.
    destruct Hop as [Hop | Hop]; rewrite Hop in *; cbn in *.
    - destruct v as [| s e]; [discriminate |]. cbn in *.
      apply negb_false_iff in Hindices. rewrite Hindices. cbn. eauto.
    - destruct v as [| s e]; [discriminate |]. cbn in *.
      apply negb_false_iff in Hindices. rewrite Hindices. cbn. eauto. }
  split; [now rewrite Hcontent | split; [exact Hbuilt |]].
  destruct Hbuilt as [description Hbuilt].
  rewrite (run_resolved args w Hid Hget Hpath). cbn.
  unfold ok in Hbuilt. rewrite Hbuilt.
  apply submit_logs_batch.
Qed.

End HandlerProperties.

(** C2 on the sample service: a path that matches no element, a path that
    matches the three elements, and a path that matches one. *)
Lemma locator_uniqueness_sample :
  Sample.run (mkArgs "doc-1" Operation.delete "$.body.content[7]" None None None) Sample.world
  = (throw (Error "No element found at JSONPath: $.body.content[7]"), Sample.world)
  /\ Sample.run (mkArgs "doc-1" Operation.delete "$.body.content[*]" None None None)
       Sample.world
     = (throw (Error "Multiple elements found at JSONPath: $.body.content[*]. Path must be unique."),
        Sample.world)
  /\ List.length [ Target.element (Some 1) (Some 12) ] = 1%nat
  /\ (fun results : list Target.t => List.length results = 1%nat)
       [ Target.element (Some 12) (Some 30) ].
Proof.
  split; [| split; [| split]].
  - apply (proj1 (@locator_uniqueness Sample.Service Sample.Snapshot
                    Sample.documents_get Sample.documents_batchUpdate Sample.JSONPath
                    Sample.JSON_stringify
                    (mkArgs "doc-1" Operation.delete "$.body.content[7]" None None None)
                    Sample.world "doc-1" Sample.snapshot []
                    eq_refl eq_refl eq_refl)).
    reflexivity.
  - apply (proj1 (proj2 (@locator_uniqueness Sample.Service Sample.Snapshot
                    Sample.documents_get Sample.documents_batchUpdate Sample.JSONPath
                    Sample.JSON_stringify
                    (mkArgs "doc-1" Operation.delete "$.body.content[*]" None None None)
                    Sample.world "doc-1" Sample.snapshot Sample.snapshot
                    eq_refl eq_refl eq_refl))).
    simpl. lia.
  - apply (proj1 (proj2 (proj2 (@locator_uniqueness Sample.Service Sample.Snapshot
                    Sample.documents_get Sample.documents_batchUpdate Sample.JSONPath
                    Sample.JSON_stringify
                    (mkArgs "doc-1" Operation.delete "$.body.content[1]" None None None)
                    Sample.world "doc-1" Sample.snapshot
                    [ Target.element (Some 1) (Some 12) ]
                    eq_refl eq_refl eq_refl)))).
    vm_compute. discriminate.
  - eapply (proj2 (proj2 (proj2 (@locator_uniqueness Sample.Service Sample.Snapshot
                    Sample.documents_get Sample.documents_batchUpdate Sample.JSONPath
                    Sample.JSON_stringify
                    (mkArgs "doc-1" Operation.delete "$.body.content[2]" None None None)
                    Sample.world "doc-1" Sample.snapshot
                    [ Target.element (Some 12) (Some 30) ]
                    eq_refl eq_refl eq_refl)))).
    vm_compute. reflexivity.
Defined.

(** C6 on the sample service: [delete] of the element that starts at index
    0 raises an error and leaves the world as it was. *)
Lemma invalid_intent_submits_nothing_sample :
  exists e,
    Sample.run (mkArgs "doc-1" Operation.delete "$.body.content[0]" None None None)
      Sample.world = (throw e, Sample.world)
    /\ submitted
         (snd (Sample.run (mkArgs "doc-1" Operation.delete "$.body.content[0]" None None None)
                 Sample.world))
       = []
    /\ service
         (snd (Sample.run (mkArgs "doc-1" Operation.delete "$.body.content[0]" None None None)
                 Sample.world))
       = service Sample.world
    /\ handler Sample.documents_get Sample.documents_batchUpdate Sample.JSONPath
         Sample.JSON_stringify
         (mkArgs "doc-1" Operation.delete "$.body.content[0]" None None None) Sample.world
       = (mkToolResult ("Error: " ++ message_of e) true, Sample.world).
Proof.
  apply (@invalid_intent_submits_nothing Sample.Service Sample.Snapshot
           Sample.documents_get Sample.documents_batchUpdate Sample.JSONPath
           Sample.JSON_stringify
           (mkArgs "doc-1" Operation.delete "$.body.content[0]" None None None)
           Sample.world).
  apply (@missing_indices Sample.Service Sample.Snapshot Sample.documents_get Sample.JSONPath
           (mkArgs "doc-1" Operation.delete "$.body.content[0]" None None None)
           Sample.world "doc-1" Sample.snapshot (Target.element (Some 0) (Some 1)));
    reflexivity.
Defined.

(** The handler on the sample service: an unparseable reference, and the
    delete scenario of the specification on a target [50,80). *)
Example unparseable_reference_sample :
  Sample.run (mkArgs "not a document" Operation.delete "$.body.content[1]" None None None)
    Sample.world
  = (throw (Error "Invalid document ID or URL"), Sample.world).
Proof. reflexivity. Qed.

Example reference_from_url :
  extractDocId "https://docs.google.com/document/d/doc-1/edit" = Some "doc-1".
Proof. reflexivity. Qed.

Example delete_scenario :
  buildRequests (mkArgs "doc-1" Operation.delete "$.body.content[4]" None None None)
    (Target.element (Some 50) (Some 80))
  = ok ([ deleteContentRange (mkRange 50 80) ], "Deleted element from index 50 to 80").
Proof. reflexivity. Qed.

Example delete_submits_one_batch :
  submitted
    (snd (Sample.run (mkArgs "doc-1" Operation.delete "$.body.content[1]" None None None)
            Sample.world))
  = [ ("doc-1", [ deleteContentRange (mkRange 1 12) ]) ].
Proof. reflexivity. Qed.

(** C10 on the sample service: [insertAfter] the first element with one
    empty bullet list submits the empty batch. *)
Lemma empty_bullet_list_sample :
  content_missing (Some [ bulletList [] ]) = false
  /\ (exists description,
         buildRequests
           (mkArgs "doc-1" Operation.insertAfter "$.body.content[0]"
              (Some [ bulletList [] ]) None None)
           (Target.element (Some 0) (Some 1)) = ok ([], description))
  /\ submitted
       (snd (Sample.run
               (mkArgs "doc-1" Operation.insertAfter "$.body.content[0]"
                  (Some [ bulletList [] ]) None None)
               Sample.world))
     = [ ("doc-1", []) ].
Proof.
  apply (@empty_bullet_list_submits_empty_batch Sample.Service Sample.Snapshot
           Sample.documents_get Sample.documents_batchUpdate Sample.JSONPath
           Sample.JSON_stringify
           (mkArgs "doc-1" Operation.insertAfter "$.body.content[0]"
              (Some [ bulletList [] ]) None None)
           Sample.world "doc-1" Sample.snapshot (Target.element (Some 0) (Some 1)));
    try reflexivity.
  left. reflexivity.
Defined.

(** ** The Style Composer *)

Lemma compose_without_flags (text : string) :
  compose_style false false false false None false text = text.
Proof. unfold compose_style. destruct (String.eqb text Js.nl); reflexivity. Qed.

(** C5: a run that is exactly one newline is returned as it is; any other
    run is wrapped in the fixed order: bold and italic markers first
    (three stars for both, two for bold alone, one for italic alone), then
    underline, then strikethrough, then the link around all the
    decorations, then the code marker last, for a font family that
    contains Courier or Mono. *)
Theorem style_composer_order (run : Doc.TextRun) :
  processTextRun run =
  compose_style
    (run_flag Doc.bold run) (run_flag Doc.italic run)
    (run_flag Doc.underline run) (run_flag Doc.strikethrough run)
    (run_link run) (run_monospace run) (run_text run).
Proof.
  unfold processTextRun, run_flag, run_link, run_monospace, run_text.
  destruct (Doc.textStyle run) as [style |].
  - unfold compose_style.
    destruct (String.eqb (Js.or_default (Doc.content run) EmptyString) Js.nl); [reflexivity |].
    destruct (link_url style) as [[| c u] |]; cbn [Js.truthy_ostring Js.truthy_string];
      destruct (Js.truthy_obool (Doc.bold style)), (Js.truthy_obool (Doc.italic style)),
        (Js.truthy_obool (Doc.underline style)), (Js.truthy_obool (Doc.strikethrough style)),
        (font_family_includes style "Courier" || font_family_includes style "Mono");
      reflexivity.
  - symmetry. apply compose_without_flags.
Qed.

(** With every attribute set the decorations are inside the link, and the
    link inside the code marker. *)
Example all_attributes_nest :
  processTextRun
    (Doc.mkTextRun (Some "t")
       (Some (Doc.mkTextStyle (Some true) (Some true) (Some true) (Some true)
                (Some (Doc.mkLink (Some "http://u")))
                (Some (Doc.mkWeightedFontFamily (Some "Courier New"))))))
  = "`[~~__***t***__~~](http://u)`".
Proof. reflexivity. Qed.

Example bare_newline_unformatted :
  processTextRun
    (Doc.mkTextRun (Some Js.nl)
       (Some (Doc.mkTextStyle (Some true) None None None None None)))
  = Js.nl.
Proof. reflexivity. Qed.

(** ** Tables *)

Lemma concat_empty_cons (x : string) (l : list string) :
  String.concat EmptyString (x :: l) = x ++ String.concat EmptyString l.
Proof.
  destruct l as [| y l]; simpl.
  - now rewrite append_empty_r.
  - reflexivity.
Qed.

Lemma concat_empty_app (l1 l2 : list string) :
  String.concat EmptyString (l1 ++ l2) = String.concat EmptyString l1 ++ String.concat EmptyString l2.
Proof.
  induction l1 as [| x l1 IH].
  - reflexivity.
  - rewrite <- app_comm_cons, !concat_empty_cons, IH, append_assoc. reflexivity.
Qed.

(** The inner loop of a cell appends the flattened runs of one paragraph. *)
Lemma cell_inner_loop (elements : list Doc.ParagraphElement) :
  forall cellText,
    fold_left
      (fun cellText textElement =>
         match Doc.textRun textElement with
         | Some run =>
             if Js.truthy_ostring (Doc.content run)
             then cellText
                  ++ Js.trim (Js.newlines_to_spaces (Js.or_default (Doc.content run) EmptyString))
             else cellText
         | None => cellText
         end)
      elements cellText
    = cellText
      ++ String.concat EmptyString
           (map flatten_run
              (flat_map
                 (fun textElement =>
                    match Doc.textRun textElement with
                    | Some run =>
                        match Doc.content run with
                        | Some c => if Js.truthy_string c then [ c ] else []
                        | None => []
                        end
                    | None => []
                    end)
                 elements)).
Proof.
  induction elements as [| element elements IH]; intros cellText.
  - simpl. now rewrite append_empty_r.
  - cbn [fold_left flat_map]. rewrite IH.
    rewrite map_app, concat_empty_app.
    destruct (Doc.textRun element) as [run |]; [| reflexivity].
    destruct (Doc.content run) as [c |]; [| reflexivity].
    cbn [Js.truthy_ostring Js.or_default].
    destruct (Js.truthy_string c).
    + cbn [map]. rewrite concat_empty_cons. cbn [String.concat].
      rewrite append_empty_r, append_assoc. reflexivity.
    + reflexivity.
Qed.

Lemma cell_outer_loop (elements : list Doc.StructuralElement) :
  forall cellText,
    fold_left
      (fun cellText element =>
         match Doc.paragraph element with
         | Some par =>
             fold_left
               (fun cellText textElement =>
                  match Doc.textRun textElement with
                  | Some run =>
                      if Js.truthy_ostring (Doc.content run)
                      then cellText
                           ++ Js.trim (Js.newlines_to_spaces
                                         (Js.or_default (Doc.content run) EmptyString))
                      else cellText
                  | None => cellText
                  end)
               (or_empty (Doc.elements par)) cellText
         | None => cellText
         end)
      elements cellText
    = cellText
      ++ String.concat EmptyString (map flatten_run (cell_runs (Doc.mkTableCell (Some elements)))).
Proof.
  unfold cell_runs. cbn [Doc.cell_content or_empty].
  induction elements as [| element elements IH]; intros cellText.
  - simpl. now rewrite append_empty_r.
  - cbn [fold_left flat_map]. rewrite IH.
    rewrite map_app, concat_empty_app.
    destruct (Doc.paragraph element) as [par |].
    + rewrite cell_inner_loop, append_assoc. reflexivity.
    + reflexivity.
Qed.

(** The text of a cell is the concatenation of its flattened runs, or one
    space. *)
Lemma cell_text_markdown (cell : Doc.TableCell) : cell_text cell = cell_markdown cell.
Proof.
  unfold cell_text, cell_markdown.
  destruct cell as [[elements |]].
  - cbn [Doc.cell_content or_empty]. rewrite cell_outer_loop. cbn [append].
    destruct (String.concat EmptyString (map flatten_run (cell_runs (Doc.mkTableCell (Some elements)))));
      reflexivity.
  - reflexivity.
Qed.

Lemma map_const_repeat (A B : Type) (b : B) (l : list A) :
  map (fun _ => b) l = List.repeat b (List.length l).
Proof.
  induction l as [| a l IH]; simpl; [reflexivity | now rewrite IH].
Qed.

Lemma row_step (row : Doc.TableRow) :
  "| " ++ Js.join " | " (map cell_text (or_empty (Doc.tableCells row))) ++ " |" ++ Js.nl
  = row_markdown row.
Proof.
  unfold row_markdown, pipe_row, row_cells, Js.join.
  rewrite (map_ext _ _ cell_text_markdown). reflexivity.
Qed.

(** The rows after the first one. *)
Lemma later_rows_loop (rows : list Doc.TableRow) :
  forall i markdown,
    table_rows_loop (S i) rows markdown
    = markdown ++ String.concat EmptyString (map row_markdown rows).
Proof.
  induction rows as [| row rows IH]; intros i markdown.
  - simpl. now rewrite append_empty_r.
  - cbn [table_rows_loop Nat.eqb]. rewrite IH.
    cbn [map]. rewrite concat_empty_cons, append_assoc, row_step. reflexivity.
Qed.

(** C7, as amended: a table is rendered as one pipe-delimited line per
    row, in order, with, immediately after the line of the first row, a
    separator line of as many [---] cells as the first row has columns; the
    text of a cell is the concatenation of its runs, each run with its
    newlines turned into spaces and trimmed on its own before it is joined
    to the others, and a cell without text is one space. *)
Theorem table_rendering (table : Doc.Table) :
  processTable table = table_markdown (or_empty (Doc.tableRows table))
  /\ (forall cell, cell_text cell = cell_markdown cell).
Proof.
  split; [| exact cell_text_markdown].
  unfold processTable, table_markdown.
  destruct (or_empty (Doc.tableRows table)) as [| first others].
  - reflexivity.
  - cbn [List.length Nat.eqb table_rows_loop table_lines].
    rewrite later_rows_loop.
    rewrite !concat_empty_cons.
    rewrite map_const_repeat, length_map.
    rewrite <- (row_step first).
    unfold separator_row, pipe_row, row_cells, Js.join.
    rewrite !append_assoc. reflexivity.
Qed.

(** C7, as stated, fails: in a cell whose paragraph has the runs
    ["Hello "] and ["world\n"], the runs concatenated, with newlines
    collapsed and the whole trimmed, read [Hello world]; the renderer trims
    each run before it joins them and writes [Helloworld], so the table it
    emits is not the table of the claim. *)
Lemma table_cell_runs_joined_after_trim :
  claimed_cell_markdown (cell_of [ "Hello "; "world" ++ Js.nl ]) = "Hello world"
  /\ cell_text (cell_of [ "Hello "; "world" ++ Js.nl ]) = "Helloworld"
  /\ processTable (table_of [ [ [ "Hello "; "world" ++ Js.nl ] ] ])
     = Js.nl ++ "| Helloworld |" ++ Js.nl ++ "| --- |" ++ Js.nl ++ Js.nl
  /\ processTable (table_of [ [ [ "Hello "; "world" ++ Js.nl ] ] ])
     <> claimed_table_markdown
          (or_empty (Doc.tableRows (table_of [ [ [ "Hello "; "world" ++ Js.nl ] ] ]))).
Proof.
  repeat split; try reflexivity.
  vm_compute. discriminate.
Qed.

(** On a cell with a single run the two readings agree. *)
Lemma single_run_cell (cell : Doc.TableCell) (c : string) :
  cell_runs cell = [ c ] -> claimed_cell_markdown cell = cell_markdown cell.
Proof.
  intros H. unfold claimed_cell_markdown, cell_markdown. rewrite H.
  cbn [map String.concat]. reflexivity.
Qed.

(** A table of two rows and two columns; the second run of the first cell
    is trimmed on its own, and the last cell is empty. *)
Example table_two_by_two :
  processTable (table_of [ [ [ "Name"; " x" ]; [ "Age" ] ]; [ [ "Ann" ]; [] ] ])
  = Js.nl ++ "| Namex | Age |" ++ Js.nl ++ "| --- | --- |" ++ Js.nl
    ++ "| Ann |   |" ++ Js.nl ++ Js.nl.
Proof. reflexivity. Qed.

(** ** Paragraphs *)

Lemma heading_prefix_cases (style prefix : string) :
  heading_prefix style = Some prefix ->
  (style = "HEADING_1" /\ prefix = "# ") \/ (style = "HEADING_2" /\ prefix = "## ")
  \/ (style = "HEADING_3" /\ prefix = "### ") \/ (style = "HEADING_4" /\ prefix = "#### ")
  \/ (style = "HEADING_5" /\ prefix = "##### ") \/ (style = "HEADING_6" /\ prefix = "###### ")
  \/ (style = "TITLE" /\ prefix = "# ") \/ (style = "SUBTITLE" /\ prefix = "## ").
Proof.
  unfold heading_prefix.
  repeat match goal with
         | |- context [String.eqb style ?name] =>
             destruct (String.eqb_spec style name);
             [intros H; injection H as <-; subst style; tauto |]
         end.
  discriminate.
Qed.

(** A recognized style decides the output, whatever the bullet. *)
Lemma recognized_paragraph (p : Doc.Paragraph) (prefix : string) :
  style_prefix p = Some prefix ->
  processParagraph p =
  if Js.truthy_string (trimmed_text p)
  then prefix ++ trimmed_text p ++ Js.nl ++ Js.nl
  else Js.nl.
Proof.
  unfold style_prefix, processParagraph, trimmed_text.
  destruct (named_style p) as [style |]; [| discriminate].
  intros H.
  destruct (Js.truthy_string (Js.strip_trailing_newlines (paragraph_text p)));
    [| reflexivity].
  cbn [negb].
  destruct (heading_prefix_cases _ H)
    as [[-> ->] | [[-> ->] | [[-> ->] | [[-> ->] | [[-> ->] | [[-> ->] | [[-> ->] | [-> ->]]]]]]]];
    reflexivity.
Qed.

(** Without a recognized style the [default] branch is taken. *)
Lemma unrecognized_paragraph (p : Doc.Paragraph) :
  style_prefix p = None ->
  processParagraph p =
  if Js.truthy_string (trimmed_text p)
  then list_item_or_plain p (trimmed_text p)
  else Js.nl.
Proof.
  unfold style_prefix, processParagraph, trimmed_text, style_is, heading_prefix.
  destruct (Js.truthy_string (Js.strip_trailing_newlines (paragraph_text p)));
    [| reflexivity].
  cbn [negb].
  destruct (named_style p) as [style |]; [| reflexivity].
  repeat match goal with
         | |- context [String.eqb style ?name] =>
             destruct (String.eqb style name); [discriminate |]
         end.
  reflexivity.
Qed.

(** A list line starts with a space or with the digit of its marker. *)
Lemma list_line_head (b : Doc.Bullet) (text : string) :
  exists c rest,
    list_line b text = String c rest /\ (c = " "%char \/ c = "1"%char).
Proof.
  unfold list_line.
  destruct (match Doc.nestingLevel b with Some n => n | None => O end) as [| level].
  - cbn. eauto.
  - cbn. eauto.
Qed.

Lemma prefixed_head (prefix text : string) :
  (exists style, heading_prefix style = Some prefix) ->
  exists rest, prefix ++ text = String "#"%char rest.
Proof.
  intros [style H].
  destruct (heading_prefix_cases _ H)
    as [[_ ->] | [[_ ->] | [[_ ->] | [[_ ->] | [[_ ->] | [[_ ->] | [[_ ->] | [_ ->]]]]]]]];
    cbn; eauto.
Qed.

(** C9: a paragraph that carries a bullet descriptor and a recognized
    named style (HEADING_1 to HEADING_6, TITLE, SUBTITLE) is rendered with
    the prefix of the style and without the indent and marker of a list:
    its rendering does not depend on the bullet; the list line is rendered
    only when the named style is not recognized. *)
Theorem named_style_precedes_bullet (p : Doc.Paragraph) (b : Doc.Bullet) :
  Doc.bullet p = Some b ->
  (forall prefix,
      style_prefix p = Some prefix ->
      processParagraph p =
        (if Js.truthy_string (trimmed_text p)
         then prefix ++ trimmed_text p ++ Js.nl ++ Js.nl
         else Js.nl)
      /\ processParagraph p = processParagraph (without_bullet p)
      /\ processParagraph p <> list_line b (trimmed_text p))
  /\ (processParagraph p = list_line b (trimmed_text p) ->
      style_prefix p = None /\ Js.truthy_string (trimmed_text p) = true)
  /\ (style_prefix p = None ->
      Js.truthy_string (trimmed_text p) = true ->
      processParagraph p = list_line b (trimmed_text p)).
Proof.
  intros Hbullet.
  assert (Hrecognized : forall prefix,
             style_prefix p = Some prefix ->
             processParagraph p <> list_line b (trimmed_text p)).
  { intros prefix Hprefix. rewrite (recognized_paragraph p Hprefix).
    destruct (list_line_head b (trimmed_text p)) as [c [rest [-> Hc]]].
    destruct (Js.truthy_string (trimmed_text p)).
    - destruct (@prefixed_head prefix (trimmed_text p ++ Js.nl ++ Js.nl)) as [rest' ->].
      + unfold style_prefix in Hprefix. destruct (named_style p); [eauto | discriminate].
      + intros H. injection H as H _. destruct Hc as [-> | ->]; discriminate.
    - unfold Js.nl. intros H. injection H as H _. destruct Hc as [-> | ->]; discriminate. }
  assert (Hempty : Js.truthy_string (trimmed_text p) = false ->
                   processParagraph p <> list_line b (trimmed_text p)).
  { intros Hfalse.
    assert (Hnl : processParagraph p = Js.nl).
    { unfold processParagraph. fold (trimmed_text p). now rewrite Hfalse. }
    rewrite Hnl.
    destruct (list_line_head b (trimmed_text p)) as [c [rest [-> Hc]]].
    unfold Js.nl. intros H. injection H as H _. destruct Hc as [-> | ->]; discriminate. }
  split; [| split].
  - intros prefix Hprefix. split; [exact (recognized_paragraph p Hprefix) |].
    split; [| exact (Hrecognized prefix Hprefix)].
    rewrite (recognized_paragraph p Hprefix).
    rewrite (@recognized_paragraph (without_bullet p) prefix); [reflexivity | exact Hprefix].
  - intros Hline. split.
    + destruct (style_prefix p) as [prefix |] eqn:Hprefix; [| reflexivity].
      exfalso. exact (Hrecognized prefix eq_refl Hline).
    + destruct (Js.truthy_string (trimmed_text p)) eqn:Htext; [reflexivity |].
      exfalso. exact (Hempty eq_refl Hline).
  - intros Hnone Htext. rewrite (unrecognized_paragraph p Hnone), Htext.
    unfold list_item_or_plain, list_line. rewrite Hbullet. reflexivity.
Qed.

(** C9 on a HEADING_2 paragraph that is also a list item, rendered with
    the heading prefix alone, and on a NORMAL_TEXT list item. *)
Lemma heading_with_bullet_sample :
  (processParagraph (paragraph_of "HEADING_2" (Some (Doc.mkBullet None)) [ plain_run "x" ])
   = "## x" ++ Js.nl ++ Js.nl
   /\ processParagraph (paragraph_of "HEADING_2" (Some (Doc.mkBullet None)) [ plain_run "x" ])
      = processParagraph (paragraph_of "HEADING_2" None [ plain_run "x" ])
   /\ processParagraph (paragraph_of "HEADING_2" (Some (Doc.mkBullet None)) [ plain_run "x" ])
      <> "1. x" ++ Js.nl)
  /\ (style_prefix (paragraph_of "NORMAL_TEXT" (Some (Doc.mkBullet None)) [ plain_run "x" ])
      = None
      /\ Js.truthy_string
           (trimmed_text
              (paragraph_of "NORMAL_TEXT" (Some (Doc.mkBullet None)) [ plain_run "x" ]))
         = true)
  /\ processParagraph (paragraph_of "NORMAL_TEXT" (Some (Doc.mkBullet None)) [ plain_run "x" ])
     = "1. x" ++ Js.nl.
Proof.
  split; [| split].
  - exact (proj1 (@named_style_precedes_bullet
                    (paragraph_of "HEADING_2" (Some (Doc.mkBullet None)) [ plain_run "x" ])
                    (Doc.mkBullet None) eq_refl)
             "## " eq_refl).
  - exact (proj1 (proj2 (@named_style_precedes_bullet
                    (paragraph_of "NORMAL_TEXT" (Some (Doc.mkBullet None)) [ plain_run "x" ])
                    (Doc.mkBullet None) eq_refl))
             eq_refl).
  - exact (proj2 (proj2 (@named_style_precedes_bullet
                    (paragraph_of "NORMAL_TEXT" (Some (Doc.mkBullet None)) [ plain_run "x" ])
                    (Doc.mkBullet None) eq_refl))
             eq_refl eq_refl).
Defined.

(** Without a recognized style the same paragraph is a list line. *)
Example normal_text_with_bullet :
  processParagraph
    (paragraph_of "NORMAL_TEXT" (Some (Doc.mkBullet (Some 2%nat))) [ plain_run "x" ])
  = "    - x" ++ Js.nl.
Proof. reflexivity. Qed.

(** The scenario of the specification: a HEADING_1 paragraph, then a
    paragraph with a bold run. *)
Example heading_then_bold_run :
  convertDocToMarkdown
    (Doc.mkDocument (Some (Doc.mkBody (Some
       [ Doc.mkStructuralElement
           (Some (paragraph_of "HEADING_1" None [ plain_run ("Title" ++ Js.nl) ])) None false;
         Doc.mkStructuralElement
           (Some (paragraph_of "NORMAL_TEXT" None
                    [ plain_run "Hello ";
                      styled_run "world" (Doc.mkTextStyle (Some true) None None None None None);
                      plain_run Js.nl ]))
           None false ]))))
  = "# Title" ++ Js.nl ++ Js.nl ++ "Hello **world**".
Proof. reflexivity. Qed.

(** * Further properties *)

(** ** The instruction generator, item by item *)

Lemma generate_nil (a : Z) : generateRequestsFromContent [] a = [].
Proof. reflexivity. Qed.

Lemma generate_heading (level : Z) (t : string) (rest : list ContentItem) (a : Z) :
  generateRequestsFromContent (heading level t :: rest) a =
  insertText a (t ++ Js.nl)
  :: updateParagraphStyle (mkRange a (a + Js.length (t ++ Js.nl)))
       (ParagraphStyleUpdate.named ("HEADING_" ++ Js.of_number level)) "namedStyleType"
  :: generateRequestsFromContent rest (a + Js.length (t ++ Js.nl)).
Proof.
  destruct (generate_cons (heading level t) rest a) as [Hg _]. rewrite Hg. reflexivity.
Qed.

Lemma generate_paragraph (t : string) (rest : list ContentItem) (a : Z) :
  generateRequestsFromContent (paragraph t :: rest) a =
  insertText a (t ++ Js.nl) :: generateRequestsFromContent rest (a + Js.length (t ++ Js.nl)).
Proof.
  destruct (generate_cons (paragraph t) rest a) as [Hg _]. rewrite Hg. reflexivity.
Qed.

Lemma generate_no_bullet (rest : list ContentItem) (a : Z) :
  generateRequestsFromContent (bulletList [] :: rest) a = generateRequestsFromContent rest a.
Proof.
  destruct (generate_cons (bulletList []) rest a) as [Hg _]. rewrite Hg. reflexivity.
Qed.

Lemma generate_bullet (item : string) (items : list string) (rest : list ContentItem) (a : Z) :
  generateRequestsFromContent (bulletList (item :: items) :: rest) a =
  (bullet_requests item a
   ++ generateRequestsFromContent (bulletList items :: rest) (a + Js.length (item ++ Js.nl)))%list.
Proof.
  unfold generateRequestsFromContent, compile_content.
  cbn [fold_left push_item]. rewrite push_bullet_item_step. cbn [app].
  rewrite bullet_loop_from.
  destruct (fold_left push_bullet_item items ([], a + Js.length (item ++ Js.nl)))
    as [requests cursor] eqn:E.
  cbn [fst snd].
  rewrite content_loop_from. symmetry. rewrite content_loop_from. cbn [fst].
  rewrite <- app_assoc. reflexivity.
Qed.

(** Induction on the run of the generator. *)
Lemma generate_ind (P : list ContentItem -> Z -> list Request -> Prop) :
  (forall a, P [] a []) ->
  (forall level t rest a rs,
      P rest (a + Js.length (t ++ Js.nl)) rs ->
      P (heading level t :: rest) a
        (insertText a (t ++ Js.nl)
         :: updateParagraphStyle (mkRange a (a + Js.length (t ++ Js.nl)))
              (ParagraphStyleUpdate.named ("HEADING_" ++ Js.of_number level))
              "namedStyleType"
         :: rs)) ->
  (forall t rest a rs,
      P rest (a + Js.length (t ++ Js.nl)) rs ->
      P (paragraph t :: rest) a (insertText a (t ++ Js.nl) :: rs)) ->
  (forall rest a rs, P rest a rs -> P (bulletList [] :: rest) a rs) ->
  (forall item items rest a rs,
      P (bulletList items :: rest) (a + Js.length (item ++ Js.nl)) rs ->
      P (bulletList (item :: items) :: rest) a (bullet_requests item a ++ rs)%list) ->
  forall content a, P content a (generateRequestsFromContent content a).
Proof.
  intros Hnil Hheading Hparagraph Hnone Hbullet items0.
  induction items0 as [| item rest IH]; intros a.
  - apply Hnil.
  - destruct item as [level t | t | items].
    + rewrite generate_heading. apply Hheading, IH.
    + rewrite generate_paragraph. apply Hparagraph, IH.
    + revert a. induction items as [| bulletItem items IHitems]; intros a.
      * rewrite generate_no_bullet. apply Hnone, IH.
      * rewrite generate_bullet. apply Hbullet, IHitems.
Qed.

Lemma inserted_length_nonneg (rs : list Request) : 0 <= inserted_length rs.
Proof.
  induction rs as [| r rs IH]; unfold inserted_length in *; cbn [fold_right].
  - lia.
  - destruct r; try exact IH. pose proof (length_nonneg text). lia.
Qed.

(** X2: compiling two content lists one after the other is compiling the
    first at the anchor and the second at the anchor advanced by the length
    of the texts the first one inserts. *)
Theorem generate_app (c1 c2 : list ContentItem) (a : Z) :
  generateRequestsFromContent (c1 ++ c2) a =
  (generateRequestsFromContent c1 a
   ++ generateRequestsFromContent c2
        (a + inserted_length (generateRequestsFromContent c1 a)))%list.
Proof.
  unfold generateRequestsFromContent at 1. unfold compile_content.
  rewrite fold_left_app.
  rewrite (content_loop_from c1 [] a). cbn [app].
  rewrite content_loop_from. cbn [fst].
  rewrite final_cursor_inserted. reflexivity.
Qed.

Lemma shift_bullet_requests (item : string) (a d : Z) :
  bullet_requests item (a + d) = map (shift_request d) (bullet_requests item a).
Proof.
  unfold bullet_requests, shift_request, shift_range, map; cbn [startIndex endIndex].
  replace (a + d + Js.length (item ++ Js.nl)) with (a + Js.length (item ++ Js.nl) + d) by lia.
  reflexivity.
Qed.

(** X3: the anchor acts by translation: compiling at [a + d] gives the
    instructions compiled at [a] with every index moved by [d]. *)
Theorem generate_shift (items : list ContentItem) (a d : Z) :
  generateRequestsFromContent items (a + d) =
  map (shift_request d) (generateRequestsFromContent items a).
Proof.
  revert d.
  apply (generate_ind
           (fun items a rs =>
              forall d, generateRequestsFromContent items (a + d) = map (shift_request d) rs)).
  - intros a0 d. reflexivity.
  - intros level t rest a0 rs IH d. rewrite generate_heading.
    cbn [map]. rewrite <- IH.
    unfold shift_request, shift_range; cbn [startIndex endIndex].
    replace (a0 + d + Js.length (t ++ Js.nl)) with (a0 + Js.length (t ++ Js.nl) + d) by lia.
    reflexivity.
  - intros t rest a0 rs IH d. rewrite generate_paragraph.
    cbn [map shift_request]. rewrite <- IH.
    replace (a0 + d + Js.length (t ++ Js.nl)) with (a0 + Js.length (t ++ Js.nl) + d) by lia.
    reflexivity.
  - intros rest a0 rs IH d. rewrite generate_no_bullet. apply IH.
  - intros item bullets rest a0 rs IH d. rewrite generate_bullet.
    rewrite map_app, <- IH, shift_bullet_requests.
    replace (a0 + d + Js.length (item ++ Js.nl)) with (a0 + Js.length (item ++ Js.nl) + d)
      by lia.
    reflexivity.
Qed.

Lemma within_weaken (lo lo' hi hi' : Z) (r : Request) :
  lo' <= lo -> hi <= hi' -> within lo hi r -> within lo' hi' r.
Proof.
  intros Hlo Hhi. destruct r; cbn; try tauto; lia.
Qed.

Lemma Forall_within_weaken (lo lo' hi hi' : Z) (rs : list Request) :
  lo' <= lo -> hi <= hi' -> Forall (within lo hi) rs -> Forall (within lo' hi') rs.
Proof.
  intros Hlo Hhi H. eapply Forall_impl; [| exact H].
  intros r. now apply within_weaken.
Qed.

(** X4: the generator emits nothing but insertions, paragraph styles and
    bullet creations; every index it emits lies between the anchor and the
    anchor plus the length of all the inserted texts, and no range it emits
    is empty. *)
Theorem generate_within (items : list ContentItem) (a : Z) :
  Forall
    (within a (a + inserted_length (generateRequestsFromContent items a)))
    (generateRequestsFromContent items a).
Proof.
  apply (generate_ind (fun _ a rs => Forall (within a (a + inserted_length rs)) rs)).
  - intros a0. constructor.
  - intros level t rest a0 rs IH.
    pose proof (length_with_newline t) as Hlen.
    pose proof (length_nonneg t) as Ht.
    pose proof (inserted_length_nonneg rs) as Hrs.
    assert (Htotal : inserted_length
                       (insertText a0 (t ++ Js.nl)
                        :: updateParagraphStyle (mkRange a0 (a0 + Js.length (t ++ Js.nl)))
                             (ParagraphStyleUpdate.named ("HEADING_" ++ Js.of_number level))
                             "namedStyleType"
                        :: rs)
                     = Js.length (t ++ Js.nl) + inserted_length rs) by reflexivity.
    rewrite Htotal.
    constructor; [cbn; lia |]. constructor; [cbn; lia |].
    eapply Forall_within_weaken; [| | exact IH]; lia.
  - intros t rest a0 rs IH.
    pose proof (length_with_newline t) as Hlen.
    pose proof (length_nonneg t) as Ht.
    pose proof (inserted_length_nonneg rs) as Hrs.
    assert (Htotal : inserted_length (insertText a0 (t ++ Js.nl) :: rs)
                     = Js.length (t ++ Js.nl) + inserted_length rs) by reflexivity.
    rewrite Htotal.
    constructor; [cbn; lia |].
    eapply Forall_within_weaken; [| | exact IH]; lia.
  - intros rest a0 rs IH. exact IH.
  - intros item bullets rest a0 rs IH.
    pose proof (length_with_newline item) as Hlen.
    pose proof (length_nonneg item) as Ht.
    pose proof (inserted_length_nonneg rs) as Hrs.
    assert (Htotal : inserted_length (bullet_requests item a0 ++ rs)
                     = Js.length (item ++ Js.nl) + inserted_length rs) by reflexivity.
    rewrite Htotal. unfold bullet_requests. cbn [app].
    constructor; [cbn; lia |]. constructor; [cbn; lia |]. constructor; [cbn; lia |].
    eapply Forall_within_weaken; [| | exact IH]; lia.
Qed.

(** X5: the texts inserted are exactly the texts of the items, in the order
    of the content, each followed by one newline; they do not depend on the
    anchor. *)
Theorem generate_texts (items : list ContentItem) (a : Z) :
  inserted_texts (generateRequestsFromContent items a) =
  map (fun t => t ++ Js.nl) (content_texts items).
Proof.
  apply (generate_ind
           (fun items _ rs => inserted_texts rs = map (fun t => t ++ Js.nl) (content_texts items))).
  - intros _. reflexivity.
  - intros level t rest a0 rs IH. cbn. unfold inserted_texts in IH. now rewrite IH.
  - intros t rest a0 rs IH. cbn. unfold inserted_texts in IH. now rewrite IH.
  - intros rest a0 rs IH. exact IH.
  - intros item bullets rest a0 rs IH. cbn in *. unfold inserted_texts in IH.
    now rewrite IH.
Qed.

(** ** The operation dispatch *)

Lemma payload_present_cases (args : Args) :
  payload_missing args = false ->
  match operation args with
  | Operation.updateTextStyle => exists ts, textStyle args = Some ts
  | Operation.updateParagraphStyle => exists ps, paragraphStyle args = Some ps
  | Operation.delete => True
  | _ => content_missing (content args) = false
  end.
Proof.
  unfold payload_missing. destruct (operation args); try tauto.
  - destruct (textStyle args); [eauto | discriminate].
  - destruct (paragraphStyle args); [eauto | discriminate].
Qed.

(** X6: an intent on a resolved target compiles if and only if it carries
    the payload its operation requires and the target carries the indices
    the operation requires: nothing else can make the compilation fail. *)
Theorem compiles_iff_valid (args : Args) (v : Target.t) :
  (exists requests description, buildRequests args v = ok (requests, description))
  <-> payload_missing args = false /\ lacks_required_indices (operation args) v = false.
Proof.
  split.
  - intros [requests [description Hok]]. split.
    + destruct (payload_missing args) eqn:Hp; [| reflexivity].
      destruct (buildRequests_payload_missing args v Hp) as [e He].
      rewrite He in Hok. discriminate.
    + destruct (lacks_required_indices (operation args) v) eqn:Hl; [| reflexivity].
      destruct (buildRequests_lacks_indices args v Hl) as [e He].
      rewrite He in Hok. discriminate.
  - intros [Hp Hl]. pose proof (payload_present_cases args Hp) as Hcase.
    unfold buildRequests.
    destruct v as [| s e]; [discriminate |].
    destruct (operation args); cbn in Hl, Hcase |- *.
    + rewrite Hcase. apply negb_false_iff in Hl. cbn. rewrite Hl. cbn. eauto.
    + rewrite Hcase. apply negb_false_iff in Hl. cbn. rewrite Hl. cbn. eauto.
    + rewrite Hcase. apply orb_false_iff in Hl. destruct Hl as [Hs He].
      apply negb_false_iff in Hs, He. unfold require_range. cbn.
      rewrite Hs, He. cbn. eauto.
    + apply orb_false_iff in Hl. destruct Hl as [Hs He].
      apply negb_false_iff in Hs, He. unfold require_range. cbn.
      rewrite Hs, He. cbn. eauto.
    + destruct Hcase as [ts ->]. apply orb_false_iff in Hl. destruct Hl as [Hs He].
      apply negb_false_iff in Hs, He. unfold require_range. cbn.
      rewrite Hs, He. cbn. eauto.
    + destruct Hcase as [ps ->]. apply orb_false_iff in Hl. destruct Hl as [Hs He].
      apply negb_false_iff in Hs, He. unfold require_range. cbn.
      rewrite Hs, He. cbn. eauto.
Qed.

(** X6 on [insertAfter] the element that starts at index 0: it needs the
    end index only. *)
Lemma compiles_iff_valid_sample :
  exists requests description,
    buildRequests
      (mkArgs "doc-1" Operation.insertAfter "$.body.content[0]" (Some [ paragraph "X" ])
         None None)
      (Target.element (Some 0) (Some 1)) = ok (requests, description).
Proof.
  apply (proj2 (@compiles_iff_valid
                  (mkArgs "doc-1" Operation.insertAfter "$.body.content[0]"
                     (Some [ paragraph "X" ]) None None)
                  (Target.element (Some 0) (Some 1)))).
  split; reflexivity.
Defined.

(** X7: when the path resolves to [null], an intent that carries its
    payload fails with a [TypeError], raised by the read of the index, and
    not with the missing-index error. *)
Theorem null_target_type_error (args : Args) :
  payload_missing args = false ->
  exists message, buildRequests args Target.nullish = throw (TypeError message).
Proof.
  intros Hp. pose proof (payload_present_cases args Hp) as Hcase.
  unfold buildRequests.
  destruct (operation args); cbn in Hcase |- *.
  - rewrite Hcase. cbn. eauto.
  - rewrite Hcase. cbn. eauto.
  - rewrite Hcase. cbn. eauto.
  - cbn. eauto.
  - destruct Hcase as [ts ->]. cbn. eauto.
  - destruct Hcase as [ps ->]. cbn. eauto.
Qed.

Lemma null_target_type_error_sample :
  exists message,
    buildRequests (mkArgs "doc-1" Operation.delete "$.title" None None None) Target.nullish
    = throw (TypeError message).
Proof.
  apply (@null_target_type_error (mkArgs "doc-1" Operation.delete "$.title" None None None)).
  reflexivity.
Defined.

(** X8: [insertAfter] anchors the content at the end index of the target
    and [insertBefore] at its start index; the other index of the target is
    not read, so it may be missing or 0. *)
Theorem insert_anchor (args : Args) (items : list ContentItem) (other : option Z)
  (anchor : Z) :
  content args = Some items ->
  items <> [] ->
  anchor <> 0 ->
  (operation args = Operation.insertAfter ->
   buildRequests args (Target.element other (Some anchor)) =
   ok (generateRequestsFromContent items anchor, "Insert index: " ++ Js.of_number anchor))
  /\ (operation args = Operation.insertBefore ->
      buildRequests args (Target.element (Some anchor) other) =
      ok (generateRequestsFromContent items anchor, "Insert index: " ++ Js.of_number anchor)).
Proof.
  intros Hcontent Hitems Hanchor.
  apply Z.eqb_neq in Hanchor.
  destruct items as [| item items]; [contradiction |].
  split; intros Hop; unfold buildRequests; rewrite Hop, Hcontent; cbn;
    rewrite Hanchor; reflexivity.
Qed.

Lemma insert_anchor_sample :
  buildRequests
    (mkArgs "doc-1" Operation.insertAfter "$.body.content[0]" (Some [ paragraph "X" ])
       None None)
    (Target.element (Some 0) (Some 1)) =
  ok ([ insertText 1 ("X" ++ Js.nl) ], "Insert index: 1")
  /\ buildRequests
       (mkArgs "doc-1" Operation.insertBefore "$.body.content[1]" (Some [ paragraph "X" ])
          None None)
       (Target.element (Some 1) None) =
     ok ([ insertText 1 ("X" ++ Js.nl) ], "Insert index: 1").
Proof.
  split.
  - apply (proj1 (@insert_anchor
                    (mkArgs "doc-1" Operation.insertAfter "$.body.content[0]"
                       (Some [ paragraph "X" ]) None None)
                    [ paragraph "X" ] (Some 0) 1 eq_refl ltac:(discriminate)
                    ltac:(discriminate))).
    reflexivity.
  - apply (proj2 (@insert_anchor
                    (mkArgs "doc-1" Operation.insertBefore "$.body.content[1]"
                       (Some [ paragraph "X" ]) None None)
                    [ paragraph "X" ] None 1 eq_refl ltac:(discriminate)
                    ltac:(discriminate))).
    reflexivity.
Defined.

(** [delete] on a rangeable target compiles to exactly one instruction,
    the deletion of the span of the target, whatever content or style the
    intent carries besides. *)
Theorem delete_single_range (args : Args) (v : Target.t) (s e : Z) :
  operation args = Operation.delete ->
  rangeable v s e ->
  buildRequests args v =
  ok ([ deleteContentRange (mkRange s e) ],
      "Deleted element from index " ++ Js.of_number s ++ " to " ++ Js.of_number e).
Proof.
  intros Hop Hrange. unfold buildRequests. rewrite Hop.
  rewrite (require_range_rangeable _ Hrange). reflexivity.
Qed.

Lemma delete_single_range_sample :
  buildRequests
    (mkArgs "doc-1" Operation.delete "$.body.content[4]" (Some [ paragraph "ignored" ])
       None None)
    (Target.element (Some 50) (Some 80)) =
  ok ([ deleteContentRange (mkRange 50 80) ], "Deleted element from index 50 to 80").
Proof.
  apply (@delete_single_range
           (mkArgs "doc-1" Operation.delete "$.body.content[4]" (Some [ paragraph "ignored" ])
              None None)
           (Target.element (Some 50) (Some 80)) 50 80).
  - reflexivity.
  - unfold rangeable. repeat split; discriminate.
Defined.

(** ** The handler, beyond validation *)

Section HandlerRuns.

Variables Service Snapshot : Type.
Variable documents_get : Service -> string -> result (option Snapshot).
Variable documents_batchUpdate :
  Service -> string -> list Request -> result Datatypes.unit * Service.
Variable JSONPath : string -> Snapshot -> result (list Target.t).
Variable JSON_stringify : option Snapshot -> string.

Local Abbreviation run :=
  (handleJsonPathOperation documents_get documents_batchUpdate JSONPath JSON_stringify).

Local Abbreviation run_calls :=
  (handleJsonPathOperation_calls documents_get documents_batchUpdate JSONPath
     JSON_stringify).

(** A list that is neither empty nor longer than one has one element. *)
Lemma single_result (results : list Target.t) :
  Nat.eqb (List.length results) 0 = false ->
  Nat.ltb 1 (List.length results) = false ->
  exists v, results = [ v ].
Proof.
  destruct results as [| v [| v' rest]]; cbn; try discriminate. eauto.
Qed.

(** The handler from the call of [batchUpdate] on. *)
Lemma run_compiled (args : Args) (w : World Service) (docId : string) (data : Snapshot)
  (v : Target.t) (requests : list Request) (description : string) :
  extractDocId (doc_id_or_url args) = Some docId ->
  documents_get (service w) docId = ok (Some data) ->
  JSONPath (target args) data = ok [ v ] ->
  buildRequests args v = ok (requests, description) ->
  run args w =
  match documents_batchUpdate (service w) docId requests with
  | (inl e, service') => (inl e, mkWorld service' ((docId, requests) :: submitted w))
  | (inr _, service') =>
      match documents_get service' docId with
      | inl e => (inl e, mkWorld service' ((docId, requests) :: submitted w))
      | inr updatedDoc =>
          (ok (success_message JSON_stringify args description
                 (buildUpdateSummary requests) updatedDoc),
           mkWorld service' ((docId, requests) :: submitted w))
      end
  end.
Proof.
  intros Hid Hget Hpath Hbuilt.
  rewrite (run_resolved documents_get documents_batchUpdate JSONPath JSON_stringify
             args w Hid Hget Hpath).
  cbn [List.length Nat.eqb Nat.ltb Nat.leb first_result hd].
  unfold ok in Hbuilt. rewrite Hbuilt.
  unfold bind, batch_update, get_document, ret.
  destruct (documents_batchUpdate (service w) docId requests) as [[e | u] service'];
    [reflexivity |].
  cbn [service]. destruct (documents_get service' docId); reflexivity.
Qed.

(** Every run of the handler, by cases. *)
Lemma run_cases (args : Args) (w : World Service) :
  (exists e, run args w = (throw e, w))
  \/ (exists docId data v requests description,
         extractDocId (doc_id_or_url args) = Some docId
         /\ documents_get (service w) docId = ok (Some data)
         /\ JSONPath (target args) data = ok [ v ]
         /\ buildRequests args v = ok (requests, description)).
Proof.
  unfold handleJsonPathOperation.
  destruct (extractDocId (doc_id_or_url args)) as [docId |] eqn:Hid;
    [| left; eexists; reflexivity].
  rewrite (extractDocId_truthy _ Hid). cbn [negb].
  unfold bind at 1. unfold get_document at 1.
  destruct (documents_get (service w) docId) as [e | [data |]] eqn:Hget;
    [left; eexists; reflexivity | | left; eexists; reflexivity].
  unfold bind at 1. unfold lift at 1.
  destruct (JSONPath (target args) data) as [e | results] eqn:Hpath;
    [left; eexists; reflexivity |].
  destruct (Nat.eqb (List.length results) 0) eqn:Hzero; [left; eexists; reflexivity |].
  destruct (Nat.ltb 1 (List.length results)) eqn:Hmany; [left; eexists; reflexivity |].
  destruct (single_result results Hzero Hmany) as [v ->].
  unfold bind at 1. unfold lift at 1. cbn [first_result hd].
  destruct (buildRequests args v) as [e | [requests description]] eqn:Hbuilt;
    [left; eexists; reflexivity |].
  right. exists docId, data, v, requests, description. repeat split; assumption.
Qed.

(** X9: when the handler succeeds, the reference was parsed, the snapshot
    fetched, the path matched exactly one node and the intent compiled; the
    service accepted one batch, which is exactly the compiled instruction
    list, addressed to the parsed document. *)
Theorem success_inversion (args : Args) (w w' : World Service) (text : string) :
  run args w = (ok text, w') ->
  exists docId data v requests description,
    extractDocId (doc_id_or_url args) = Some docId
    /\ documents_get (service w) docId = ok (Some data)
    /\ JSONPath (target args) data = ok [ v ]
    /\ buildRequests args v = ok (requests, description)
    /\ documents_batchUpdate (service w) docId requests = (ok tt, service w')
    /\ submitted w' = (docId, requests) :: submitted w.
Proof.
  intros Hrun.
  destruct (run_cases args w) as [[e He] | [docId [data [v [requests [description H]]]]]].
  - rewrite He in Hrun. discriminate.
  - destruct H as [Hid [Hget [Hpath Hbuilt]]].
    exists docId, data, v, requests, description.
    rewrite (run_compiled args w Hid Hget Hpath Hbuilt) in Hrun.
    destruct (documents_batchUpdate (service w) docId requests) as [[e | []] service'];
      [discriminate |].
    destruct (documents_get service' docId); [discriminate |].
    injection Hrun as _ <-. cbn. repeat split; assumption.
Qed.

(** X10: one run of the handler calls [batchUpdate] at most once: either
    the world is left as it was, or exactly one batch is logged, and the
    service is in the state that call returned. *)
Theorem at_most_one_batch (args : Args) (w : World Service) :
  snd (run args w) = w
  \/ exists docId requests,
       submitted (snd (run args w)) = (docId, requests) :: submitted w
       /\ service (snd (run args w))
          = snd (documents_batchUpdate (service w) docId requests).
Proof.
  destruct (run_cases args w) as [[e He] | [docId [data [v [requests [description H]]]]]].
  - left. now rewrite He.
  - destruct H as [Hid [Hget [Hpath Hbuilt]]].
    right. exists docId, requests.
    rewrite (run_compiled args w Hid Hget Hpath Hbuilt).
    destruct (documents_batchUpdate (service w) docId requests) as [[e | u] service'];
      [split; reflexivity |].
    destruct (documents_get service' docId); split; reflexivity.
Qed.

(** X11: a failure to fetch the snapshot or to evaluate the path is
    surfaced as it is, before anything is submitted: the error of
    [documents.get] or of the path evaluator is returned unchanged, and a
    response without data gives the fetch error. *)
Theorem fetch_failure (args : Args) (w : World Service) (docId : string) :
  extractDocId (doc_id_or_url args) = Some docId ->
  (forall e, documents_get (service w) docId = throw e -> run args w = (throw e, w))
  /\ (documents_get (service w) docId = ok None ->
      run args w = (throw (Error "Failed to fetch document"), w))
  /\ (forall data e,
         documents_get (service w) docId = ok (Some data) ->
         JSONPath (target args) data = throw e ->
         run args w = (throw e, w)).
Proof.
  intros Hid.
  assert (Hstart : run args w =
            bind (get_document documents_get docId)
              (fun doc =>
                 match doc with
                 | None => raise (Error "Failed to fetch document")
                 | Some data =>
                     bind (lift (JSONPath (target args) data)) (fun results =>
                     if Nat.eqb (List.length results) 0
                     then raise (Error ("No element found at JSONPath: " ++ target args))
                     else if Nat.ltb 1 (List.length results)
                     then raise (Error ("Multiple elements found at JSONPath: "
                                        ++ target args ++ ". Path must be unique."))
                     else
                       bind (lift (buildRequests args (first_result results)))
                         (fun built =>
                            let '(requests, operationDescription) := built in
                            bind (batch_update documents_batchUpdate docId requests)
                              (fun _ =>
                                 bind (get_document documents_get docId)
                                   (fun updatedDoc =>
                                      ret (success_message JSON_stringify args
                                             operationDescription
                                             (buildUpdateSummary requests) updatedDoc)))))
                 end) w).
  { unfold handleJsonPathOperation. rewrite Hid.
    rewrite (extractDocId_truthy _ Hid). reflexivity. }
  rewrite Hstart. clear Hstart.
  repeat split.
  - intros e He. unfold bind at 1. unfold get_document at 1. rewrite He. reflexivity.
  - intros He. unfold bind at 1. unfold get_document at 1. rewrite He. reflexivity.
  - intros data e He Hpath. unfold bind at 1. unfold get_document at 1. rewrite He.
    unfold ok. cbv beta iota.
    unfold bind at 1. unfold lift at 1. rewrite Hpath. reflexivity.
Qed.

(** X12: when the service accepts the batch but the fetch of the updated
    document fails, the handler returns that error although the batch has
    been applied: the batch is in the log and the service in its new
    state. *)
Theorem refetch_failure (args : Args) (w : World Service) (docId : string)
  (data : Snapshot) (v : Target.t) (requests : list Request) (description : string)
  (service' : Service) (e : JsError) :
  extractDocId (doc_id_or_url args) = Some docId ->
  documents_get (service w) docId = ok (Some data) ->
  JSONPath (target args) data = ok [ v ] ->
  buildRequests args v = ok (requests, description) ->
  documents_batchUpdate (service w) docId requests = (ok tt, service') ->
  documents_get service' docId = throw e ->
  run args w = (throw e, mkWorld service' ((docId, requests) :: submitted w)).
Proof.
  intros Hid Hget Hpath Hbuilt Hbatch Hrefetch.
  rewrite (run_compiled args w Hid Hget Hpath Hbuilt), Hbatch.
  unfold ok. rewrite Hrefetch. reflexivity.
Qed.

(** The journal is beside the handler: without it, a run with the journal
    is the run of the handler. *)
Lemma calls_erased (args : Args) (w : World Service) (calls : list Call) :
  (fst (run_calls args (w, calls)), fst (snd (run_calls args (w, calls)))) = run args w.
Proof.
  unfold handleJsonPathOperation_calls, handleJsonPathOperation.
  destruct (extractDocId (doc_id_or_url args)) as [docId |]; [| reflexivity].
  destruct (negb (Js.truthy_string docId)); [reflexivity |].
  unfold then_, bind, calling, quiet, get_document, lift, raise, ret, batch_update.
  destruct (documents_get (service w) docId) as [e | [data |]];
    cbv beta iota zeta; [reflexivity | | reflexivity].
  destruct (JSONPath (target args) data) as [e | results];
    cbv beta iota zeta; [reflexivity |].
  destruct (Nat.eqb (List.length results) 0); [reflexivity |].
  destruct (Nat.ltb 1 (List.length results)); [reflexivity |].
  destruct (buildRequests args (first_result results)) as [e | [requests description]];
    cbv beta iota zeta; [reflexivity |].
  destruct (documents_batchUpdate (service w) docId requests) as [[e | u] service'];
    cbv beta iota zeta; [reflexivity |].
  cbn [service]. destruct (documents_get service' docId); reflexivity.
Qed.

(** The calls of the handler from the call of [batchUpdate] on. *)
Lemma run_calls_compiled (args : Args) (w : World Service) (calls : list Call)
  (docId : string) (data : Snapshot) (v : Target.t) (requests : list Request)
  (description : string) :
  extractDocId (doc_id_or_url args) = Some docId ->
  documents_get (service w) docId = ok (Some data) ->
  JSONPath (target args) data = ok [ v ] ->
  buildRequests args v = ok (requests, description) ->
  snd (snd (run_calls args (w, calls))) =
  match documents_batchUpdate (service w) docId requests with
  | (inl _, _) => called_batchUpdate docId requests :: called_get docId :: calls
  | (inr _, _) =>
      called_get docId :: called_batchUpdate docId requests :: called_get docId :: calls
  end.
Proof.
  intros Hid Hget Hpath Hbuilt.
  unfold handleJsonPathOperation_calls.
  rewrite Hid, (extractDocId_truthy _ Hid). cbn [negb].
  unfold then_, calling, quiet, get_document, lift, raise, ret, batch_update.
  rewrite Hget. unfold ok. cbv beta iota zeta.
  rewrite Hpath. unfold ok. cbv beta iota zeta.
  cbn [List.length Nat.eqb Nat.ltb Nat.leb first_result hd].
  unfold ok in Hbuilt. rewrite Hbuilt. cbv beta iota zeta.
  destruct (documents_batchUpdate (service w) docId requests) as [[e | u] service'];
    cbv beta iota zeta; [reflexivity |].
  cbn [service]. destruct (documents_get service' docId); reflexivity.
Qed.

(** X13: when the service rejects the batch, the handler returns the error
    of the service as it is, after that single attempt and without
    fetching the document again: the calls it has made are the fetch of the
    snapshot and then the rejected [batchUpdate], and no other. *)
Theorem batch_rejected (args : Args) (w : World Service) (docId : string)
  (data : Snapshot) (v : Target.t) (requests : list Request) (description : string)
  (service' : Service) (e : JsError) :
  extractDocId (doc_id_or_url args) = Some docId ->
  documents_get (service w) docId = ok (Some data) ->
  JSONPath (target args) data = ok [ v ] ->
  buildRequests args v = ok (requests, description) ->
  documents_batchUpdate (service w) docId requests = (throw e, service') ->
  run args w = (throw e, mkWorld service' ((docId, requests) :: submitted w))
  /\ forall calls,
       run_calls args (w, calls)
       = (throw e,
          (mkWorld service' ((docId, requests) :: submitted w),
           called_batchUpdate docId requests :: called_get docId :: calls)).
Proof.
  intros Hid Hget Hpath Hbuilt Hbatch.
  assert (Hrun : run args w
                 = (throw e, mkWorld service' ((docId, requests) :: submitted w))).
  { rewrite (run_compiled args w Hid Hget Hpath Hbuilt), Hbatch. reflexivity. }
  split; [exact Hrun |].
  intros calls.
  pose proof (calls_erased args w calls) as Herased.
  pose proof (run_calls_compiled args w calls Hid Hget Hpath Hbuilt) as Hcalls.
  rewrite Hbatch in Hcalls. unfold throw in Hcalls. cbv beta iota in Hcalls.
  rewrite Hrun in Herased.
  destruct (run_calls args (w, calls)) as [r [w' calls']].
  cbn [fst snd] in Herased, Hcalls.
  injection Herased as -> ->. rewrite Hcalls. reflexivity.
Qed.

End HandlerRuns.

(** X9 on the sample service: the success of [delete] on the second
    element. *)
Lemma success_inversion_sample :
  exists docId data v requests description,
    extractDocId "doc-1" = Some docId
    /\ Sample.documents_get (service Sample.world) docId = ok (Some data)
    /\ Sample.JSONPath "$.body.content[1]" data = ok [ v ]
    /\ buildRequests (mkArgs "doc-1" Operation.delete "$.body.content[1]" None None None) v
       = ok (requests, description)
    /\ Sample.documents_batchUpdate (service Sample.world) docId requests
       = (ok tt, Sample.mkService [ ("doc-1", Sample.snapshot) ] 1)
    /\ [ ("doc-1", [ deleteContentRange (mkRange 1 12) ]) ] = [ (docId, requests) ].
Proof.
  eapply (@success_inversion Sample.Service Sample.Snapshot
            Sample.documents_get Sample.documents_batchUpdate Sample.JSONPath
            Sample.JSON_stringify
            (mkArgs "doc-1" Operation.delete "$.body.content[1]" None None None)
            Sample.world
            (mkWorld (Sample.mkService [ ("doc-1", Sample.snapshot) ] 1)
               [ ("doc-1", [ deleteContentRange (mkRange 1 12) ]) ])).
  vm_compute. reflexivity.
Defined.

(** X11 on the sample service: a document the service does not have, a
    response without data, and a path the evaluator refuses. *)
Lemma fetch_failure_sample :
  Sample.run (mkArgs "doc-2" Operation.delete "$.body.content[1]" None None None)
    Sample.world
  = (throw (Error "Requested entity was not found."), Sample.world)
  /\ handleJsonPathOperation (fun _ _ => ok None) Sample.documents_batchUpdate
       Sample.JSONPath Sample.JSON_stringify
       (mkArgs "doc-1" Operation.delete "$.body.content[1]" None None None) Sample.world
     = (throw (Error "Failed to fetch document"), Sample.world)
  /\ Sample.run (mkArgs "doc-1" Operation.delete "$.body.content[first]" None None None)
       Sample.world
     = (throw (Error "Unsupported path expression"), Sample.world).
Proof.
  split; [| split].
  - apply (proj1 (@fetch_failure Sample.Service Sample.Snapshot
                    Sample.documents_get Sample.documents_batchUpdate Sample.JSONPath
                    Sample.JSON_stringify
                    (mkArgs "doc-2" Operation.delete "$.body.content[1]" None None None)
                    Sample.world "doc-2" eq_refl)).
    reflexivity.
  - apply (proj1 (proj2 (@fetch_failure Sample.Service Sample.Snapshot
                    (fun _ _ => ok None) Sample.documents_batchUpdate Sample.JSONPath
                    Sample.JSON_stringify
                    (mkArgs "doc-1" Operation.delete "$.body.content[1]" None None None)
                    Sample.world "doc-1" eq_refl))).
    reflexivity.
  - apply (proj2 (proj2 (@fetch_failure Sample.Service Sample.Snapshot
                    Sample.documents_get Sample.documents_batchUpdate Sample.JSONPath
                    Sample.JSON_stringify
                    (mkArgs "doc-1" Operation.delete "$.body.content[first]" None None None)
                    Sample.world "doc-1" eq_refl))
             Sample.snapshot (Error "Unsupported path expression")); reflexivity.
Defined.

(** X12 on a service that is unavailable after the update. *)
Lemma refetch_failure_sample :
  handleJsonPathOperation Failing.unavailable_after_update Sample.documents_batchUpdate
    Sample.JSONPath Sample.JSON_stringify
    (mkArgs "doc-1" Operation.delete "$.body.content[1]" None None None) Sample.world
  = (throw (Error "The service is currently unavailable."),
     mkWorld (Sample.mkService [ ("doc-1", Sample.snapshot) ] 1)
       [ ("doc-1", [ deleteContentRange (mkRange 1 12) ]) ]).
Proof.
  apply (@refetch_failure Sample.Service Sample.Snapshot
           Failing.unavailable_after_update Sample.documents_batchUpdate Sample.JSONPath
           Sample.JSON_stringify
           (mkArgs "doc-1" Operation.delete "$.body.content[1]" None None None)
           Sample.world "doc-1" Sample.snapshot (Target.element (Some 1) (Some 12))
           [ deleteContentRange (mkRange 1 12) ] "Deleted element from index 1 to 12"
           (Sample.mkService [ ("doc-1", Sample.snapshot) ] 1)
           (Error "The service is currently unavailable."));
    reflexivity.
Defined.

(** X13 on a service that rejects every batch: one fetch, then the one
    attempt. *)
Lemma batch_rejected_sample :
  handleJsonPathOperation Sample.documents_get Failing.reject_batch
    Sample.JSONPath Sample.JSON_stringify
    (mkArgs "doc-1" Operation.delete "$.body.content[1]" None None None) Sample.world
  = (throw (Error "Invalid requests[0].deleteContentRange: Invalid range"),
     mkWorld (service Sample.world)
       [ ("doc-1", [ deleteContentRange (mkRange 1 12) ]) ])
  /\ forall calls,
       handleJsonPathOperation_calls Sample.documents_get Failing.reject_batch
         Sample.JSONPath Sample.JSON_stringify
         (mkArgs "doc-1" Operation.delete "$.body.content[1]" None None None)
         (Sample.world, calls)
       = (throw (Error "Invalid requests[0].deleteContentRange: Invalid range"),
          (mkWorld (service Sample.world)
             [ ("doc-1", [ deleteContentRange (mkRange 1 12) ]) ],
           called_batchUpdate "doc-1" [ deleteContentRange (mkRange 1 12) ]
             :: called_get "doc-1" :: calls)).
Proof.
  apply (@batch_rejected Sample.Service Sample.Snapshot
           Sample.documents_get Failing.reject_batch Sample.JSONPath
           Sample.JSON_stringify
           (mkArgs "doc-1" Operation.delete "$.body.content[1]" None None None)
           Sample.world "doc-1" Sample.snapshot (Target.element (Some 1) (Some 12))
           [ deleteContentRange (mkRange 1 12) ] "Deleted element from index 1 to 12"
           (service Sample.world)
           (Error "Invalid requests[0].deleteContentRange: Invalid range"));
    reflexivity.
Defined.

(** ** The raw path *)

Section RawPathProperties.

Variable Service : Type.
Variable documents_batchUpdate :
  Service -> string -> list Request -> result Datatypes.unit * Service.

Local Abbreviation update := (updateDocContent documents_batchUpdate).

(** X14: the raw path rejects an unparseable reference and an empty batch
    before any call to the service: the world is left as it was. *)
Theorem raw_rejected_up_front (docIdOrUrl : string) (requests : list Request)
  (w : World Service) :
  (extractDocId docIdOrUrl = None ->
   update docIdOrUrl requests w = (throw (Error "Invalid document ID or URL"), w))
  /\ (forall docId,
         extractDocId docIdOrUrl = Some docId ->
         requests = [] ->
         update docIdOrUrl requests w = (throw (Error "No update requests provided"), w)).
Proof.
  unfold updateDocContent. split.
  - intros ->. reflexivity.
  - intros docId Hid ->. rewrite Hid, (extractDocId_truthy _ Hid). reflexivity.
Qed.

(** X15: with a parsed reference and a batch that is not empty, the raw
    path submits exactly the batch it was given, once; when the service
    accepts it the reply is the success text with the summary, and when the
    service rejects it the error returned is the message of the service
    behind an explanation chosen by that message: the one for invalid
    requests when it mentions [Invalid requests], else the one for an
    invalid range when it mentions [Invalid range], else
    [Failed to update document: ]. *)
Theorem raw_pass_through (docIdOrUrl docId : string) (requests : list Request)
  (w : World Service) :
  extractDocId docIdOrUrl = Some docId ->
  requests <> [] ->
  submitted (snd (update docIdOrUrl requests w)) = (docId, requests) :: submitted w
  /\ service (snd (update docIdOrUrl requests w))
     = snd (documents_batchUpdate (service w) docId requests)
  /\ (forall e service',
         documents_batchUpdate (service w) docId requests = (throw e, service') ->
         (Js.includes "Invalid requests" (message_of e) = true ->
          fst (update docIdOrUrl requests w)
          = throw (Error ("Invalid update request. Make sure you're using valid Google Docs API request objects. Error: "
                          ++ message_of e)))
         /\ (Js.includes "Invalid requests" (message_of e) = false ->
             Js.includes "Invalid range" (message_of e) = true ->
             fst (update docIdOrUrl requests w)
             = throw (Error ("Invalid range in update request. Ensure the startIndex and endIndex are within the document bounds. Error: "
                             ++ message_of e)))
         /\ (Js.includes "Invalid requests" (message_of e) = false ->
             Js.includes "Invalid range" (message_of e) = false ->
             fst (update docIdOrUrl requests w)
             = throw (Error ("Failed to update document: " ++ message_of e))))
  /\ (forall service',
         documents_batchUpdate (service w) docId requests = (ok tt, service') ->
         fst (update docIdOrUrl requests w)
         = ok ("Document updated successfully." ++ Js.nl ++ Js.nl
               ++ buildUpdateSummary requests)).
Proof.
  intros Hid Hrequests.
  unfold updateDocContent. rewrite Hid, (extractDocId_truthy _ Hid). cbn [negb].
  destruct requests as [| r requests]; [contradiction |].
  cbn [List.length Nat.eqb]. unfold batch_update.
  destruct (documents_batchUpdate (service w) docId (r :: requests)) as [[e | u] service']
    eqn:Hbatch; cbn [fst snd submitted service].
  - split; [reflexivity | split; [reflexivity | split]].
    + intros e' s' H. injection H as <- _. unfold wrap_update_error.
      repeat split.
      * intros ->. reflexivity.
      * intros -> ->. reflexivity.
      * intros -> ->. reflexivity.
    + intros s' H. discriminate.
  - split; [reflexivity | split; [reflexivity | split]].
    + intros e' s' H. discriminate.
    + reflexivity.
Qed.

End RawPathProperties.

(** X14 on the sample service: an empty batch for a known document. *)
Lemma raw_rejected_up_front_sample :
  updateDocContent Sample.documents_batchUpdate "nothing to parse" [] Sample.world
  = (throw (Error "Invalid document ID or URL"), Sample.world)
  /\ updateDocContent Sample.documents_batchUpdate "doc-1" [] Sample.world
     = (throw (Error "No update requests provided"), Sample.world).
Proof.
  split.
  - apply (proj1 (@raw_rejected_up_front Sample.Service Sample.documents_batchUpdate
                    "nothing to parse" [] Sample.world)).
    reflexivity.
  - apply (proj2 (@raw_rejected_up_front Sample.Service Sample.documents_batchUpdate
                    "doc-1" [] Sample.world) "doc-1"); reflexivity.
Defined.

(** X15 on a service that rejects every batch: its message mentions both
    [Invalid requests] and [Invalid range], and the explanation is the one
    for invalid requests. *)
Lemma raw_pass_through_sample :
  submitted
    (snd (updateDocContent Failing.reject_batch "doc-1"
            [ deleteContentRange (mkRange 1 12) ] Sample.world))
  = [ ("doc-1", [ deleteContentRange (mkRange 1 12) ]) ]
  /\ fst (updateDocContent Failing.reject_batch "doc-1"
            [ deleteContentRange (mkRange 1 12) ] Sample.world)
     = throw (Error ("Invalid update request. Make sure you're using valid Google Docs API request objects. Error: "
                     ++ "Invalid requests[0].deleteContentRange: Invalid range")).
Proof.
  destruct (@raw_pass_through Sample.Service Failing.reject_batch "doc-1" "doc-1"
              [ deleteContentRange (mkRange 1 12) ] Sample.world eq_refl
              ltac:(discriminate))
    as [Hlog [_ [Hrejected _]]].
  split; [exact Hlog |].
  exact (proj1 (Hrejected (Error "Invalid requests[0].deleteContentRange: Invalid range")
                  (service Sample.world) eq_refl) eq_refl).
Defined.

(** ** Document references *)

Lemma take_id_chars_all (s : string) : all_id_chars (take_id_chars s) = true.
Proof.
  induction s as [| c s IH]; cbn.
  - reflexivity.
  - destruct (is_id_char c) eqn:Hc; cbn; [now rewrite Hc | reflexivity].
Qed.

Lemma match_document_url_all (input id : string) :
  match_document_url input = Some id -> all_id_chars id = true.
Proof.
  induction input as [| c input IH]; cbn [match_document_url];
    unfold match_document_here at 1.
  - cbn. discriminate.
  - destruct (strip_prefix "/document/d/" (String c input)) as [rest |]; [| exact IH].
    pose proof (take_id_chars_all rest) as Hall.
    destruct (take_id_chars rest); [exact IH |].
    intros H. injection H as <-. exact Hall.
Qed.

(** X16: a document id returned by [extractDocId] is never empty and is
    made only of letters, digits, hyphens and underscores. *)
Theorem extractDocId_sound (input id : string) :
  extractDocId input = Some id ->
  Js.truthy_string id = true /\ all_id_chars id = true.
Proof.
  intros H. split; [exact (extractDocId_truthy _ H) |].
  unfold extractDocId in H.
  destruct (match_document_url input) as [m |] eqn:E.
  - injection H as <-. exact (match_document_url_all _ E).
  - unfold is_document_id in H.
    destruct (Js.truthy_string input); cbn in H; [| discriminate].
    destruct (all_id_chars input) eqn:Hall; [| discriminate].
    injection H as <-. exact Hall.
Qed.

Lemma extractDocId_sound_sample :
  Js.truthy_string "doc-1" = true /\ all_id_chars "doc-1" = true.
Proof.
  apply (@extractDocId_sound "https://docs.google.com/document/d/doc-1/edit" "doc-1").
  reflexivity.
Defined.

Lemma slash_not_id_char (c : ascii) : is_id_char c = true -> Ascii.eqb "/"%char c = false.
Proof.
  intros H. destruct (Ascii.eqb_spec "/"%char c) as [<- |]; [discriminate | reflexivity].
Qed.

Lemma no_match_here (c : ascii) (s : string) :
  Ascii.eqb "/"%char c = false -> match_document_here (String c s) = None.
Proof.
  intros H. unfold match_document_here. cbn [strip_prefix]. now rewrite H.
Qed.

Lemma id_has_no_url (id : string) :
  all_id_chars id = true -> match_document_url id = None.
Proof.
  induction id as [| c id IH]; intros H.
  - reflexivity.
  - cbn in H. apply andb_true_iff in H. destruct H as [Hc Hrest].
    cbn [match_document_url].
    rewrite (no_match_here c id (slash_not_id_char c Hc)). now apply IH.
Qed.

(** X17: a string that is already a document id is returned as it is, so
    that [extractDocId] applied to one of its own results returns it
    again. *)
Theorem extractDocId_fixed (input id : string) :
  (Js.truthy_string input = true -> all_id_chars input = true ->
   extractDocId input = Some input)
  /\ (extractDocId input = Some id -> extractDocId id = Some id).
Proof.
  assert (Hfixed : forall s, Js.truthy_string s = true -> all_id_chars s = true ->
                             extractDocId s = Some s).
  { intros s Hs Hall. unfold extractDocId, is_document_id.
    now rewrite (id_has_no_url _ Hall), Hs, Hall. }
  split.
  - apply Hfixed.
  - intros H. apply Hfixed.
    + exact (extractDocId_truthy _ H).
    + unfold extractDocId in H.
      destruct (match_document_url input) as [m |] eqn:E.
      * injection H as <-. exact (match_document_url_all _ E).
      * unfold is_document_id in H.
        destruct (Js.truthy_string input); cbn in H; [| discriminate].
        destruct (all_id_chars input) eqn:Hall; [| discriminate].
        injection H as <-. exact Hall.
Qed.

Lemma extractDocId_fixed_sample :
  extractDocId "1AbC_d-9" = Some "1AbC_d-9"
  /\ extractDocId "doc-1" = Some "doc-1".
Proof.
  split.
  - apply (proj1 (@extractDocId_fixed "1AbC_d-9" "1AbC_d-9")); reflexivity.
  - apply (proj2 (@extractDocId_fixed "https://docs.google.com/document/d/doc-1/edit"
                    "doc-1")).
    reflexivity.
Defined.

Lemma strip_prefix_app (p s : string) : strip_prefix p (p ++ s) = Some s.
Proof.
  induction p as [| c p IH]; cbn.
  - destruct s; reflexivity.
  - now rewrite Ascii.eqb_refl.
Qed.

Lemma take_id_chars_app (id rest : string) :
  all_id_chars id = true -> ends_id rest = true -> take_id_chars (id ++ rest) = id.
Proof.
  induction id as [| c id IH]; cbn; intros Hall Hends.
  - destruct rest as [| r rest]; cbn in *; [reflexivity |].
    apply negb_true_iff in Hends. now rewrite Hends.
  - apply andb_true_iff in Hall. destruct Hall as [Hc Hall].
    rewrite Hc. now rewrite IH.
Qed.

(** The first slashes of the pattern and of the text must be aligned. *)
Lemma strip_prefix_first_slash (q : string) :
  forall host r t,
    no_slash q = true -> no_slash host = true ->
    strip_prefix (q ++ String "/"%char r) (host ++ String "/"%char t) =
    if String.eqb q host then strip_prefix r t else None.
Proof.
  induction q as [| a q IH]; intros host r t Hq Hhost.
  - destruct host as [| c host]; cbn [append strip_prefix String.eqb].
    + now rewrite Ascii.eqb_refl.
    + cbn [no_slash] in Hhost. apply andb_true_iff in Hhost. destruct Hhost as [Hc _].
      apply negb_true_iff in Hc. rewrite Ascii.eqb_sym in Hc. now rewrite Hc.
  - cbn [no_slash] in Hq. apply andb_true_iff in Hq. destruct Hq as [Ha Hq].
    apply negb_true_iff in Ha.
    destruct host as [| c host]; cbn [append strip_prefix String.eqb].
    + now rewrite Ha.
    + cbn [no_slash] in Hhost. apply andb_true_iff in Hhost. destruct Hhost as [_ Hhost].
      destruct (Ascii.eqb a c); cbn [andb]; [now apply IH | reflexivity].
Qed.

Lemma host_is_no_match (host tail : string) :
  no_slash host = true ->
  match_document_here ("/" ++ host ++ "/document/d/" ++ tail) = None.
Proof.
  intros Hhost. unfold match_document_here.
  change (strip_prefix "/document/d/" ("/" ++ host ++ "/document/d/" ++ tail))
    with (strip_prefix ("document" ++ String "/"%char "d/")
            (host ++ String "/"%char ("document/d/" ++ tail))).
  rewrite (strip_prefix_first_slash "document" host "d/" ("document/d/" ++ tail) eq_refl Hhost).
  destruct (String.eqb "document" host); reflexivity.
Qed.

Lemma skip_host (host s : string) :
  no_slash host = true ->
  match_document_url (host ++ s) = match_document_url s.
Proof.
  induction host as [| c host IH]; intros Hhost.
  - reflexivity.
  - cbn in Hhost. apply andb_true_iff in Hhost. destruct Hhost as [Hc Hhost].
    apply negb_true_iff in Hc. rewrite Ascii.eqb_sym in Hc.
    cbn [append match_document_url]. rewrite (no_match_here _ _ Hc). now apply IH.
Qed.

Lemma url_step_none (c : ascii) (s : string) :
  match_document_here (String c s) = None ->
  match_document_url (String c s) = match_document_url s.
Proof. intros H. cbn [match_document_url]. now rewrite H. Qed.

Lemma url_step_some (s id : string) :
  match_document_here s = Some id -> match_document_url s = Some id.
Proof. intros H. destruct s; cbn [match_document_url]; now rewrite H. Qed.

(** The leftmost match in a document URL is its id. *)
Lemma document_url_match (host id rest : string) :
  no_slash host = true ->
  Js.truthy_string id = true ->
  all_id_chars id = true ->
  ends_id rest = true ->
  match_document_url ("https://" ++ host ++ "/document/d/" ++ id ++ rest) = Some id.
Proof.
  intros Hhost Hid Hall Hends.
  assert (Hhere : match_document_here ("/document/d/" ++ id ++ rest) = Some id).
  { unfold match_document_here. rewrite strip_prefix_app.
    rewrite (take_id_chars_app _ _ Hall Hends).
    destruct id; [discriminate | reflexivity]. }
  pose proof (host_is_no_match host (id ++ rest) Hhost) as Hslash.
  pose proof (skip_host host ("/document/d/" ++ id ++ rest) Hhost) as Hskip.
  pose proof (url_step_some _ Hhere) as Hfound.
  set (tail := "/document/d/" ++ id ++ rest) in *.
  change ("https://" ++ host ++ tail)
    with (String "h" (String "t" (String "t" (String "p" (String "s" (String ":"
            (String "/" (String "/" (host ++ tail))))))))).
  change ("/" ++ host ++ tail) with (String "/" (host ++ tail)) in Hslash.
  rewrite !url_step_none by reflexivity.
  rewrite (url_step_none _ _ Hslash), Hskip. exact Hfound.
Qed.

(** X18: from a document URL [https://HOST/document/d/ID], followed by
    nothing or by a character that cannot belong to an id (as in [/edit]),
    the id extracted is [ID]. *)
Theorem extractDocId_url (host id rest : string) :
  no_slash host = true ->
  Js.truthy_string id = true ->
  all_id_chars id = true ->
  ends_id rest = true ->
  extractDocId ("https://" ++ host ++ "/document/d/" ++ id ++ rest) = Some id.
Proof.
  intros Hhost Hid Hall Hends.
  unfold extractDocId. now rewrite (document_url_match host id rest Hhost Hid Hall Hends).
Qed.

Lemma extractDocId_url_sample :
  extractDocId "https://docs.google.com/document/d/1AbC_d-9/edit?usp=sharing"
  = Some "1AbC_d-9".
Proof.
  apply (@extractDocId_url "docs.google.com" "1AbC_d-9" "/edit?usp=sharing");
    reflexivity.
Defined.

Lemma strip_prefix_is_prefix (p : string) :
  forall s rest, strip_prefix p s = Some rest -> String.prefix p s = true.
Proof.
  induction p as [| a p IH]; intros s rest H.
  - destruct s; reflexivity.
  - destruct s as [| b s]; cbn in H; [discriminate |].
    cbn. destruct (Ascii.eqb_spec a b) as [-> | Hneq]; [| discriminate].
    destruct (ascii_dec b b); [eapply IH; eassumption | contradiction].
Qed.

Lemma match_needs_marker (input id : string) :
  match_document_url input = Some id -> Js.includes "/document/d/" input = true.
Proof.
  induction input as [| c input IH]; cbn [match_document_url];
    unfold match_document_here at 1.
  - cbn. discriminate.
  - destruct (strip_prefix "/document/d/" (String c input)) as [rest |] eqn:E.
    + intros _. cbn [Js.includes].
      rewrite (strip_prefix_is_prefix _ _ E). reflexivity.
    + intros H. cbn [Js.includes]. rewrite (IH H). apply orb_true_r.
Qed.

(** X19: an input that does not contain [/document/d/] and is empty or has
    a character that cannot belong to an id is rejected. *)
Theorem extractDocId_rejects (input : string) :
  Js.includes "/document/d/" input = false ->
  is_document_id input = false ->
  extractDocId input = None.
Proof.
  intros Hmarker Hid. unfold extractDocId.
  destruct (match_document_url input) as [id |] eqn:E.
  - rewrite (match_needs_marker _ E) in Hmarker. discriminate.
  - now rewrite Hid.
Qed.

Lemma extractDocId_rejects_sample :
  extractDocId "https://docs.google.com/spreadsheets/d/1AbC/edit" = None
  /\ extractDocId EmptyString = None.
Proof.
  split.
  - apply (@extractDocId_rejects "https://docs.google.com/spreadsheets/d/1AbC/edit");
      reflexivity.
  - apply (@extractDocId_rejects EmptyString); reflexivity.
Defined.

(** ** Spreadsheets *)

Lemma pad_row_enough (fuel maxCols : nat) :
  forall row,
    (maxCols - List.length row <= fuel)%nat ->
    pad_row fuel maxCols row = padded maxCols row.
Proof.
  unfold padded.
  induction fuel as [| fuel IH]; intros row Hfuel; cbn [pad_row].
  - replace (maxCols - List.length row)%nat with 0%nat by lia.
    cbn. now rewrite app_nil_r.
  - destruct (Nat.ltb_spec (List.length row) maxCols) as [Hlt | Hge].
    + rewrite IH by (rewrite length_app; cbn; lia).
      rewrite length_app. cbn [List.length].
      replace (maxCols - List.length row)%nat
        with (S (maxCols - (List.length row + 1)))%nat by lia.
      cbn [List.repeat]. now rewrite <- app_assoc.
    + replace (maxCols - List.length row)%nat with 0%nat by lia.
      cbn. now rewrite app_nil_r.
Qed.

(** The padding loop stops by its own test. *)
Lemma normalize_row_padded (maxCols : nat) (row : list string) :
  normalize_row maxCols row = padded maxCols row.
Proof. apply pad_row_enough. lia. Qed.

Lemma row_below_max (values : list (list string)) (row : list string) :
  In row values -> (List.length row <= max_row_length values)%nat.
Proof.
  induction values as [| r values IH]; [intros [] |].
  intros [-> | Hin].
  - unfold max_row_length. cbn [fold_right]. lia.
  - specialize (IH Hin). unfold max_row_length in *. cbn [fold_right]. lia.
Qed.

Lemma length_padded (n : nat) (row : list string) :
  (List.length row <= n)%nat -> List.length (padded n row) = n.
Proof.
  intros H. unfold padded. rewrite length_app, repeat_length. lia.
Qed.

Lemma sheet_lines_loop (rows : list (list string)) :
  forall sheet,
    fold_left (fun sheet row => sheet ++ sheet_line row) rows sheet
    = sheet ++ String.concat EmptyString (map sheet_line rows).
Proof.
  induction rows as [| row rows IH]; intros sheet; cbn [fold_left map].
  - cbn. now rewrite append_empty_r.
  - rewrite IH, concat_empty_cons, append_assoc. reflexivity.
Qed.

(** X20: an empty sheet renders as the empty-spreadsheet notice; otherwise
    the first row is the header, padded to the width of the widest row and
    followed by a separator of that width, and the rows after it, padded
    the same way, are written twice, by the two identical loops of the
    source. *)
Theorem sheet_markdown (header : list string) (rows : list (list string)) :
  convertSheetToMarkdown [] = "*(empty spreadsheet)*"
  /\ convertSheetToMarkdown (header :: rows) =
     sheet_line (padded (max_row_length (header :: rows)) header)
     ++ pipe_row (List.repeat "---" (max_row_length (header :: rows)))
     ++ String.concat EmptyString
          (map (fun row => sheet_line (padded (max_row_length (header :: rows)) row)) rows)
     ++ String.concat EmptyString
          (map (fun row => sheet_line (padded (max_row_length (header :: rows)) row)) rows).
Proof.
  split; [reflexivity |].
  unfold convertSheetToMarkdown.
  cbn [List.length Nat.eqb map tl].
  set (n := max_row_length (header :: rows)).
  rewrite !sheet_lines_loop.
  rewrite map_const_repeat, !normalize_row_padded.
  rewrite length_padded by (apply row_below_max; now left).
  rewrite map_map.
  rewrite (map_ext (fun row => sheet_line (normalize_row n row))
             (fun row => sheet_line (padded n row)))
    by (intros row; now rewrite normalize_row_padded).
  unfold pipe_row, Js.join.
  repeat first [rewrite append_assoc | progress (cbn [append])].
  reflexivity.
Qed.

(** X21: every row of a sheet is normalised to its own cells, in place,
    followed by as many empty cells as it is shorter than the widest row of
    the sheet, and by nothing else: it has exactly as many cells as the
    widest row. *)
Theorem sheet_rectangular (values : list (list string)) (row : list string) :
  In row values ->
  normalize_row (max_row_length values) row
  = (row ++ List.repeat EmptyString (max_row_length values - List.length row))%list
  /\ List.length (normalize_row (max_row_length values) row) = max_row_length values.
Proof.
  intros Hin. rewrite normalize_row_padded. split.
  - reflexivity.
  - apply length_padded, row_below_max, Hin.
Qed.

(** X21 on a sheet whose second row is two cells short. *)
Lemma sheet_rectangular_sample :
  normalize_row (max_row_length [ [ "a"; "b"; "c" ]; [ "d" ] ]) [ "d" ]
  = [ "d"; EmptyString; EmptyString ]
  /\ List.length (normalize_row (max_row_length [ [ "a"; "b"; "c" ]; [ "d" ] ]) [ "d" ])
     = 3%nat.
Proof.
  apply (@sheet_rectangular [ [ "a"; "b"; "c" ]; [ "d" ] ] [ "d" ]).
  right. left. reflexivity.
Defined.

Example sheet_two_rows :
  convertSheetToMarkdown [ [ "a"; "b" ]; [ "c" ] ]
  = "| a | b |" ++ Js.nl ++ "| --- | --- |" ++ Js.nl
    ++ "| c |   |" ++ Js.nl ++ "| c |   |" ++ Js.nl.
Proof. reflexivity. Qed.

(** ** The type of a reference and the contents of a document *)

Lemma match_id_document (input : string) :
  match_id "/document/d/" input = match_document_url input.
Proof.
  induction input as [| c input IH]; cbn [match_id match_document_url].
  - reflexivity.
  - change (match_id_here "/document/d/" (String c input))
      with (match_document_here (String c input)).
    now rewrite IH.
Qed.

Lemma id_has_no_marker (marker input : string) :
  all_id_chars input = true -> match_id (String "/"%char marker) input = None.
Proof.
  induction input as [| c input IH]; intros H.
  - reflexivity.
  - cbn [all_id_chars] in H. apply andb_true_iff in H. destruct H as [Hc Hrest].
    cbn [match_id]. unfold match_id_here at 1. cbn [strip_prefix].
    rewrite (slash_not_id_char c Hc). now apply IH.
Qed.

Lemma convert_without_content (doc : Doc.Document) :
  has_content doc = false -> convertDocToMarkdown doc = EmptyString.
Proof.
  unfold has_content, convertDocToMarkdown.
  destruct (Doc.body doc) as [b |]; [| reflexivity].
  destruct (Doc.body_content b); [discriminate | reflexivity].
Qed.

Section ContentsProperties.

Variable files_get : string -> result (option string).
Variable documents_get : string -> result Doc.Document.
Variable stringify_document : Doc.Document -> string.

(** X22: a document URL [https://HOST/document/d/ID] is typed as a document
    with the id [ID], the id [extractDocId] finds, whatever the file store
    would answer: it is not asked. *)
Theorem detect_document_url (host id rest : string) :
  no_slash host = true ->
  Js.truthy_string id = true ->
  all_id_chars id = true ->
  ends_id rest = true ->
  detectDocumentType files_get ("https://" ++ host ++ "/document/d/" ++ id ++ rest)
  = ok (id, document)
  /\ extractDocId ("https://" ++ host ++ "/document/d/" ++ id ++ rest) = Some id.
Proof.
  intros Hhost Hid Hall Hends.
  pose proof (document_url_match host id rest Hhost Hid Hall Hends) as Hurl.
  split.
  - unfold detectDocumentType. rewrite match_id_document, Hurl, Hid. reflexivity.
  - unfold extractDocId. now rewrite Hurl.
Qed.

(** X23: a bare id is typed by the MIME type the file store gives for it
    and is returned as it is; any other MIME type, and any error of the
    file store, is reported as a failure to detect the file type, the
    unsupported type inside that message. *)
Theorem detect_bare_id (input : string) :
  Js.truthy_string input = true ->
  all_id_chars input = true ->
  (forall e,
      files_get input = throw e ->
      detectDocumentType files_get input
      = throw (Error ("Failed to detect file type: " ++ message_of e)))
  /\ (files_get input = ok (Some "application/vnd.google-apps.document") ->
      detectDocumentType files_get input = ok (input, document))
  /\ (files_get input = ok (Some "application/vnd.google-apps.spreadsheet") ->
      detectDocumentType files_get input = ok (input, spreadsheet))
  /\ (forall mimeType,
         files_get input = ok mimeType ->
         mime_is mimeType "application/vnd.google-apps.document" = false ->
         mime_is mimeType "application/vnd.google-apps.spreadsheet" = false ->
         detectDocumentType files_get input
         = throw (Error ("Failed to detect file type: Unsupported file type: "
                         ++ show_mime mimeType))).
Proof.
  intros Htruthy Hall.
  assert (Hstart : detectDocumentType files_get input =
            rethrow "Failed to detect file type: "
              (rbind (files_get input) (fun mimeType =>
               if mime_is mimeType "application/vnd.google-apps.document"
               then ok (input, document)
               else if mime_is mimeType "application/vnd.google-apps.spreadsheet"
               then ok (input, spreadsheet)
               else throw (Error ("Unsupported file type: " ++ show_mime mimeType))))).
  { unfold detectDocumentType, is_document_id.
    rewrite !(id_has_no_marker _ _ Hall), Htruthy, Hall. reflexivity. }
  rewrite Hstart. repeat split.
  - intros e ->. reflexivity.
  - intros ->. reflexivity.
  - intros ->. reflexivity.
  - intros mimeType -> Hdoc Hsheet. cbn. rewrite Hdoc, Hsheet. reflexivity.
Qed.

(** X24: [getDocContents] fails with the reference error, as it is, when
    the reference does not parse; an error of the fetch is reported as a
    failure to get the document, with its message; and in Markdown format
    the text is the rendering of the fetched document, the empty text for a
    document without body content. *)
Theorem getDocContents_outcomes (docIdOrUrl : string) :
  (extractDocId docIdOrUrl = None ->
   forall format,
     getDocContents documents_get stringify_document docIdOrUrl format
     = throw (Error "Invalid document ID or URL"))
  /\ (forall docId e format,
         extractDocId docIdOrUrl = Some docId ->
         documents_get docId = throw e ->
         getDocContents documents_get stringify_document docIdOrUrl format
         = throw (Error ("Failed to get document: " ++ message_of e)))
  /\ (forall docId doc,
         extractDocId docIdOrUrl = Some docId ->
         documents_get docId = ok doc ->
         getDocContents documents_get stringify_document docIdOrUrl markdown
         = ok (convertDocToMarkdown doc)
         /\ (has_content doc = false ->
             getDocContents documents_get stringify_document docIdOrUrl json
             = ok empty_content_json)).
Proof.
  unfold getDocContents, read_document. repeat split.
  - intros ->. reflexivity.
  - intros docId e format Hid He. rewrite Hid, (extractDocId_truthy _ Hid), He. reflexivity.
  - rewrite H, (extractDocId_truthy _ H), H0. cbn.
    destruct (has_content doc) eqn:Hc; cbn; [reflexivity |].
    now rewrite (convert_without_content doc Hc).
  - intros Hc. rewrite H, (extractDocId_truthy _ H), H0. cbn. now rewrite Hc.
Qed.

End ContentsProperties.

(** X23, X24 and X25 on sample stores. *)
Lemma detect_document_url_sample :
  detectDocumentType (fun _ => throw (Error "offline"))
    "https://docs.google.com/document/d/1AbC_d-9/edit"
  = ok ("1AbC_d-9", document)
  /\ extractDocId "https://docs.google.com/document/d/1AbC_d-9/edit" = Some "1AbC_d-9".
Proof.
  apply (@detect_document_url (fun _ => throw (Error "offline"))
           "docs.google.com" "1AbC_d-9" "/edit"); reflexivity.
Defined.

Lemma detect_bare_id_sample :
  detectDocumentType (fun _ => ok (Some "application/pdf")) "1AbC_d-9"
  = throw (Error "Failed to detect file type: Unsupported file type: application/pdf")
  /\ detectDocumentType (fun _ => ok (Some "application/vnd.google-apps.spreadsheet"))
       "1AbC_d-9"
     = ok ("1AbC_d-9", spreadsheet).
Proof.
  split.
  - apply (proj2 (proj2 (proj2 (@detect_bare_id (fun _ => ok (Some "application/pdf"))
                                   "1AbC_d-9" eq_refl eq_refl)))
             (Some "application/pdf")); reflexivity.
  - apply (proj1 (proj2 (proj2 (@detect_bare_id
                                   (fun _ => ok (Some "application/vnd.google-apps.spreadsheet"))
                                   "1AbC_d-9" eq_refl eq_refl)))).
    reflexivity.
Defined.

Lemma getDocContents_outcomes_sample :
  getDocContents (fun _ => throw (Error "Requested entity was not found."))
    (fun _ => "{}") "doc-1" markdown
  = throw (Error "Failed to get document: Requested entity was not found.")
  /\ getDocContents (fun _ => ok (Doc.mkDocument None)) (fun _ => "{}") "doc-1" markdown
     = ok EmptyString.
Proof.
  split.
  - apply (proj1 (proj2 (@getDocContents_outcomes
                           (fun _ => throw (Error "Requested entity was not found."))
                           (fun _ => "{}") "doc-1"))
             "doc-1" (Error "Requested entity was not found.") markdown); reflexivity.
  - apply (proj1 (proj2 (proj2 (@getDocContents_outcomes
                           (fun _ => ok (Doc.mkDocument None))
                           (fun _ => "{}") "doc-1"))
             "doc-1" (Doc.mkDocument None) eq_refl eq_refl)).
Defined.

(** ** The renderer, beyond the claims *)

Lemma trim_end_idempotent (s : string) : Js.trim_end (Js.trim_end s) = Js.trim_end s.
Proof.
  induction s as [| c s IH]; cbn [Js.trim_end].
  - reflexivity.
  - destruct (Js.trim_end s) as [| k kept] eqn:E.
    + destruct (Js.is_space c) eqn:Hc; cbn [Js.trim_end]; [reflexivity | now rewrite Hc].
    + cbn [Js.trim_end]. cbn [Js.trim_end] in IH. now rewrite IH.
Qed.

Lemma trim_start_head (s : string) :
  Js.trim_start s = EmptyString
  \/ exists c rest, Js.trim_start s = String c rest /\ Js.is_space c = false.
Proof.
  induction s as [| c s IH]; cbn [Js.trim_start].
  - now left.
  - destruct (Js.is_space c) eqn:Hc; [exact IH | right; eauto].
Qed.

Lemma trim_end_head (c : ascii) (rest : string) :
  Js.is_space c = false -> exists kept, Js.trim_end (String c rest) = String c kept.
Proof.
  intros Hc. cbn [Js.trim_end]. destruct (Js.trim_end rest); [rewrite Hc |]; eauto.
Qed.

(** Trimming a trimmed text changes nothing. *)
Lemma trim_idempotent (s : string) : Js.trim (Js.trim s) = Js.trim s.
Proof.
  unfold Js.trim.
  destruct (trim_start_head s) as [-> | [c [rest [-> Hc]]]]; [reflexivity |].
  destruct (trim_end_head c rest Hc) as [kept Hkept].
  rewrite Hkept. cbn [Js.trim_start]. rewrite Hc, <- Hkept.
  apply trim_end_idempotent.
Qed.

(** The loop of [convertDocToMarkdown] appends the renderings of the
    elements. *)
Lemma convert_loop (elements : list Doc.StructuralElement) :
  forall text,
    fold_left
      (fun text element =>
         match Doc.paragraph element, Doc.table element with
         | Some par, _ => text ++ processParagraph par
         | None, Some tbl => text ++ processTable tbl
         | None, None =>
             if Doc.sectionBreak element
             then text ++ Js.nl ++ "---" ++ Js.nl ++ Js.nl
             else text
         end)
      elements text
    = text ++ String.concat EmptyString (map element_markdown elements).
Proof.
  induction elements as [| element elements IH]; intros text; cbn [fold_left map].
  - cbn. now rewrite append_empty_r.
  - rewrite IH, concat_empty_cons. unfold element_markdown at 2.
    destruct (Doc.paragraph element), (Doc.table element);
      try (now rewrite append_assoc).
    destruct (Doc.sectionBreak element); [now rewrite append_assoc |].
    cbn [append]. reflexivity.
Qed.

(** X25: the Markdown of a document has no white space at either end:
    trimming it again changes nothing. *)
Theorem convert_trimmed (doc : Doc.Document) :
  Js.trim (convertDocToMarkdown doc) = convertDocToMarkdown doc.
Proof.
  unfold convertDocToMarkdown.
  destruct (Doc.body doc) as [b |]; [| reflexivity].
  destruct (Doc.body_content b); [apply trim_idempotent | reflexivity].
Qed.

(** X26: the Markdown of a document is the trimmed concatenation of the
    renderings of its structural elements, in order; an element that is
    neither a paragraph, a table nor a section break adds nothing, and an
    element that has a paragraph is rendered as that paragraph only. *)
Theorem convert_by_element (doc : Doc.Document) :
  convertDocToMarkdown doc =
  Js.trim (String.concat EmptyString (map element_markdown (document_elements doc))).
Proof.
  unfold convertDocToMarkdown, document_elements.
  destruct (Doc.body doc) as [b |]; [| reflexivity].
  destruct (Doc.body_content b) as [elements |]; [| reflexivity].
  cbn [or_empty]. now rewrite convert_loop.
Qed.

Lemma includes_unfold (needle hay : string) :
  Js.includes needle hay =
  String.prefix needle hay
  || match hay with
     | EmptyString => false
     | String _ rest => Js.includes needle rest
     end.
Proof. destruct hay; reflexivity. Qed.

Lemma prefix_app (needle : string) :
  forall hay after,
    String.prefix needle hay = true -> String.prefix needle (hay ++ after) = true.
Proof.
  induction needle as [| a needle IH]; intros hay after H.
  - destruct (hay ++ after); reflexivity.
  - destruct hay as [| b hay]; cbn in H |- *; [discriminate |].
    destruct (ascii_dec a b); [now apply IH | discriminate].
Qed.

Lemma prefix_refl (s : string) : String.prefix s s = true.
Proof.
  induction s as [| a s IH]; cbn; [reflexivity |].
  destruct (ascii_dec a a); [exact IH | contradiction].
Qed.

Lemma includes_refl (s : string) : Js.includes s s = true.
Proof. rewrite includes_unfold, prefix_refl. reflexivity. Qed.

Lemma includes_app_after (needle hay after : string) :
  Js.includes needle hay = true -> Js.includes needle (hay ++ after) = true.
Proof.
  induction hay as [| c hay IH]; rewrite includes_unfold; intros H.
  - rewrite orb_false_r in H. rewrite includes_unfold.
    rewrite (prefix_app needle EmptyString after H). reflexivity.
  - apply orb_true_iff in H. rewrite includes_unfold.
    destruct H as [H | H].
    + rewrite (prefix_app needle (String c hay) after H). reflexivity.
    + cbn [append]. rewrite (IH H). apply orb_true_r.
Qed.

Lemma includes_app_before (needle before hay : string) :
  Js.includes needle hay = true -> Js.includes needle (before ++ hay) = true.
Proof.
  intros H. induction before as [| c before IH]; [exact H |].
  cbn [append]. rewrite includes_unfold, IH. apply orb_true_r.
Qed.

Lemma includes_wrapped (needle opening closing hay : string) :
  Js.includes needle hay = true ->
  Js.includes needle (opening ++ hay ++ closing) = true.
Proof.
  intros H. now apply includes_app_before, includes_app_after.
Qed.

(** X27: the Style Composer never loses text: the text of a run is a part
    of its rendering, whatever its style. *)
Theorem run_text_kept (run : Doc.TextRun) :
  Js.includes (run_text run) (processTextRun run) = true.
Proof.
  unfold processTextRun, run_text.
  destruct (Doc.textStyle run) as [style |]; [| apply includes_refl].
  destruct (String.eqb (Js.or_default (Doc.content run) EmptyString) Js.nl);
    [apply includes_refl |].
  cbv zeta.
  repeat match goal with
         | |- context [if ?b then _ else _] => destruct b
         end;
    repeat apply includes_wrapped; apply includes_refl.
Qed.

Lemma count_newlines_app (a b : string) :
  count_newlines (a ++ b) = (count_newlines a + count_newlines b)%nat.
Proof.
  induction a as [| c a IH]; cbn [append count_newlines]; [reflexivity |].
  rewrite IH. lia.
Qed.

Lemma no_newline_after_collapse (s : string) :
  count_newlines (Js.newlines_to_spaces s) = 0%nat.
Proof.
  induction s as [| c s IH]; cbn [Js.newlines_to_spaces count_newlines]; [reflexivity |].
  rewrite IH. destruct (Js.is_newline c) eqn:Hc; [reflexivity | now rewrite Hc].
Qed.

Lemma no_newline_trim_start (s : string) :
  count_newlines s = 0%nat -> count_newlines (Js.trim_start s) = 0%nat.
Proof.
  induction s as [| c s IH]; cbn [Js.trim_start]; [tauto |].
  intros H. destruct (Js.is_space c); [| exact H].
  apply IH. cbn [count_newlines] in H. lia.
Qed.

Lemma no_newline_trim_end (s : string) :
  count_newlines s = 0%nat -> count_newlines (Js.trim_end s) = 0%nat.
Proof.
  induction s as [| c s IH]; cbn [Js.trim_end]; [tauto |].
  intros H. cbn [count_newlines] in H.
  assert (Hc : (if Js.is_newline c then 1 else 0)%nat = 0%nat) by lia.
  assert (Hs : count_newlines s = 0%nat) by lia.
  specialize (IH Hs).
  destruct (Js.trim_end s).
  - destruct (Js.is_space c); [reflexivity |]. cbn [count_newlines]. lia.
  - cbn [count_newlines] in IH |- *. lia.
Qed.

Lemma no_newline_flatten (c : string) : count_newlines (flatten_run c) = 0%nat.
Proof.
  unfold flatten_run, Js.trim.
  apply no_newline_trim_end, no_newline_trim_start, no_newline_after_collapse.
Qed.

Lemma no_newline_concat (sep : string) (l : list string) :
  count_newlines sep = 0%nat ->
  Forall (fun s => count_newlines s = 0%nat) l ->
  count_newlines (String.concat sep l) = 0%nat.
Proof.
  intros Hsep H. induction H as [| x l Hx Hl IH]; [reflexivity |].
  destruct l as [| y l]; [exact Hx |].
  cbn [String.concat]. cbn [String.concat] in IH.
  rewrite !count_newlines_app, Hx, Hsep, IH. reflexivity.
Qed.

(** The text of a cell has no newline. *)
Lemma no_newline_cell (cell : Doc.TableCell) : count_newlines (cell_text cell) = 0%nat.
Proof.
  rewrite cell_text_markdown. unfold cell_markdown.
  assert (H : count_newlines
                (String.concat EmptyString (map flatten_run (cell_runs cell))) = 0%nat).
  { apply no_newline_concat; [reflexivity |].
    apply Forall_forall. intros s Hin. apply in_map_iff in Hin.
    destruct Hin as [c [<- _]]. apply no_newline_flatten. }
  destruct (String.concat EmptyString (map flatten_run (cell_runs cell)));
    [reflexivity | exact H].
Qed.

Lemma one_newline_per_line (cells : list string) :
  Forall (fun s => count_newlines s = 0%nat) cells ->
  count_newlines ("| " ++ Js.join " | " cells ++ " |" ++ Js.nl) = 1%nat.
Proof.
  intros H. unfold Js.join.
  rewrite !count_newlines_app, (@no_newline_concat " | " cells eq_refl H).
  reflexivity.
Qed.

Lemma table_loop_newlines (rows : list Doc.TableRow) :
  forall i text,
    count_newlines (table_rows_loop i rows text)
    = (count_newlines text + List.length rows
       + (if Nat.eqb i 0 then (if Nat.eqb (List.length rows) 0 then 0 else 1) else 0))%nat.
Proof.
  induction rows as [| row rows IH]; intros i text; cbn [table_rows_loop List.length].
  - destruct (Nat.eqb i 0); cbn; lia.
  - assert (Hcells : Forall (fun s => count_newlines s = 0%nat)
                       (map cell_text (or_empty (Doc.tableCells row)))).
    { apply Forall_forall. intros s Hin. apply in_map_iff in Hin.
      destruct Hin as [cell [<- _]]. apply no_newline_cell. }
    assert (Hdashes : Forall (fun s => count_newlines s = 0%nat)
                        (map (fun _ : string => "---")
                           (map cell_text (or_empty (Doc.tableCells row))))).
    { apply Forall_forall. intros s Hin. apply in_map_iff in Hin.
      destruct Hin as [x [<- _]]. reflexivity. }
    rewrite IH. cbn [Nat.eqb].
    destruct (Nat.eqb i 0).
    + rewrite !count_newlines_app.
      rewrite <- !count_newlines_app.
      rewrite count_newlines_app, (count_newlines_app text).
      rewrite (one_newline_per_line Hcells), (one_newline_per_line Hdashes). lia.
    + rewrite count_newlines_app, (one_newline_per_line Hcells). lia.
Qed.

(** X28: a table with rows is rendered on one line per row, plus the line
    of the separator, between two newlines; no text of a cell can break a
    line, for it holds no newline. *)
Theorem table_line_count (table : Doc.Table) :
  or_empty (Doc.tableRows table) <> [] ->
  count_newlines (processTable table)
  = (List.length (or_empty (Doc.tableRows table)) + 3)%nat
  /\ (forall cell, count_newlines (cell_text cell) = 0%nat).
Proof.
  intros Hrows. split; [| exact no_newline_cell].
  unfold processTable.
  destruct (or_empty (Doc.tableRows table)) as [| row rows]; [contradiction |].
  cbn [List.length Nat.eqb].
  rewrite count_newlines_app, table_loop_newlines. cbn. lia.
Qed.

Lemma table_line_count_sample :
  count_newlines
    (processTable (table_of [ [ [ "Name" ]; [ "Age" ] ]; [ [ "Ann" ++ Js.nl ]; [] ] ]))
  = 5%nat
  /\ (forall cell, count_newlines (cell_text cell) = 0%nat).
Proof.
  apply (@table_line_count
           (table_of [ [ [ "Name" ]; [ "Age" ] ]; [ [ "Ann" ++ Js.nl ]; [] ] ])).
  discriminate.
Defined.

(** X29: the rendering of a paragraph always ends with a newline, so that
    the text of the next block starts on a line of its own. *)
Theorem paragraph_ends_line (p : Doc.Paragraph) :
  exists body, processParagraph p = body ++ Js.nl.
Proof.
  unfold processParagraph.
  destruct (negb (Js.truthy_string (Js.strip_trailing_newlines (paragraph_text p))));
    [exists EmptyString; reflexivity |].
  repeat match goal with
         | |- context [if ?b then _ else _] =>
             destruct b;
             [eexists; rewrite <- !append_assoc; reflexivity |]
         end.
  unfold list_item_or_plain.
  destruct (Doc.bullet p); eexists; rewrite <- !append_assoc; reflexivity.
Qed.
